(** * Course registration system: calendar, credential store, workflow engine

    A shallow embedding of [src/app.py] (the scheduling-and-registration
    core) together with the properties its specification states about it.

    Conventions.
    - A naive [datetime] is a point on the proleptic Gregorian time line,
      counted in microseconds since [datetime.min] (0001-01-01T00:00:00).
      Its fields are recovered by division, [replace] rebuilds it from
      them, and a [timedelta] is a difference of two such counts.  Python
      raises [OverflowError] beyond year 9999; the time line here is not
      cut off.
    - Text is a [string] whose characters are the code points below 256;
      a file is the text that [open(path, 'r')] delivers, and a write to
      it succeeds.
    - Python sets of course numbers are [gset string]; the files the
      program opens itself are a [gmap] from path to contents.  The log
      files, which the handlers of [logging] append to, are not part of
      it. *)

From Stdlib Require Import ZArith Lia Ascii.
From stdpp Require Import base decidable option list sorting gmap strings pretty.

Local Open Scope Z_scope.

#[local] Set Warnings "-clear-no-such-hyp".

(** ** datetime *)

Module DT.

Abbreviation datetime := Z (only parsing).
Abbreviation timedelta := Z (only parsing).

Definition us_per_second : Z := 1000000.
Definition us_per_minute : Z := 60 * us_per_second.
Definition us_per_hour : Z := 3600 * us_per_second.
Definition us_per_day : Z := 86400 * us_per_second.

(** [timedelta(days=n)], [timedelta(minutes=n)], [timedelta(seconds=n)] *)
Definition days (n : Z) : timedelta := n * us_per_day.
Definition minutes (n : Z) : timedelta := n * us_per_minute.
Definition seconds (n : Z) : timedelta := n * us_per_second.

(** [d.toordinal()]: day 1 is 0001-01-01. *)
Definition toordinal (d : datetime) : Z := d / us_per_day + 1.

(** [d.weekday()]: Monday is 0, Sunday is 6. *)
Definition weekday (d : datetime) : Z := (toordinal d + 6) mod 7.

(** [d.time()], as microseconds since midnight. *)
Definition time (d : datetime) : Z := d mod us_per_day.

Definition hour (d : datetime) : Z := time d / us_per_hour.
Definition minute (d : datetime) : Z := (time d mod us_per_hour) / us_per_minute.
Definition second (d : datetime) : Z := (time d mod us_per_minute) / us_per_second.
Definition microsecond (d : datetime) : Z := time d mod us_per_second.

(** The time of day [h:m:00.000000]. *)
Definition time_of (h m : Z) : Z := h * us_per_hour + m * us_per_minute.

(** [d.replace(hour=h, minute=m, second=0, microsecond=0)] *)
Definition replace_hm (d : datetime) (h m : Z) : datetime :=
  (toordinal d - 1) * us_per_day + time_of h m.

(** [td.total_seconds()] is the microsecond count divided by 10^6 as a
    float.  The counts compared below stay under 2^53, where that
    division is exact enough to be ordered like the integers, so
    [abs(td.total_seconds()) <= s] is the integer comparison. *)
Definition abs_total_seconds_le (td : timedelta) (s : Z) : bool :=
  bool_decide (Z.abs td ≤ seconds s).

(** Calendar dates, the way [datetime(y, m, d, ...)] counts them. *)
Definition is_leap (y : Z) : bool :=
  (y mod 4 =? 0) && (negb (y mod 100 =? 0) || (y mod 400 =? 0)).

Definition days_before_year (y : Z) : Z :=
  let p := y - 1 in p * 365 + p / 4 - p / 100 + p / 400.

Definition days_in_month (y m : Z) : Z :=
  if m =? 2 then (if is_leap y then 29 else 28)
  else if (m =? 4) || (m =? 6) || (m =? 9) || (m =? 11) then 30 else 31.

Fixpoint days_before_month_aux (y : Z) (m : nat) : Z :=
  match m with
  | O => 0
  | S k => days_before_month_aux y k + days_in_month y (Z.of_nat (S k))
  end.

Definition days_before_month (y m : Z) : Z :=
  days_before_month_aux y (Z.to_nat (m - 1)).

Definition ymd2ord (y m d : Z) : Z :=
  days_before_year y + days_before_month y m + d.

(** [datetime(y, mo, d, h, mi, s, us)] *)
Definition make (y mo d h mi s us : Z) : datetime :=
  (ymd2ord y mo d - 1) * us_per_day
  + h * us_per_hour + mi * us_per_minute + s * us_per_second + us.

End DT.

(** ** Course calendar *)

(** An entry of [course_day_time_mapping].  The source keeps
    ["start_time"] as the text ["HH:MM"] and reads it back with
    [datetime.strptime(_, "%H:%M")]; the entry holds the two fields that
    call yields. *)
Record course_info := CourseInfo {
  day_index : Z;
  start_hour : Z;
  start_minute : Z
}.

Definition course_day_time_mapping : list (string * course_info) :=
  [ ("051001",  CourseInfo 2 18 0);
    ("051002",  CourseInfo 4 16 30);
    ("051003",  CourseInfo 6 15 15);
    ("051011",  CourseInfo 1 21 0);
    ("051012",  CourseInfo 4 18 0);
    ("0510011", CourseInfo 2 18 30) ].

(** [mapping.get(key)] on a dict written as its item list. *)
Fixpoint dict_get {V} (m : list (string * V)) (k : string) : option V :=
  match m with
  | [] => None
  | (k', v) :: rest => if String.eqb k k' then Some v else dict_get rest k
  end.

Definition start_time (ci : course_info) : Z :=
  DT.time_of (start_hour ci) (start_minute ci).

Definition calculate_next_course_time
    (course_number : string) (current_time : DT.datetime) : option DT.datetime :=
  match dict_get course_day_time_mapping course_number with
  | None => None
  | Some ci =>
      let course_start_datetime :=
        DT.replace_hm current_time (start_hour ci) (start_minute ci) in
      let days_difference := (day_index ci - DT.weekday current_time) mod 7 in
      let days_difference :=
        if (days_difference =? 0) && (start_time ci <? DT.time current_time)
        then 7 else days_difference in
      Some (course_start_datetime + DT.days days_difference)
  end.

Definition get_registration_time (course_start_time : DT.datetime) : DT.datetime :=
  course_start_time - DT.minutes 7.

(** The datetime [course_has_just_started] compares [current_time] with:
    the course's slot on the first day from today on (today included)
    that falls on the course's weekday. *)
Definition this_week_start (ci : course_info) (current_time : DT.datetime) : DT.datetime :=
  let course_start_datetime :=
    DT.replace_hm current_time (start_hour ci) (start_minute ci) in
  let days_difference := (day_index ci - DT.weekday current_time) mod 7 in
  course_start_datetime + DT.days days_difference.

Definition course_has_just_started
    (course_number : string) (current_time : DT.datetime) : bool :=
  match dict_get course_day_time_mapping course_number with
  | None => false
  | Some ci =>
      DT.abs_total_seconds_le (current_time - this_week_start ci current_time) 2500
  end.

(** A job of the [schedule] library as line 432 creates it:
    [every().day.at("HH:MM").do(check_and_register_courses, ...)], tagged
    ["course_<number>"].  It holds a time of day, not a date: the
    registration time itself is only logged. *)
Record job := Job {
  job_course : string;
  job_at : Z * Z
}.

Definition job_tag (j : job) : string := "course_" +:+ job_course j.

(** The loop body of [schedule_course_registrations]: the job list after
    [schedule.clear()] is extended, or the course is passed over. *)
Definition schedule_one (current_time : DT.datetime)
    (jobs : list job) (course_number : string) : list job :=
  match calculate_next_course_time course_number current_time with
  | None => jobs
  | Some next_course_time =>
      let registration_time := get_registration_time next_course_time in
      if registration_time <=? current_time then jobs
      else jobs ++ [Job course_number
                        (DT.hour registration_time, DT.minute registration_time)]
  end.

Definition schedule_course_registrations (current_time : DT.datetime) : list job :=
  fold_left (schedule_one current_time) (map fst course_day_time_mapping) [].

(** ** Text *)

Definition newline : ascii := "010"%char.
Definition comma : ascii := ","%char.
Definition bang : ascii := "!"%char.
Definition nl : string := String newline "".

(** [c.isspace()] on the characters below 256: TAB, LF, VT, FF, CR, the
    four separators FS, GS, RS, US, the blank, NEL and the no-break
    space. *)
Definition is_space (c : ascii) : bool :=
  let n := nat_of_ascii c in
  ((9 <=? n) && (n <=? 13) || (28 <=? n) && (n <=? 32)
   || (n =? 133) || (n =? 160))%nat.

Fixpoint lstrip (s : string) : string :=
  match s with
  | EmptyString => EmptyString
  | String c r => if is_space c then lstrip r else s
  end.

Fixpoint rstrip (s : string) : string :=
  match s with
  | EmptyString => EmptyString
  | String c r =>
      match rstrip r with
      | EmptyString => if is_space c then EmptyString else String c EmptyString
      | r' => String c r'
      end
  end.

(** [s.strip()] *)
Definition strip (s : string) : string := rstrip (lstrip s).

(** [s.split(sep)] for a one-character separator: never empty. *)
Fixpoint split (sep : ascii) (s : string) : list string :=
  match s with
  | EmptyString => [EmptyString]
  | String c r =>
      if Ascii.eqb c sep then EmptyString :: split sep r
      else match split sep r with
           | [] => [String c EmptyString]
           | p :: ps => String c p :: ps
           end
  end.

(** [s.startswith("!")] and [s[1:]] *)
Definition startswith_bang (s : string) : bool :=
  match s with
  | String c _ => Ascii.eqb c bang
  | EmptyString => false
  end.

Definition tail (s : string) : string :=
  match s with
  | String _ r => r
  | EmptyString => EmptyString
  end.

(** [sep.join(l)] *)
Definition join (sep : string) (l : list string) : string := String.concat sep l.

(** [file.readlines()]: every line keeps its terminator; the last one
    may lack it. *)
Fixpoint readlines (s : string) : list string :=
  match s with
  | EmptyString => []
  | String c r =>
      if Ascii.eqb c newline then String c EmptyString :: readlines r
      else match readlines r with
           | [] => [String c EmptyString]
           | l :: ls => String c l :: ls
           end
  end.

(** What [file.writelines(lines)] leaves in a file opened with ['w']. *)
Definition writelines (lines : list string) : string := String.concat "" lines.

(** What a file opened with ['r'] delivers of a text that was written
    with a carriage return in it: universal newlines turn ["\r\n"] and a
    lone ["\r"] into ["\n"]. *)
Definition carriage_return : ascii := "013"%char.

Fixpoint universal_newlines (s : string) : string :=
  match s with
  | EmptyString => EmptyString
  | String c r =>
      if Ascii.eqb c carriage_return then
        String newline
          match r with
          | EmptyString => EmptyString
          | String c' r' =>
              if Ascii.eqb c' newline then universal_newlines r'
              else universal_newlines r
          end
      else String c (universal_newlines r)
  end.

(** [sorted(s)] of a set of strings: ascending by character code. *)
Definition sorted (s : gset string) : list string :=
  merge_sort String.le (elements s).

(** ** Credential store *)

(** The files the program opens with [open], and every [open(path, 'w')]
    made with what was written, in order.  The log files are left out:
    [setup_logging] opens, and creates if missing, a log file under
    [/app/data/logs] on every invocation, and the handlers of [logging]
    append to them. *)
Record world := World {
  files : gmap string string;
  write_log : list (string * string)
}.

(** [with open(path, 'w') as file: file.writelines(lines)], for the
    lines of a credentials file the engine writes back: they are the
    lines [readlines] delivered, with the course line put in. *)
Definition write_file (path : string) (lines : list string) (w : world) : world :=
  World (<[path := writelines lines]> (files w))
        (write_log w ++ [(path, writelines lines)]).

(** A call either returns or leaves through [sys.exit(code)]. *)
Inductive result (A : Type) :=
| Return (a : A)
| SysExit (code : Z).
Arguments Return {A} a.
Arguments SysExit {A} code.

Record credentials := Credentials {
  email : string;
  password : string;
  existing_days : gset string;
  excluded_days : gset string;
  lines : list string
}.

(** [lines[2] = x] on a list known to have a third element. *)
Definition set_third (lines : list string) (x : string) : list string :=
  <[2%nat := x]> lines.

(** The tokens of the course line: [[day.strip() for day in line.split(",")]] *)
Definition all_days_of (line : string) : list string :=
  map strip (split comma line).

Definition existing_of (all_days : list string) : gset string :=
  list_to_set (filter (λ day, negb (startswith_bang day)) all_days).

Definition excluded_of (all_days : list string) : gset string :=
  list_to_set (map tail (filter (λ day, startswith_bang day) all_days)).

(** Truth value of a string: [if s:] *)
Definition nonempty (s : string) : bool :=
  match s with
  | EmptyString => false
  | String _ _ => true
  end.

(** Lines 122-131: the two sets the third line stands for, and the list
    [lines] after the optional [append]. *)
Definition parse_course_line (lines : list string)
    : gset string * gset string * list string :=
  if (3 <=? length lines)%nat && nonempty (strip (nth 2 lines EmptyString)) then
    let all_days := all_days_of (nth 2 lines EmptyString) in
    (existing_of all_days, excluded_of all_days, lines)
  else
    (∅, ∅, if (length lines <? 3)%nat then lines ++ [nl] else lines).

(** The text of the third line: [", ".join(sorted(reg) + ["!" + d for d
    in sorted(exc)]) + "\n"]. *)
Definition all_days_combined (reg exc : gset string) : list string :=
  sorted reg ++ map (String bang) (sorted exc).

Definition course_line (reg exc : gset string) : string :=
  join ", " (all_days_combined reg exc) +:+ nl.

(** Lines 140-143 and 379-384: the third line is rebuilt from the two
    sets and all lines go back to the file. *)
Definition set_course_line (lines : list string) (reg exc : gset string)
    : list string :=
  set_third lines (course_line reg exc).

Definition courses_to_remove (existing : gset string) (current_time : DT.datetime)
    : gset string :=
  filter (λ course, course_has_just_started course current_time = true) existing.

Definition read_credentials_file
    (credentials_file : string) (current_time : DT.datetime) (w : world)
    : result credentials * world :=
  match files w !! credentials_file with
  | None => (SysExit 1, w)
  | Some text =>
      let lines := readlines text in
      if (length lines <? 2)%nat then (SysExit 1, w)
      else
        let email := strip (nth 0 lines EmptyString) in
        let password := strip (nth 1 lines EmptyString) in
        let '(existing_days, excluded_days, lines) := parse_course_line lines in
        let to_remove := courses_to_remove existing_days current_time in
        if decide (to_remove = ∅) then
          (Return (Credentials email password existing_days excluded_days lines), w)
        else
          let existing_days := existing_days ∖ to_remove in
          let lines := set_course_line lines existing_days excluded_days in
          (Return (Credentials email password existing_days excluded_days lines),
           write_file credentials_file lines w)
  end.

(** ** Registration workflow engine *)

(** What the booking site does once the button at one index has been
    clicked (lines 281-366), as far as the code tells the cases apart. *)
Inductive confirm_response :=
| Raises_in_confirm      (* an element of lines 336-351 is missing *)
| Title_bestaetigung     (* driver.title == 'Bestätigung' *)
| Text_booking_failed    (* 'Ihre Buchung konnte nicht ausgeführt werden.' *)
| Other_page.

Inductive site_response :=
| Raises_before_login    (* an exception in lines 281-330 outside the inner try,
                            the click itself included *)
| Window_missing         (* no handle other than the original window *)
| Booking_missing        (* no input with value "buchen" *)
| Logged_in (r : confirm_response).

(** Everything one invocation reads from outside: the clock and the
    browser.  A button of the page is given by the course number of its
    row, the text of the row's [bs_sknr] cell, or by [None] where the
    lookup of lines 249-251 raises. *)
Record env := Env {
  datetime_now : DT.datetime;       (* datetime.now() of line 206 *)
  time_time : nat → Z;              (* successive time.time() readings, microseconds *)
  setup_ok : bool;                  (* setup_webdriver returns a driver *)
  page_loads : bool;                (* driver.get and the window handle succeed *)
  find_buttons : option (list (option string));
                                    (* the buttons found at line 243, unless the
                                       call raises *)
  updated_courses : nat → option (list (option string));
                                    (* the buttons found again at line 274 when the
                                       loop is at an index, unless the call raises *)
  respond : nat → site_response;    (* what follows the click made at an index *)
  cleanup_raises : nat → bool       (* the finally block of line 371 raises *)
}.

(** How a course of [available_days] was dealt with, one constructor per
    log message of the loop. *)
Inductive outcome :=
| Skipped_excluded             (* "(marked as excluded)" *)
| Skipped_in_configuration     (* "(already in configuration)" *)
| Index_out_of_bounds
| No_new_window                (* "Failed to open new window" *)
| No_booking_available
| Error_processing_course      (* the handler of line 368 *)
| Error_during_registration    (* the handler of line 365 *)
| Successfully_registered
| Already_registered           (* "You are already registered for this course" *)
| Unknown_status.

(** The outcomes recorded after a button was clicked or, for the handler
    of line 368, possibly just before: a booking may have been
    attempted. *)
Definition booking_attempted (o : outcome) : bool :=
  match o with
  | Skipped_excluded | Skipped_in_configuration | Index_out_of_bounds => false
  | _ => true
  end.

Definition max_runtime : Z := DT.seconds 900.

Record loop_state := LoopState {
  clock : nat;                           (* time.time() readings taken so far *)
  signed_up_days : gset string;
  outcomes : list (string * outcome);
  clicked : list (option string)         (* the buttons click() was called on *)
}.

(** [check_timeout()]: [true] when it raises [TimeoutError]. *)
Definition check_timeout (e : env) (start_time : Z) (st : loop_state)
    : bool * loop_state :=
  (max_runtime <? time_time e (clock st) - start_time,
   LoopState (S (clock st)) (signed_up_days st) (outcomes st) (clicked st)).

Definition record_outcome (st : loop_state) (coursenr : string) (o : outcome)
    : loop_state :=
  LoopState (clock st) (signed_up_days st) (outcomes st ++ [(coursenr, o)])
            (clicked st).

Definition sign_up (st : loop_state) (coursenr : string) : loop_state :=
  LoopState (clock st) ({[coursenr]} ∪ signed_up_days st) (outcomes st)
            (clicked st).

(** [updated_courses[idx].click()] *)
Definition click (st : loop_state) (button : option string) : loop_state :=
  LoopState (clock st) (signed_up_days st) (outcomes st) (clicked st ++ [button]).

(** Lines 272-375 for one course that passed both filters.  The button
    clicked is the one at position [idx] of the buttons found again,
    where [idx] counts the course numbers that could be read. *)
Definition attempt_course (e : env) (start_time : Z) (idx : nat)
    (coursenr : string) (st : loop_state) : loop_state :=
  match updated_courses e idx with
  | None => record_outcome st coursenr Error_processing_course
  | Some updated =>
      match updated !! idx with
      | None => record_outcome st coursenr Index_out_of_bounds
      | Some button =>
          let st := click st button in
          match respond e idx with
          | Raises_before_login => record_outcome st coursenr Error_processing_course
          | Window_missing => record_outcome st coursenr No_new_window
          | Booking_missing => record_outcome st coursenr No_booking_available
          | Logged_in r =>
              let '(timed_out, st) := check_timeout e start_time st in
              if timed_out then
                (* TimeoutError is an Exception: line 368 catches it *)
                record_outcome st coursenr Error_processing_course
              else
                match r with
                | Raises_in_confirm =>
                    record_outcome st coursenr Error_during_registration
                | Title_bestaetigung =>
                    record_outcome (sign_up st coursenr) coursenr
                      Successfully_registered
                | Text_booking_failed =>
                    record_outcome (sign_up st coursenr) coursenr
                      Already_registered
                | Other_page => record_outcome st coursenr Unknown_status
                end
          end
      end
  end.

(** How the loop of line 260 is left. *)
Inductive loop_end :=
| Loop_finished        (* every course was dealt with *)
| Loop_timed_out       (* the check of line 262 raised TimeoutError *)
| Loop_failed.         (* the finally block of line 371 raised *)

(** The loop of line 260 from index [idx] on. *)
Fixpoint process_courses (e : env) (c : credentials) (start_time : Z)
    (idx : nat) (available_days : list string) (st : loop_state)
    : loop_end * loop_state :=
  match available_days with
  | [] => (Loop_finished, st)
  | coursenr :: rest =>
      let '(timed_out, st) := check_timeout e start_time st in
      if timed_out then (Loop_timed_out, st)
      else if decide (coursenr ∈ excluded_days c) then
        process_courses e c start_time (S idx) rest
          (record_outcome st coursenr Skipped_excluded)
      else if decide (coursenr ∈ existing_days c) then
        process_courses e c start_time (S idx) rest
          (record_outcome st coursenr Skipped_in_configuration)
      else
        let st := attempt_course e start_time idx coursenr st in
        if cleanup_raises e idx then (Loop_failed, st)
        else process_courses e c start_time (S idx) rest st
  end.

(** Lines 246-255: the course numbers that could be read. *)
Definition available_days_of (buttons : list (option string)) : list string :=
  omap id buttons.

Inductive ending :=
| Sys_exit (code : Z)          (* read_credentials_file left through sys.exit *)
| Driver_setup_failed          (* "Error setting up WebDriver" *)
| Unexpected_error             (* the handler of line 391 *)
| Timed_out                    (* the handler of line 389 *)
| File_updated (all_days excluded_days : gset string).
                               (* lines 377-385 ran and wrote these two sets *)

Record run := Run {
  run_ending : ending;
  run_outcomes : list (string * outcome);
  run_clicked : list (option string);
  run_world : world
}.

(** [check_and_register_courses] on the store of credential files.  The
    call of [setup_logging] (line 211) and the messages logged are left
    out with the log files. *)
Definition check_and_register_courses
    (credentials_file : string) (e : env) (w : world) : run :=
  let current_time := datetime_now e in
  let start_time := time_time e 0 in
  match read_credentials_file credentials_file current_time w with
  | (SysExit code, w) => Run (Sys_exit code) [] [] w
  | (Return c, w) =>
      if negb (setup_ok e) then Run Driver_setup_failed [] [] w
      else if negb (page_loads e) then Run Unexpected_error [] [] w
      else
        let '(timed_out, st) :=
          check_timeout e start_time (LoopState 1 ∅ [] []) in
        if timed_out then Run Timed_out [] [] w
        else
          match find_buttons e with
          | None => Run Unexpected_error [] [] w
          | Some buttons =>
              match process_courses e c start_time 0
                      (available_days_of buttons) st with
              | (Loop_timed_out, st) =>
                  Run Timed_out (outcomes st) (clicked st) w
              | (Loop_failed, st) =>
                  Run Unexpected_error (outcomes st) (clicked st) w
              | (Loop_finished, st) =>
                  let all_days := existing_days c ∪ signed_up_days st in
                  let lines :=
                    set_course_line (lines c) all_days (excluded_days c) in
                  Run (File_updated all_days (excluded_days c)) (outcomes st)
                      (clicked st) (write_file credentials_file lines w)
              end
          end
  end.


(** ** Web interface helpers *)

(** [course_day_mapping]: the names used in the log and on the pages. *)
Definition course_day_mapping : list (string * string) :=
  [ ("051001",  "Wednesday 18:00-19:30");
    ("051002",  "Friday 16:30-18:00");
    ("051003",  "Sunday 15:15-16:45");
    ("051011",  "Tuesday 21:00-22:30");
    ("051012",  "Friday 18:00-19:30");
    ("0510011", "Wednesday 18:30-20:30") ].

(** [format_time_until].  [int(time_delta.total_seconds())] cuts the
    fraction off towards zero (the float division is exact enough for
    that below 2^34 seconds); [divmod] rounds down; [f"{n}"] is the
    decimal numeral. *)
Definition format_time_until (time_delta : Z) : string :=
  let total_seconds := Z.quot time_delta DT.us_per_second in
  let days := total_seconds / 86400 in
  let remainder := total_seconds mod 86400 in
  let hours := remainder / 3600 in
  let remainder := remainder mod 3600 in
  let minutes := remainder / 60 in
  let seconds := remainder mod 60 in
  if 0 <? days then
    pretty days +:+ "d " +:+ pretty hours +:+ "h " +:+ pretty minutes +:+ "m"
  else if 0 <? hours then
    pretty hours +:+ "h " +:+ pretty minutes +:+ "m"
  else
    pretty minutes +:+ "m " +:+ pretty seconds +:+ "s".

(** An entry of the list [get_next_registrations] returns. *)
Record registration := Registration {
  course_id : string;
  course_name : string;
  registration_time : string;
  time_until : string
}.

(** [l.sort(key=...)]: ascending by key, entries with equal keys in the
    order they had. *)
Fixpoint insert_by_key {A} (key : A → string) (x : A) (l : list A) : list A :=
  match l with
  | [] => [x]
  | y :: r => if String.leb (key x) (key y) then x :: y :: r
              else y :: insert_by_key key x r
  end.

Definition sort_by_key {A} (key : A → string) (l : list A) : list A :=
  foldr (insert_by_key key) [] l.

Section NextRegistrations.

(** [d.strftime('%Y-%m-%d %H:%M:%S')] of the standard library. *)
Variable strftime : DT.datetime → string.

(** The loop body of [get_next_registrations]. *)
Definition upcoming_one (current_time : DT.datetime)
    (upcoming_registrations : list registration) (course_number : string)
    : list registration :=
  match calculate_next_course_time course_number current_time with
  | None => upcoming_registrations
  | Some next_course_time =>
      let registration_time := get_registration_time next_course_time in
      if current_time <? registration_time then
        upcoming_registrations
        ++ [Registration course_number
              (default "Unknown course" (dict_get course_day_mapping course_number))
              (strftime registration_time)
              (format_time_until (registration_time - current_time))]
      else upcoming_registrations
  end.

Definition get_next_registrations (current_time : DT.datetime)
    : list registration :=
  sort_by_key registration_time
    (fold_left (upcoming_one current_time) (map fst course_day_time_mapping) []).

End NextRegistrations.

(** [l[i:]] *)
Definition slice_from {A} (i : Z) (l : list A) : list A :=
  let n := Z.of_nat (length l) in
  let start := if i <? 0 then Z.max (n + i) 0 else Z.min i n in
  drop (Z.to_nat start) l.

(** [get_recent_logs]: a file that is missing gives the empty list. *)
Definition get_recent_logs (file_path : string) (max_lines : Z) (w : world)
    : list string :=
  match files w !! file_path with
  | Some text => slice_from (- max_lines) (readlines text)
  | None => []
  end.

(** An entry of [get_all_courses]. *)
Record course := Course {
  c_id : string;
  c_name : string;
  c_location : string;
  c_timeframe : string;
  c_instructor : string;
  c_level : string
}.

Definition unihalle : string := "gro" +:+ String "223" "e Unihalle".

Definition get_all_courses : list course :=
  [ Course "051001" "Wednesday 18:00-19:30" unihalle "02.04.-24.09."
      "Timo Klemm" "Stufe 1 / Stufe 2";
    Course "051002" "Friday 16:30-18:00" unihalle "04.04.-26.09."
      "Peter Sieck" "Stufe 1 / Stufe 2";
    Course "051003" "Sunday 15:15-16:45" unihalle "06.04.-28.09."
      "Timo Klemm" "Stufe 1 / Stufe 2";
    Course "051011" "Tuesday 21:00-22:30" unihalle "01.04.-30.09."
      ("Timo B" +:+ String "252" "cken, Timo Klemm") "Stufe 2 / Stufe 3";
    Course "051012" "Friday 18:00-19:30" unihalle "04.04.-26.09."
      "Peter Sieck" "Stufe 2 / Stufe 3";
    Course "0510011" "Wednesday 18:30-20:30"
      ("Baererstra" +:+ String "223" ("e / Mareststra" +:+ String "223"
                                         "e - Dreifelhalle"))
      "02.04.-24.09." "Stefan Zimmer" "Stufe 1 / Stufe 2" ].

(** A value of [status_dict]: the course with its status. *)
Record course_state := CourseState {
  cs_course : course;
  cs_status : string
}.

(** [status_dict], keyed by course id in the order of [get_all_courses]. *)
Definition initial_status_dict : list (string * course_state) :=
  map (λ c, (c_id c, CourseState c "unknown")) get_all_courses.

(** Lines 779-780: [if course_id in status_dict: ...['status'] =
    'registered']. *)
Definition mark_registered (status_dict : list (string * course_state))
    (course_id : string) : list (string * course_state) :=
  map (λ kv, if String.eqb kv.1 course_id
             then (kv.1, CourseState (cs_course kv.2) "registered") else kv)
      status_dict.

(** Lines 783-784: excluded unless the status is 'registered'. *)
Definition mark_excluded (status_dict : list (string * course_state))
    (course_id : string) : list (string * course_state) :=
  map (λ kv, if String.eqb kv.1 course_id
                && negb (String.eqb (cs_status kv.2) "registered")
             then (kv.1, CourseState (cs_course kv.2) "excluded") else kv)
      status_dict.

(** [f'/app/data/credentials/user{i}.txt'] *)
Definition credential_path (i : nat) : string :=
  "/app/data/credentials/user" +:+ pretty i +:+ ".txt".

(** Lines 761-775: the registered and the excluded course numbers
    listed in the credentials file of account [i], when it exists and
    has a third line that is not blank. *)
Definition listed_courses (w : world) (i : nat)
    : option (list string * list string) :=
  match files w !! credential_path i with
  | None => None
  | Some text =>
      let lines := readlines text in
      if (3 <=? length lines)%nat then
        let courses_line := strip (nth 2 lines EmptyString) in
        if nonempty courses_line then
          let courses := map strip (split comma courses_line) in
          Some (filter (λ course, negb (startswith_bang course)) courses,
                map tail (filter (λ course, startswith_bang course) courses))
        else None
      else None
  end.

(** The body of the loop over the accounts. *)
Definition status_of_account (w : world)
    (status_dict : list (string * course_state)) (i : nat)
    : list (string * course_state) :=
  match listed_courses w i with
  | None => status_dict
  | Some (registered_courses, excluded_courses) =>
      fold_left mark_excluded excluded_courses
        (fold_left mark_registered registered_courses status_dict)
  end.

(** Lines 787-789. *)
Definition mark_available (cs : course_state) : course_state :=
  if String.eqb (cs_status cs) "unknown"
  then CourseState (cs_course cs) "available" else cs.

(** [get_course_status], for [n_accounts = len(load_accounts())]; the
    loop uses only the position of each account. *)
Definition get_course_status (n_accounts : nat) (w : world) : list course_state :=
  let status_dict :=
    fold_left (status_of_account w) (seq 0 n_accounts) initial_status_dict in
  map (λ kv, mark_available kv.2) status_dict.

(** An entry of the accounts list; the key 'courses' may be missing. *)
Record account := Account {
  acc_email : string;
  acc_password : string;
  acc_courses : option string
}.

(** Lines 562 and 569: the 'courses' value the account form builds. *)
Definition courses_of_excluded (excluded_courses : list string) : string :=
  join "," (map (String bang) excluded_courses).

(** Lines 499-503 of [run_schedulers]: the credentials file of account
    [i] is written anew, from values that come from the account form and
    not from a file.  The store holds the text as a later
    [open(path, 'r')] delivers it. *)
Definition write_credential_file (i : nat) (a : account) (w : world) : world :=
  World (<[credential_path i :=
             universal_newlines
               (writelines [acc_email a +:+ nl; acc_password a +:+ nl;
                            default EmptyString (acc_courses a) +:+ nl])]>
           (files w))
        (write_log w ++
         [(credential_path i,
           writelines [acc_email a +:+ nl; acc_password a +:+ nl;
                       default EmptyString (acc_courses a) +:+ nl])]).

(** The retry loop of [setup_webdriver]: the attempt on which Firefox
    started, if any of the three did, and the sleeps made, in seconds. *)
Fixpoint setup_attempts (firefox_starts : nat → bool) (attempts : list nat)
    (sleeps : list Z) : option nat * list Z :=
  match attempts with
  | [] => (None, sleeps)
  | attempt :: rest =>
      if firefox_starts attempt then (Some attempt, sleeps)
      else if (attempt <? 2)%nat then
        setup_attempts firefox_starts rest
          (sleeps ++ [(Z.of_nat attempt + 1) * 2])
      else (None, sleeps)
  end.

Definition setup_webdriver (firefox_starts : nat → bool) : option nat * list Z :=
  setup_attempts firefox_starts (seq 0 3) [].

(** ** Notions the properties are stated with *)

(** A table entry names a weekday and a time of day. *)
Definition valid_slot (ci : course_info) : Prop :=
  0 ≤ day_index ci < 7 ∧ 0 ≤ start_hour ci < 24 ∧ 0 ≤ start_minute ci < 60.

(** [t] is an occurrence of the slot: its weekday and its time of day,
    down to the microsecond, are the configured ones. *)
Definition occurrence (ci : course_info) (t : DT.datetime) : Prop :=
  DT.weekday t = day_index ci ∧
  DT.hour t = start_hour ci ∧ DT.minute t = start_minute ci ∧
  DT.second t = 0 ∧ DT.microsecond t = 0.

(** The body of [calculate_next_course_time] once the entry is found. *)
Definition next_start (ci : course_info) (now : DT.datetime) : DT.datetime :=
  let dd := (day_index ci - DT.weekday now) mod 7 in
  DT.replace_hm now (start_hour ci) (start_minute ci)
  + DT.days (if (dd =? 0) && (start_time ci <? DT.time now) then 7 else dd).

(** The two sets a file's text stands for, before any pruning. *)
Definition registered_in (text : string) : gset string :=
  (parse_course_line (readlines text)).1.1.

Definition excluded_in (text : string) : gset string :=
  (parse_course_line (readlines text)).1.2.

(** No character of [s] satisfies [p]. *)
Fixpoint none_of (p : ascii → bool) (s : string) : bool :=
  match s with
  | EmptyString => true
  | String c r => negb (p c) && none_of p r
  end.

(** Every character of [s] is white space. *)
Fixpoint all_space (s : string) : bool :=
  match s with
  | EmptyString => true
  | String c r => is_space c && all_space r
  end.

Definition is_newline (c : ascii) : bool := Ascii.eqb c newline.
Definition is_carriage_return (c : ascii) : bool := Ascii.eqb c carriage_return.

(** A character that ends a line when a file is read: line feed or
    carriage return. *)
Definition is_line_break (c : ascii) : bool :=
  is_newline c || is_carriage_return c.
Definition is_comma (c : ascii) : bool := Ascii.eqb c comma.

(** A plain course number: not empty, no white space, no comma, and no
    exclusion mark in front.  The numbers of the calendar are plain. *)
Definition plain (s : string) : bool :=
  nonempty s && negb (startswith_bang s)
  && none_of is_space s && none_of is_comma s.

(** At most one line: a line break occurs at the very end or not at all. *)
Fixpoint single_line (s : string) : bool :=
  match s with
  | EmptyString => true
  | String c r => if is_newline c then negb (nonempty r) else single_line r
  end.

(** The outcomes after which the loop adds the course to
    [signed_up_days]. *)
Definition registered_by (o : outcome) : bool :=
  match o with
  | Successfully_registered | Already_registered => true
  | _ => false
  end.

Definition signed_up_in (done : list (string * outcome)) : gset string :=
  list_to_set (map fst (filter (λ xo, registered_by xo.2 = true) done)).

(** How the two filters of lines 264-270 decide the outcome of a course. *)
Definition filtered (c : credentials) (xo : string * outcome) : Prop :=
  (xo.1 ∈ excluded_days c → xo.2 = Skipped_excluded) ∧
  (xo.1 ∉ excluded_days c → xo.1 ∈ existing_days c →
   xo.2 = Skipped_in_configuration) ∧
  (xo.1 ∉ excluded_days c → xo.1 ∉ existing_days c →
   xo.2 ≠ Skipped_excluded ∧ xo.2 ≠ Skipped_in_configuration).

(** The course numbers scraped from the page hold no line break. *)
Definition scraped_one_line (e : env) : Prop :=
  ∀ buttons c, find_buttons e = Some buttons →
               c ∈ available_days_of buttons → none_of is_newline c = true.

(** The button found at a position when the loop comes to it carries the
    course number the loop read at that position at the start: so it is
    when every number could be read and the page still lists the same
    buttons. *)
Definition clicks_as_read (e : env) : Prop :=
  ∀ buttons idx coursenr updated button,
    find_buttons e = Some buttons →
    available_days_of buttons !! idx = Some coursenr →
    updated_courses e idx = Some updated →
    updated !! idx = Some button →
    button = Some coursenr.

(** A click the loop makes for the course number at a position of
    [available_days]: the number passed both filters, and the button is
    the one at that position of the buttons found again. *)
Definition click_at (e : env) (c : credentials) (available_days : list string)
    (button : option string) : Prop :=
  ∃ idx coursenr updated,
    available_days !! idx = Some coursenr ∧
    (coursenr ∉ excluded_days c) ∧ (coursenr ∉ existing_days c) ∧
    updated_courses e idx = Some updated ∧ updated !! idx = Some button.

(** Account [i] lists the course as registered, or as excluded, in its
    credentials file the way [get_course_status] reads it. *)
Definition account_registers (w : world) (i : nat) (c : string) : bool :=
  match listed_courses w i with
  | Some (registered_courses, _) => bool_decide (c ∈ registered_courses)
  | None => false
  end.

Definition account_excludes (w : world) (i : nat) (c : string) : bool :=
  match listed_courses w i with
  | Some (_, excluded_courses) => bool_decide (c ∈ excluded_courses)
  | None => false
  end.

(** One entry of [status_dict] through the two loops of an account. *)
Definition entry_registered (kv : string * course_state) (course_id : string)
    : string * course_state :=
  if String.eqb kv.1 course_id
  then (kv.1, CourseState (cs_course kv.2) "registered") else kv.

Definition entry_excluded (kv : string * course_state) (course_id : string)
    : string * course_state :=
  if String.eqb kv.1 course_id
     && negb (String.eqb (cs_status kv.2) "registered")
  then (kv.1, CourseState (cs_course kv.2) "excluded") else kv.

(** The status an entry has after the accounts seen so far. *)
Definition status_after (registered excluded : bool) : string :=
  if registered then "registered" else if excluded then "excluded" else "unknown".

(** ** Sample data *)

(** The account record of the specification's examples: 051001 and
    051011 registered, 051003 excluded. *)
Definition sample_text : string :=
  "a@b.c" +:+ nl +:+ "secret" +:+ nl +:+ "051001, 051011, !051003" +:+ nl.

Definition sample_world : world := World {[ "account" := sample_text ]} [].

(** What a load of it returns when no course has just started. *)
Definition sample_loaded : credentials :=
  Credentials "a@b.c" "secret" {[ "051001"; "051011" ]} {[ "051003" ]}
              (readlines sample_text).

(** Wednesday 2025-06-04, 18:41: forty-one minutes into course 051001. *)
Definition wednesday_1841 : DT.datetime := DT.make 2025 6 4 18 41 0 0.

Definition sample_pruned_lines : list string :=
  ["a@b.c" +:+ nl; "secret" +:+ nl; "051011, !051003" +:+ nl].

Definition sample_pruned : credentials :=
  Credentials "a@b.c" "secret" {[ "051011" ]} {[ "051003" ]} sample_pruned_lines.

Definition sample_pruned_world : world :=
  World {[ "account" := writelines sample_pruned_lines ]}
        [("account", writelines sample_pruned_lines)].

(** An invocation at noon on Thursday 2025-06-05 (no course has just
    started) in which the site lists 051002 and 051012, every booking
    goes through, and the clock has passed the budget when the loop comes
    to its second course. *)
Definition thursday_noon : DT.datetime := DT.make 2025 6 5 12 0 0 0.

Definition late_second_course : env :=
  Env thursday_noon
      (λ k, if (k <? 4)%nat then DT.seconds (Z.of_nat k) else DT.seconds 901)
      true true (Some [Some "051002"; Some "051012"])
      (λ _, Some [Some "051002"; Some "051012"])
      (λ _, Logged_in Title_bestaetigung) (λ _, false).

(** A record in which 051001 is both registered and excluded. *)
Definition overlapping_text : string :=
  "a@b.c" +:+ nl +:+ "secret" +:+ nl +:+ "051001, !051001" +:+ nl.

Definition overlapping_world : world :=
  World {[ "account" := overlapping_text ]} [].

(** An invocation at the same time in which the site lists no course. *)
Definition nothing_listed : env :=
  Env thursday_noon (λ k, DT.seconds (Z.of_nat k))
      true true (Some []) (λ _, Some []) (λ _, Booking_missing) (λ _, false).

(** An invocation at the same time in which the site lists 051011 and
    would accept a booking. *)
Definition lists_051011 : env :=
  Env thursday_noon (λ k, DT.seconds (Z.of_nat k))
      true true (Some [Some "051011"]) (λ _, Some [Some "051011"])
      (λ _, Logged_in Title_bestaetigung) (λ _, false).

(** An invocation at the registration time of 051001, Wednesday
    2025-06-04 17:53, in which the site lists 051001 and answers the
    booking with a page the code does not know. *)
Definition wednesday_1753 : DT.datetime := DT.make 2025 6 4 17 53 0 0.

Definition at_registration_time : env :=
  Env wednesday_1753 (λ k, DT.seconds (Z.of_nat k))
      true true (Some [Some "051001"]) (λ _, Some [Some "051001"])
      (λ _, Logged_in Other_page) (λ _, false).

(** An invocation at noon on Thursday in which the first button's row
    shows no course number, the next two are those of 051003 and 051002,
    and every booking goes through. *)
Definition unreadable_first : env :=
  Env thursday_noon (λ k, DT.seconds (Z.of_nat k))
      true true (Some [None; Some "051003"; Some "051002"])
      (λ _, Some [None; Some "051003"; Some "051002"])
      (λ _, Logged_in Title_bestaetigung) (λ _, false).

(** * Properties *)

(** ** Course calendar *)

Section Calendar.

Ltac dt_unfold :=
  unfold occurrence, valid_slot, start_time, this_week_start,
    get_registration_time, DT.abs_total_seconds_le,
    DT.replace_hm, DT.time_of, DT.weekday, DT.toordinal, DT.time, DT.hour,
    DT.minute, DT.second, DT.microsecond, DT.days, DT.minutes, DT.seconds,
    DT.us_per_day, DT.us_per_hour, DT.us_per_minute, DT.us_per_second in *.

Ltac dt_lia := dt_unfold; Z.div_mod_to_equations; lia.

Lemma weekday_range (d : DT.datetime) : 0 ≤ DT.weekday d < 7.
Proof. dt_lia. Qed.

Lemma time_range (d : DT.datetime) : 0 ≤ DT.time d < DT.us_per_day.
Proof. dt_lia. Qed.

Lemma datetime_split (d : DT.datetime) :
  d = (DT.toordinal d - 1) * DT.us_per_day + DT.time d.
Proof. dt_lia. Qed.

Lemma time_fields (d : DT.datetime) :
  DT.time d = DT.hour d * DT.us_per_hour + DT.minute d * DT.us_per_minute
              + DT.second d * DT.us_per_second + DT.microsecond d.
Proof.
  unfold DT.hour, DT.minute, DT.second, DT.microsecond.
  generalize (DT.time d); intros x.
  assert (Hm : x mod DT.us_per_minute = (x mod DT.us_per_hour) mod DT.us_per_minute).
  { symmetry. apply Z.mod_mod_divide. by exists 60. }
  assert (Hs : x mod DT.us_per_second = (x mod DT.us_per_minute) mod DT.us_per_second).
  { symmetry. apply Z.mod_mod_divide. by exists 60. }
  rewrite Hs, Hm.
  pose proof (Z.div_mod x DT.us_per_hour ltac:(done)).
  pose proof (Z.div_mod (x mod DT.us_per_hour) DT.us_per_minute ltac:(done)).
  pose proof (Z.div_mod ((x mod DT.us_per_hour) mod DT.us_per_minute)
                DT.us_per_second ltac:(done)).
  lia.
Qed.

Lemma fields_of_time (h m : Z) (d : DT.datetime) :
  0 ≤ h < 24 → 0 ≤ m < 60 → DT.time d = DT.time_of h m →
  DT.hour d = h ∧ DT.minute d = m ∧ DT.second d = 0 ∧ DT.microsecond d = 0.
Proof.
  intros Hh Hm Ht.
  unfold DT.hour, DT.minute, DT.second, DT.microsecond. rewrite Ht.
  clear Ht. dt_lia.
Qed.

(** An occurrence is fixed by its weekday and its time of day. *)
Lemma occurrence_time (ci : course_info) (t : DT.datetime) :
  valid_slot ci →
  occurrence ci t ↔ DT.weekday t = day_index ci ∧ DT.time t = start_time ci.
Proof.
  intros (Hd & Hh & Hm). split.
  - intros (Hw & H1 & H2 & H3 & H4). split; [done|].
    rewrite time_fields, H1, H2, H3, H4. unfold start_time, DT.time_of. lia.
  - intros [Hw Ht]. split; [done|]. by apply fields_of_time.
Qed.

Lemma calendar_entry (c : string) (ci : course_info) :
  dict_get course_day_time_mapping c = Some ci →
  valid_slot ci ∧ DT.time_of 15 15 ≤ start_time ci ≤ DT.time_of 21 0.
Proof.
  unfold course_day_time_mapping, dict_get.
  repeat (destruct (String.eqb c _);
          [intros [= <-]; vm_compute; intuition discriminate|]).
  discriminate.
Qed.

Lemma calculate_next_course_time_entry c ci now :
  dict_get course_day_time_mapping c = Some ci →
  calculate_next_course_time c now = Some (next_start ci now).
Proof. intros H. unfold calculate_next_course_time. by rewrite H. Qed.

(** Moving the slot of today by whole days changes the date only. *)
Lemma shifted_slot (now : DT.datetime) (h m k : Z) :
  0 ≤ h < 24 → 0 ≤ m < 60 →
  DT.toordinal (DT.replace_hm now h m + DT.days k) = DT.toordinal now + k ∧
  DT.time (DT.replace_hm now h m + DT.days k) = DT.time_of h m.
Proof.
  intros Hh Hm. unfold DT.replace_hm, DT.days, DT.toordinal, DT.time.
  set (q := now / DT.us_per_day).
  assert (Hs : 0 ≤ DT.time_of h m < DT.us_per_day)
    by (unfold DT.time_of, DT.us_per_hour, DT.us_per_minute, DT.us_per_day,
          DT.us_per_second; lia).
  replace ((q + 1 - 1) * DT.us_per_day + DT.time_of h m + k * DT.us_per_day)
    with (DT.time_of h m + (q + k) * DT.us_per_day) by lia.
  rewrite Z.div_add, Z.mod_add by done.
  rewrite Z.div_small, Z.mod_small by done. lia.
Qed.

Lemma weekday_shift (d : DT.datetime) (di k : Z) (b : bool) :
  0 ≤ di < 7 →
  k = (let dd := (di - (d + 6) mod 7) mod 7 in
       if (dd =? 0) && b then 7 else dd) →
  (d + k + 6) mod 7 = di ∧ 0 ≤ k ≤ 7.
Proof.
  intros Hd ->. cbv zeta.
  destruct (_ =? 0) eqn:E0; [apply Z.eqb_eq in E0 | apply Z.eqb_neq in E0];
    destruct b; simpl; Z.div_mod_to_equations; lia.
Qed.

Lemma next_start_fields ci now :
  valid_slot ci →
  let dd := (day_index ci - DT.weekday now) mod 7 in
  let k := if (dd =? 0) && (start_time ci <? DT.time now) then 7 else dd in
  DT.toordinal (next_start ci now) = DT.toordinal now + k ∧
  DT.weekday (next_start ci now) = day_index ci ∧
  DT.time (next_start ci now) = start_time ci ∧
  0 ≤ k ≤ 7.
Proof.
  intros (Hd & Hh & Hm) dd k.
  destruct (shifted_slot now (start_hour ci) (start_minute ci) k Hh Hm)
    as [Ho Ht].
  change (DT.replace_hm now (start_hour ci) (start_minute ci) + DT.days k)
    with (next_start ci now) in *.
  destruct (weekday_shift (DT.toordinal now) (day_index ci) k
              (start_time ci <? DT.time now) Hd eq_refl) as [Hw Hk].
  unfold DT.weekday at 1. rewrite Ho. done.
Qed.

Lemma next_start_earliest ci now t' :
  valid_slot ci → occurrence ci t' → now ≤ t' → next_start ci now ≤ t'.
Proof.
  intros Hv Ho Hle.
  apply occurrence_time in Ho as [Hw' Ht']; [|done].
  destruct (next_start_fields ci now Hv) as (Ho & Hw & Ht & Hk).
  cbv zeta in Ho, Hk.
  rewrite (datetime_split (next_start ci now)), (datetime_split t'), Ht, Ht'.
  rewrite (datetime_split now), (datetime_split t'), Ht' in Hle.
  pose proof (time_range now) as Hr.
  assert (Hs : 0 ≤ start_time ci < DT.us_per_day)
    by (rewrite <- Ht'; apply time_range).
  assert (Hord : DT.toordinal now ≤ DT.toordinal t') by nia.
  assert (Hgoal : DT.toordinal (next_start ci now) ≤ DT.toordinal t'); [|nia].
  rewrite Ho. unfold DT.weekday in Hw, Hw'. rewrite Ho in Hw.
  destruct (_ =? 0) eqn:E0; [apply Z.eqb_eq in E0 | apply Z.eqb_neq in E0];
    destruct (_ <? _) eqn:E1;
    [apply Z.ltb_lt in E1 | apply Z.ltb_ge in E1 | apply Z.ltb_lt in E1
     | apply Z.ltb_ge in E1]; simpl in *.
  - assert (DT.toordinal now ≠ DT.toordinal t') by nia.
    clear Hle. Z.div_mod_to_equations. lia.
  - lia.
  - clear Hle. unfold DT.weekday in *. Z.div_mod_to_equations. lia.
  - clear Hle. unfold DT.weekday in *. Z.div_mod_to_equations. lia.
Qed.

Lemma this_week_start_fields ci now :
  valid_slot ci →
  DT.toordinal now ≤ DT.toordinal (this_week_start ci now) ≤ DT.toordinal now + 6 ∧
  DT.weekday (this_week_start ci now) = day_index ci ∧
  DT.time (this_week_start ci now) = start_time ci.
Proof.
  intros (Hd & Hh & Hm). unfold this_week_start.
  set (k := (day_index ci - DT.weekday now) mod 7).
  destruct (shifted_slot now (start_hour ci) (start_minute ci) k Hh Hm)
    as [Ho Ht].
  rewrite Ht. unfold DT.weekday at 1. rewrite Ho.
  assert (Hk : 0 ≤ k < 7) by (apply Z.mod_pos_bound; lia).
  repeat split; try lia.
  unfold k, DT.weekday. Z.div_mod_to_equations. lia.
Qed.

(** In any seven successive days the slot occurs once. *)
Lemma occurrence_unique_in_week ci (day t1 t2 : Z) :
  valid_slot ci → occurrence ci t1 → occurrence ci t2 →
  day ≤ DT.toordinal t1 ≤ day + 6 → day ≤ DT.toordinal t2 ≤ day + 6 →
  t1 = t2.
Proof.
  intros Hv H1 H2 Hr1 Hr2.
  apply occurrence_time in H1 as [Hw1 Ht1]; [|done].
  apply occurrence_time in H2 as [Hw2 Ht2]; [|done].
  rewrite (datetime_split t1), (datetime_split t2), Ht1, Ht2.
  assert (DT.toordinal t1 = DT.toordinal t2); [|congruence].
  unfold DT.weekday in *. Z.div_mod_to_equations. lia.
Qed.

Lemma this_week_start_eq ci now t :
  valid_slot ci → occurrence ci t →
  DT.toordinal now ≤ DT.toordinal t ≤ DT.toordinal now + 6 →
  this_week_start ci now = t.
Proof.
  intros Hv Ho Hr.
  destruct (this_week_start_fields ci now Hv) as (Hr' & Hw & Ht).
  apply (occurrence_unique_in_week ci (DT.toordinal now)); try done.
  by apply occurrence_time.
Qed.

(** Up to 2501 seconds around a start between 15:15 and 21:00 the date
    stays the same. *)
Lemma same_day_near_start ci t x :
  DT.time_of 15 15 ≤ start_time ci ≤ DT.time_of 21 0 →
  DT.time t = start_time ci →
  - DT.seconds 2501 ≤ x ≤ DT.seconds 2501 →
  DT.toordinal (t + x) = DT.toordinal t.
Proof.
  intros Hs Ht Hx. unfold DT.toordinal. f_equal.
  rewrite (datetime_split t) at 1. rewrite Ht.
  replace ((DT.toordinal t - 1) * DT.us_per_day + start_time ci + x)
    with (start_time ci + x + (DT.toordinal t - 1) * DT.us_per_day) by lia.
  rewrite Z.div_add by done. rewrite Z.div_small.
  - unfold DT.toordinal. lia.
  - revert Hs Hx. unfold DT.time_of, DT.seconds, DT.us_per_day, DT.us_per_hour,
      DT.us_per_minute, DT.us_per_second. lia.
Qed.

Lemma just_started_near ci c t x :
  dict_get course_day_time_mapping c = Some ci → occurrence ci t →
  - DT.seconds 2501 ≤ x ≤ DT.seconds 2501 →
  course_has_just_started c (t + x) = bool_decide (Z.abs x ≤ DT.seconds 2500).
Proof.
  intros Hc Ho Hx. destruct (calendar_entry c ci Hc) as [Hv Hs].
  unfold course_has_just_started. rewrite Hc.
  rewrite (this_week_start_eq ci (t + x) t Hv Ho).
  - unfold DT.abs_total_seconds_le. by replace (t + x - t) with x by lia.
  - apply occurrence_time in Ho as [_ Ht]; [|done].
    rewrite (same_day_near_start ci t x Hs Ht Hx). lia.
Qed.

Lemma schedule_fold now (l : list string) (acc : list job) (c : string) :
  c ∈ map job_course (fold_left (schedule_one now) l acc) ↔
  c ∈ map job_course acc ∨
  (c ∈ l ∧ ∃ t, calculate_next_course_time c now = Some t ∧
                now < get_registration_time t).
Proof.
  revert acc. induction l as [|x l IH]; intros acc; simpl.
  - split; [by left|]. intros [H|[H _]]; [done|]. by apply elem_of_nil in H.
  - rewrite IH. unfold schedule_one.
    destruct (calculate_next_course_time x now) as [t|] eqn:Et.
    + destruct (Z.leb_spec (get_registration_time t) now) as [Hle|Hlt].
      * split.
        -- intros [H|[H Ht]]; [by left|]. right. split; [by right|done].
        -- intros [H|[H Ht]]; [by left|].
           apply elem_of_cons in H as [->|H]; [|by right].
           destruct Ht as (t' & Ht' & Hlt). rewrite Et in Ht'.
           injection Ht' as <-. lia.
      * rewrite map_app, elem_of_app. simpl. split.
        -- intros [[H|H]|[H Ht]]; [by left| |].
           ++ apply list_elem_of_singleton in H as ->. right.
              split; [by left|eauto].
           ++ right. split; [by right|done].
        -- intros [H|[H Ht]]; [by left; left|].
           apply elem_of_cons in H as [->|H]; [|by right].
           left; right. by apply list_elem_of_singleton.
    + split.
      * intros [H|[H Ht]]; [by left|]. right. split; [by right|done].
      * intros [H|[H Ht]]; [by left|].
        apply elem_of_cons in H as [->|H]; [|by right].
        destruct Ht as (t' & Ht' & _). congruence.
Qed.

Lemma dict_get_Some_key {V} (m : list (string * V)) (k : string) (v : V) :
  dict_get m k = Some v → k ∈ map fst m.
Proof.
  induction m as [|[k' v'] m IH]; simpl; [done|].
  destruct (String.eqb_spec k k') as [->|Hne].
  - intros _. by left.
  - intros H. right. by apply IH.
Qed.

(** *** Checks on concrete dates *)

Example make_weekday_wed : DT.weekday (DT.make 2025 6 4 18 0 0 0) = 2.
Proof. reflexivity. Qed.

Example make_ordinal : DT.toordinal (DT.make 2025 6 4 18 0 0 0) = 739406.
Proof. reflexivity. Qed.

Example next_same_day :
  calculate_next_course_time "051001" (DT.make 2025 6 4 17 59 59 999999)
  = Some (DT.make 2025 6 4 18 0 0 0).
Proof. reflexivity. Qed.

Example next_at_start :
  calculate_next_course_time "051001" (DT.make 2025 6 4 18 0 0 0)
  = Some (DT.make 2025 6 4 18 0 0 0).
Proof. reflexivity. Qed.

Example next_just_after :
  calculate_next_course_time "051001" (DT.make 2025 6 4 18 0 0 1)
  = Some (DT.make 2025 6 11 18 0 0 0).
Proof. reflexivity. Qed.

Example next_other_day :
  calculate_next_course_time "051003" (DT.make 2025 6 4 18 0 0 1)
  = Some (DT.make 2025 6 8 15 15 0 0).
Proof. reflexivity. Qed.

Example just_started_at_registration_time :
  course_has_just_started "051001" wednesday_1753 = true.
Proof. reflexivity. Qed.

Example schedule_on_wednesday_1753 :
  map job_course (schedule_course_registrations wednesday_1753)
  = ["051002"; "051003"; "051011"; "051012"; "0510011"].
Proof. reflexivity. Qed.

Example schedule_at_times :
  map job_at (schedule_course_registrations wednesday_1753)
  = [(16, 23); (15, 8); (20, 53); (17, 53); (18, 23)].
Proof. reflexivity. Qed.

(** C2.  For a course of the calendar and any [now],
    [calculate_next_course_time] returns a datetime [t] that is an
    occurrence of the course's slot (same weekday, same time of day), is
    not before [now], and is the earliest such one: every occurrence that
    is not before [now] is at or after [t].  It is today's slot when today
    is the course's weekday and the start has not passed, and a slot one
    to seven days ahead otherwise. *)
Theorem calculate_next_course_time_earliest (c : string) (ci : course_info)
    (now : DT.datetime) :
  dict_get course_day_time_mapping c = Some ci →
  ∃ t, calculate_next_course_time c now = Some t ∧
       occurrence ci t ∧
       now ≤ t ∧
       (∀ t', occurrence ci t' → now ≤ t' → t ≤ t') ∧
       (DT.weekday now = day_index ci ∧ DT.time now ≤ start_time ci →
        DT.toordinal t = DT.toordinal now) ∧
       (¬ (DT.weekday now = day_index ci ∧ DT.time now ≤ start_time ci) →
        DT.toordinal now < DT.toordinal t ≤ DT.toordinal now + 7).
Proof.
  intros Hc. destruct (calendar_entry c ci Hc) as [Hv _].
  exists (next_start ci now).
  destruct (next_start_fields ci now Hv) as (Ho & Hw & Ht & Hk).
  cbv zeta in Ho, Hk.
  assert (Hocc : occurrence ci (next_start ci now)) by by apply occurrence_time.
  assert (Hdd : (day_index ci - DT.weekday now) mod 7 = 0 ↔
                DT.weekday now = day_index ci).
  { pose proof (weekday_range now). destruct Hv as (Hd & _).
    Z.div_mod_to_equations. lia. }
  pose proof (time_range now) as Hr.
  split; [by apply calculate_next_course_time_entry|].
  split; [done|]. split; [|split; [|split]].
  - assert (Hs : 0 ≤ start_time ci < DT.us_per_day)
      by (rewrite <- Ht; apply time_range).
    pose proof (datetime_split (next_start ci now)) as Hns.
    rewrite Ht, Ho in Hns. rewrite Hns.
    etransitivity; [apply Z.eq_le_incl, (datetime_split now)|].
    destruct (_ =? 0) eqn:E0; [apply Z.eqb_eq in E0 | apply Z.eqb_neq in E0];
      destruct (Z.ltb_spec (start_time ci) (DT.time now)); simpl in *; nia.
  - intros t' Ho' Hle. by apply next_start_earliest.
  - intros [Hwd Hnp]. rewrite Ho.
    apply Hdd in Hwd. rewrite Hwd. simpl.
    destruct (Z.ltb_spec (start_time ci) (DT.time now)); lia.
  - intros Hn. rewrite Ho.
    destruct (_ =? 0) eqn:E0; [apply Z.eqb_eq in E0 | apply Z.eqb_neq in E0].
    + destruct (Z.ltb_spec (start_time ci) (DT.time now)); simpl; [lia|].
      exfalso. apply Hn. split; [by apply Hdd|done].
    + simpl.
      pose proof (Z.mod_pos_bound (day_index ci - DT.weekday now) 7 eq_refl).
      lia.
Qed.

Lemma calculate_next_course_time_earliest_witness :
  ∃ t, calculate_next_course_time "051002" (DT.make 2025 6 6 16 30 0 1) = Some t ∧
       occurrence (CourseInfo 4 16 30) t ∧
       DT.make 2025 6 6 16 30 0 1 ≤ t ∧
       (∀ t', occurrence (CourseInfo 4 16 30) t' →
              DT.make 2025 6 6 16 30 0 1 ≤ t' → t ≤ t') ∧
       (DT.weekday (DT.make 2025 6 6 16 30 0 1) = 4 ∧
        DT.time (DT.make 2025 6 6 16 30 0 1) ≤ start_time (CourseInfo 4 16 30) →
        DT.toordinal t = DT.toordinal (DT.make 2025 6 6 16 30 0 1)) ∧
       (¬ (DT.weekday (DT.make 2025 6 6 16 30 0 1) = 4 ∧
           DT.time (DT.make 2025 6 6 16 30 0 1) ≤ start_time (CourseInfo 4 16 30)) →
        DT.toordinal (DT.make 2025 6 6 16 30 0 1) < DT.toordinal t
        ≤ DT.toordinal (DT.make 2025 6 6 16 30 0 1) + 7).
Proof.
  apply (calculate_next_course_time_earliest "051002" (CourseInfo 4 16 30)).
  reflexivity.
Defined.

(** C7.  For a course of the calendar, [course_has_just_started] is true
    exactly when [now] is at most 2500 seconds away from this week's
    occurrence, the one occurrence of the slot dated today or on one of
    the six days after; it is true 2500 seconds from an occurrence (before
    or after) and false 2501 seconds from it; for a course number that is
    not in the calendar it is false. *)
Theorem course_has_just_started_window (c : string) (now : DT.datetime) :
  (∀ ci, dict_get course_day_time_mapping c = Some ci →
     ∃ t, occurrence ci t ∧
          DT.toordinal now ≤ DT.toordinal t ≤ DT.toordinal now + 6 ∧
          (∀ t', occurrence ci t' →
                 DT.toordinal now ≤ DT.toordinal t' ≤ DT.toordinal now + 6 →
                 t' = t) ∧
          (course_has_just_started c now = true ↔
           Z.abs (now - t) ≤ DT.seconds 2500) ∧
          (course_has_just_started c now = true ↔
           ∃ t', occurrence ci t' ∧ Z.abs (now - t') ≤ DT.seconds 2500)) ∧
  (∀ ci t, dict_get course_day_time_mapping c = Some ci → occurrence ci t →
     course_has_just_started c (t + DT.seconds 2500) = true ∧
     course_has_just_started c (t + DT.seconds 2501) = false ∧
     course_has_just_started c (t - DT.seconds 2500) = true ∧
     course_has_just_started c (t - DT.seconds 2501) = false) ∧
  (dict_get course_day_time_mapping c = None →
     course_has_just_started c now = false).
Proof.
  split; [|split].
  - intros ci Hc. destruct (calendar_entry c ci Hc) as [Hv _].
    destruct (this_week_start_fields ci now Hv) as (Hr & Hw & Ht).
    exists (this_week_start ci now).
    split; [by apply occurrence_time|]. split; [done|]. split.
    + intros t' Ho' Hr'. symmetry. by apply this_week_start_eq.
    + assert (Hiff : course_has_just_started c now = true ↔
                     Z.abs (now - this_week_start ci now) ≤ DT.seconds 2500).
      { unfold course_has_just_started, DT.abs_total_seconds_le. rewrite Hc.
        apply bool_decide_eq_true. }
      split; [done|]. split.
      * intros Hjs. exists (this_week_start ci now).
        split; [by apply occurrence_time|by apply Hiff].
      * intros (t' & Ho' & Habs).
        replace now with (t' + (now - t')) by lia.
        rewrite (just_started_near ci c t' (now - t') Hc Ho').
        -- by apply bool_decide_eq_true.
        -- unfold DT.seconds in *. lia.
  - intros ci t Hc Ho.
    rewrite (just_started_near ci c t (DT.seconds 2500) Hc Ho) by done.
    rewrite (just_started_near ci c t (DT.seconds 2501) Hc Ho) by done.
    replace (t - DT.seconds 2500) with (t + - DT.seconds 2500) by lia.
    replace (t - DT.seconds 2501) with (t + - DT.seconds 2501) by lia.
    rewrite (just_started_near ci c t (- DT.seconds 2500) Hc Ho) by done.
    rewrite (just_started_near ci c t (- DT.seconds 2501) Hc Ho) by done.
    done.
  - intros Hc. unfold course_has_just_started. by rewrite Hc.
Qed.

Lemma course_has_just_started_window_witness :
  course_has_just_started "051003" (DT.make 2025 6 8 15 15 0 0 + DT.seconds 2500) = true ∧
  course_has_just_started "051003" (DT.make 2025 6 8 15 15 0 0 + DT.seconds 2501) = false ∧
  course_has_just_started "051003" (DT.make 2025 6 8 15 15 0 0 - DT.seconds 2500) = true ∧
  course_has_just_started "051003" (DT.make 2025 6 8 15 15 0 0 - DT.seconds 2501) = false.
Proof.
  apply (proj1 (proj2 (course_has_just_started_window "051003" 0))
           (CourseInfo 6 15 15) (DT.make 2025 6 8 15 15 0 0)).
  - reflexivity.
  - vm_compute. repeat split.
Defined.

(** C8.  The schedule computed at [now] holds a job for a course if and
    only if the course is in the calendar and its registration time, which
    lies exactly seven minutes before its next occurrence, is strictly
    later than [now]; so a course whose registration time is at or before
    [now] has no job. *)
Theorem schedule_course_registrations_future (now : DT.datetime) (c : string) :
  (c ∈ map job_course (schedule_course_registrations now) ↔
   ∃ t, calculate_next_course_time c now = Some t ∧
        now < get_registration_time t) ∧
  (∀ t, calculate_next_course_time c now = Some t →
        t - get_registration_time t = DT.minutes 7 ∧
        (get_registration_time t ≤ now →
         c ∉ map job_course (schedule_course_registrations now))).
Proof.
  assert (Hiff : c ∈ map job_course (schedule_course_registrations now) ↔
                 ∃ t, calculate_next_course_time c now = Some t ∧
                      now < get_registration_time t).
  { unfold schedule_course_registrations. rewrite schedule_fold. split.
    - intros [H|[_ H]]; [by apply elem_of_nil in H|done].
    - intros (t & Ht & Hlt). right. split; [|eauto].
      unfold calculate_next_course_time in Ht.
      destruct (dict_get course_day_time_mapping c) eqn:Hc; [|done].
      by eapply dict_get_Some_key. }
  split; [done|]. intros t Ht. split.
  - unfold get_registration_time. lia.
  - intros Hle Hin. apply Hiff in Hin as (t' & Ht' & Hlt).
    rewrite Ht in Ht'. injection Ht' as <-. lia.
Qed.

Lemma schedule_course_registrations_future_witness :
  DT.make 2025 6 4 18 0 0 0 - get_registration_time (DT.make 2025 6 4 18 0 0 0)
  = DT.minutes 7 ∧
  (get_registration_time (DT.make 2025 6 4 18 0 0 0) ≤ DT.make 2025 6 4 17 53 0 0 →
   "051001" ∉ map job_course
                (schedule_course_registrations (DT.make 2025 6 4 17 53 0 0))).
Proof.
  apply (proj2 (schedule_course_registrations_future
                  (DT.make 2025 6 4 17 53 0 0) "051001")).
  reflexivity.
Defined.

End Calendar.

(** ** Text *)

Section Text.

Lemma str_app_cons c a b : String c a +:+ b = String c (a +:+ b).
Proof. reflexivity. Qed.

Lemma str_app_nil_r a : a +:+ "" = a.
Proof. induction a as [|c a IH]; [done|]. by rewrite str_app_cons, IH. Qed.

Lemma str_app_assoc a b c : (a +:+ b) +:+ c = a +:+ (b +:+ c).
Proof. induction a as [|x a IH]; [done|]. by rewrite !str_app_cons, IH. Qed.

Lemma none_of_app p a b : none_of p (a +:+ b) = none_of p a && none_of p b.
Proof.
  induction a as [|c a IH]; [done|].
  rewrite str_app_cons. simpl. rewrite IH. by destruct (p c).
Qed.

Lemma all_space_app a b : all_space (a +:+ b) = all_space a && all_space b.
Proof.
  induction a as [|c a IH]; [done|].
  rewrite str_app_cons. simpl. rewrite IH. by destruct (is_space c).
Qed.

Lemma split_not_nil sep s : split sep s ≠ [].
Proof.
  destruct s as [|c r]; simpl; [done|].
  destruct (Ascii.eqb c sep); [done|]. by destruct (split sep r).
Qed.

Lemma split_app_sep sep a b :
  split sep (a +:+ String sep b) = split sep a ++ split sep b.
Proof.
  induction a as [|c a IH].
  - change ("" +:+ String sep b) with (String sep b). simpl.
    by rewrite Ascii.eqb_refl.
  - rewrite str_app_cons. simpl. rewrite IH.
    destruct (Ascii.eqb c sep); [done|].
    pose proof (split_not_nil sep a). by destruct (split sep a).
Qed.

Lemma split_none sep s :
  none_of (λ c, Ascii.eqb c sep) s = true → split sep s = [s].
Proof.
  induction s as [|c r IH]; simpl; [done|].
  destruct (Ascii.eqb c sep); [done|]. simpl. intros H. by rewrite IH.
Qed.

Lemma lstrip_app_space p s : all_space p = true → lstrip (p +:+ s) = lstrip s.
Proof.
  induction p as [|c p IH]; [done|].
  rewrite str_app_cons. simpl. destruct (is_space c); [|done]. apply IH.
Qed.

Lemma rstrip_all_space q : all_space q = true → rstrip q = "".
Proof.
  induction q as [|c q IH]; simpl; [done|].
  destruct (is_space c); [|done]. simpl. intros H. by rewrite IH.
Qed.

Lemma rstrip_app_space s q : all_space q = true → rstrip (s +:+ q) = rstrip s.
Proof.
  intros Hq. induction s as [|c s IH].
  - by apply rstrip_all_space.
  - rewrite str_app_cons. simpl. by rewrite IH.
Qed.

Lemma lstrip_none s : none_of is_space s = true → lstrip s = s.
Proof. destruct s as [|c r]; simpl; [done|]. by destruct (is_space c). Qed.

Lemma rstrip_none s : none_of is_space s = true → rstrip s = s.
Proof.
  induction s as [|c r IH]; simpl; [done|].
  destruct (is_space c); [done|]. simpl. intros H. rewrite IH by done.
  by destruct r.
Qed.

(** White space around a token without white space is what [strip]
    removes. *)
Lemma strip_pad p s q :
  all_space p = true → all_space q = true → none_of is_space s = true →
  strip (p +:+ s +:+ q) = s.
Proof.
  intros Hp Hq Hs. unfold strip.
  rewrite lstrip_app_space by done.
  destruct s as [|c r].
  - change ("" +:+ q) with q.
    assert (lstrip q = "") as ->; [|done].
    clear Hp Hs. induction q as [|x q IH]; simpl in *; [done|].
    destruct (is_space x); [by apply IH|done].
  - rewrite str_app_cons. simpl in Hs. simpl.
    destruct (is_space c) eqn:Ec; [done|].
    rewrite <- str_app_cons, rstrip_app_space by done.
    apply rstrip_none. simpl. by rewrite Ec.
Qed.

Lemma strip_empty_all_space s : strip s = "" → all_space s = true.
Proof.
  unfold strip. induction s as [|c r IH]; simpl; [done|].
  destruct (is_space c) eqn:Ec; simpl; [done|].
  destruct (rstrip r); by rewrite ?Ec.
Qed.

Lemma all_space_no_comma p : all_space p = true → none_of is_comma p = true.
Proof.
  induction p as [|c p IH]; simpl; [done|].
  intros [Hc Hp]%andb_true_iff. rewrite IH by done.
  unfold is_comma. destruct (Ascii.eqb_spec c comma) as [->|]; [|done].
  by vm_compute in Hc.
Qed.

Lemma join_cons_cons sep x y l :
  join sep (x :: y :: l) = x +:+ sep +:+ join sep (y :: l).
Proof. reflexivity. Qed.

Lemma none_of_join p sep l :
  none_of p sep = true → Forall (λ x, none_of p x = true) l →
  none_of p (join sep l) = true.
Proof.
  intros Hsep. induction 1 as [|x l Hx Hl IH]; [done|].
  destruct l as [|y l]; [done|].
  rewrite join_cons_cons, !none_of_app, Hx, Hsep. by rewrite IH.
Qed.

(** The tokens read back from a joined line of tokens that hold neither
    white space nor a comma are those tokens. *)
Lemma all_days_of_join (l : list string) (p : string) :
  l ≠ [] → all_space p = true →
  Forall (λ x, none_of is_space x = true ∧ none_of is_comma x = true) l →
  all_days_of (p +:+ join ", " l +:+ nl) = l.
Proof.
  intros Hne Hp Hl. revert p Hp. induction Hl as [|x l [Hx1 Hx2] Hl IH]; [done|].
  intros p Hp. destruct l as [|y l].
  - unfold all_days_of, join. simpl String.concat.
    rewrite split_none.
    + cbn [map]. by rewrite strip_pad.
    + change (λ c, Ascii.eqb c comma) with is_comma.
      by rewrite !none_of_app, all_space_no_comma, Hx2.
  - rewrite join_cons_cons.
    change (", " +:+ join ", " (y :: l))
      with (String comma (" " +:+ join ", " (y :: l))).
    rewrite <- !str_app_assoc, str_app_assoc. rewrite str_app_cons.
    unfold all_days_of. rewrite split_app_sep, map_app.
    rewrite split_none.
    + cbn [map app]. rewrite <- (str_app_nil_r (p +:+ x)), str_app_assoc.
      rewrite strip_pad by done. f_equal.
      rewrite str_app_assoc. by apply IH.
    + change (λ c, Ascii.eqb c comma) with is_comma.
      by rewrite none_of_app, all_space_no_comma, Hx2.
Qed.

(** A token without white space or comma survives among whatever else
    the line holds. *)
Lemma all_days_of_join_elem (l : list string) (p x : string) :
  all_space p = true → none_of is_space x = true → none_of is_comma x = true →
  x ∈ l → x ∈ all_days_of (p +:+ join ", " l +:+ nl).
Proof.
  intros Hp Hx1 Hx2. revert p Hp. induction l as [|y l IH]; intros p Hp Hin.
  - by apply elem_of_nil in Hin.
  - destruct l as [|z l].
    + apply list_elem_of_singleton in Hin as ->.
      unfold all_days_of, join. simpl String.concat.
      rewrite split_none.
      * cbn [map]. rewrite strip_pad by done. by left.
      * change (λ c, Ascii.eqb c comma) with is_comma.
        by rewrite !none_of_app, all_space_no_comma, Hx2.
    + rewrite join_cons_cons.
      change (", " +:+ join ", " (z :: l))
        with (String comma (" " +:+ join ", " (z :: l))).
      rewrite <- !str_app_assoc, str_app_assoc. rewrite str_app_cons.
      unfold all_days_of. rewrite split_app_sep, map_app, elem_of_app.
      apply elem_of_cons in Hin as [->|Hin].
      * left. rewrite split_none.
        -- cbn [map]. rewrite <- (str_app_nil_r (p +:+ y)), str_app_assoc.
           rewrite strip_pad by done. by left.
        -- change (λ c, Ascii.eqb c comma) with is_comma.
           by rewrite none_of_app, all_space_no_comma, Hx2.
      * right. rewrite str_app_assoc. by apply IH.
Qed.

(** *** Lines *)

Lemma readlines_nil s : readlines s = [] → s = "".
Proof.
  destruct s as [|c r]; simpl; [done|].
  destruct (Ascii.eqb c newline); [done|]. by destruct (readlines r).
Qed.

Lemma readlines_line b rest :
  none_of is_newline b = true →
  readlines (b +:+ nl +:+ rest) = (b +:+ nl) :: readlines rest.
Proof.
  induction b as [|c b IH]; intros Hb.
  - reflexivity.
  - rewrite !str_app_cons. simpl in *. apply andb_true_iff in Hb as [Hc Hb].
    unfold is_newline in Hc. destruct (Ascii.eqb c newline); [done|].
    by rewrite IH.
Qed.

(** The first line a text is read into, and what the rest is read from. *)
Lemma readlines_cons s l ls :
  readlines s = l :: ls →
  ∃ s', s = l +:+ s' ∧ readlines s' = ls ∧
        (ls ≠ [] → ∃ b, l = b +:+ nl ∧ none_of is_newline b = true).
Proof.
  revert l ls. induction s as [|c r IH]; intros l ls; simpl; [done|].
  destruct (Ascii.eqb_spec c newline) as [->|Hc].
  - intros [= <- <-]. exists r. split; [done|]. split; [done|].
    intros _. by exists "".
  - destruct (readlines r) as [|l' ls'] eqn:Er.
    + intros [= <- <-]. apply readlines_nil in Er as ->. by exists "".
    + intros [= <- <-]. destruct (IH l' ls' eq_refl) as (s' & -> & Hs' & Hb).
      exists s'. split; [done|]. split; [done|].
      intros Hne. destruct (Hb Hne) as (b & -> & Hnb).
      exists (String c b). split; [done|]. simpl. rewrite Hnb.
      unfold is_newline. by destruct (Ascii.eqb_spec c newline).
Qed.

Lemma readlines_single_line s : Forall (λ l, single_line l = true) (readlines s).
Proof.
  induction s as [|c r IH]; simpl; [done|].
  destruct (Ascii.eqb c newline) eqn:Ec.
  - constructor; [|done]. simpl. unfold is_newline. by rewrite Ec.
  - destruct (readlines r) as [|l ls] eqn:Er.
    + constructor; [|done]. simpl. unfold is_newline. by rewrite Ec.
    + inversion IH; subst. constructor; [|done].
      simpl. unfold is_newline. by rewrite Ec.
Qed.

Lemma split_single_line sep s :
  single_line s = true → Forall (λ p, single_line p = true) (split sep s).
Proof.
  induction s as [|c r IH]; simpl; [by repeat constructor|].
  destruct (is_newline c) eqn:En.
  - destruct r; [|done]. intros _. simpl.
    destruct (Ascii.eqb c sep); repeat constructor; simpl; by rewrite ?En.
  - intros Hr. specialize (IH Hr). destruct (Ascii.eqb c sep).
    + by constructor.
    + destruct (split sep r) as [|p ps]; [repeat constructor; simpl; by rewrite En|].
      inversion IH; subst. constructor; [|done]. simpl. by rewrite En.
Qed.

Lemma strip_single_line s :
  single_line s = true → none_of is_newline (strip s) = true.
Proof.
  intros Hs. unfold strip.
  assert (Hl : single_line (lstrip s) = true).
  { induction s as [|c r IH]; simpl in *; [done|].
    destruct (is_space c) eqn:Ec; [|done].
    destruct (is_newline c); [by destruct r|by apply IH]. }
  revert Hl. generalize (lstrip s). clear. intros s.
  induction s as [|c r IH]; simpl; [done|].
  destruct (is_newline c) eqn:En.
  - destruct r; [|done]. intros _. simpl.
    assert (is_space c = true) as ->; [|done].
    unfold is_newline in En. by apply Ascii.eqb_eq in En as ->.
  - intros Hr. specialize (IH Hr).
    destruct (rstrip r); [destruct (is_space c)|]; simpl in *; by rewrite ?En.
Qed.

Lemma none_of_tail p s : none_of p s = true → none_of p (tail s) = true.
Proof. destruct s; simpl; [done|]. by intros [_ ?]%andb_true_iff. Qed.

(** *** Sorting *)

Lemma elem_of_sorted (S : gset string) x : x ∈ sorted S ↔ x ∈ S.
Proof. unfold sorted. by rewrite merge_sort_Permutation, elem_of_elements. Qed.

Lemma NoDup_sorted (S : gset string) : NoDup (sorted S).
Proof. unfold sorted. rewrite merge_sort_Permutation. apply NoDup_elements. Qed.

Lemma sorted_ascending (S : gset string) : StronglySorted String.le (sorted S).
Proof. apply StronglySorted_merge_sort; apply _. Qed.

Lemma list_to_set_sorted (S : gset string) : list_to_set (sorted S) = S.
Proof.
  apply set_eq. intros x. by rewrite elem_of_list_to_set, elem_of_sorted.
Qed.

Lemma sorted_nil (S : gset string) : sorted S = [] → S = ∅.
Proof.
  intros H. apply set_eq. intros x. rewrite <- elem_of_sorted, H. set_solver.
Qed.

End Text.

(** ** Credential store *)

Section Store.

Lemma elem_of_existing_of (l : list string) x :
  x ∈ existing_of l ↔ x ∈ l ∧ startswith_bang x = false.
Proof.
  unfold existing_of. rewrite elem_of_list_to_set, list_elem_of_filter.
  destruct (startswith_bang x); simpl; split; intros [? ?]; done.
Qed.

Lemma elem_of_excluded_of (l : list string) x :
  x ∈ excluded_of l ↔ ∃ y, y ∈ l ∧ startswith_bang y = true ∧ x = tail y.
Proof.
  unfold excluded_of. rewrite elem_of_list_to_set, list_elem_of_In, in_map_iff.
  split.
  - intros (y & <- & Hy). apply list_elem_of_In, list_elem_of_filter in Hy.
    exists y. destruct Hy as [Hb Hy]. apply Is_true_true in Hb. done.
  - intros (y & Hy & Hb & ->). exists y. split; [done|].
    apply list_elem_of_In, list_elem_of_filter. by rewrite Hb.
Qed.

Lemma courses_to_remove_empty (existing : gset string) now :
  courses_to_remove existing now = ∅ ↔
  ∀ c, c ∈ existing → course_has_just_started c now = false.
Proof.
  unfold courses_to_remove. split.
  - intros He c Hc. destruct (course_has_just_started c now) eqn:E; [|done].
    assert (c ∈ (∅ : gset string)); [|set_solver].
    rewrite <- He. by apply elem_of_filter.
  - intros H. apply set_eq. intros c. rewrite elem_of_filter.
    split; [|set_solver]. intros [E Hc]. rewrite (H c Hc) in E. done.
Qed.


(** What a load that returns has done. *)
Lemma read_credentials_file_Return path now w cr w' :
  read_credentials_file path now w = (Return cr, w') →
  ∃ text, files w !! path = Some text ∧
    (2 ≤ length (readlines text))%nat ∧
    email cr = strip (nth 0 (readlines text) "") ∧
    password cr = strip (nth 1 (readlines text) "") ∧
    excluded_days cr = excluded_in text ∧
    existing_days cr = registered_in text ∖ courses_to_remove (registered_in text) now ∧
    ((courses_to_remove (registered_in text) now = ∅ ∧
      lines cr = (parse_course_line (readlines text)).2 ∧ w' = w) ∨
     (courses_to_remove (registered_in text) now ≠ ∅ ∧
      lines cr = set_course_line (parse_course_line (readlines text)).2
                   (existing_days cr) (excluded_days cr) ∧
      w' = write_file path (lines cr) w)).
Proof.
  unfold read_credentials_file, registered_in, excluded_in.
  destruct (files w !! path) as [text|]; [|done]. cbv zeta.
  intros H. exists text. revert H.
  destruct (Nat.ltb_spec (length (readlines text)) 2); [done|].
  destruct (parse_course_line (readlines text)) as [[ex exc] ls].
  cbn [fst snd].
  destruct (decide (courses_to_remove ex now = ∅)) as [He|Hne].
  - intros [= <- <-].
    cbn [email password existing_days excluded_days lines]. rewrite He.
    repeat split; try done; [set_solver|by left].
  - intros [= <- <-].
    cbn [email password existing_days excluded_days lines].
    repeat split; try done. by right.
Qed.

Lemma none_of_weaken (p q : ascii → bool) s :
  (∀ c, q c = true → p c = true) → none_of p s = true → none_of q s = true.
Proof.
  intros Hpq. induction s as [|c r IH]; simpl; [done|].
  intros [Hc Hr]%andb_true_iff. rewrite IH by done.
  destruct (q c) eqn:E; [|done]. by rewrite (Hpq c E) in Hc.
Qed.

Lemma none_of_space_newline s :
  none_of is_space s = true → none_of is_newline s = true.
Proof.
  apply none_of_weaken. intros c Hc. unfold is_newline in Hc.
  by apply Ascii.eqb_eq in Hc as ->.
Qed.

Lemma plain_spec x :
  plain x = true ↔
  nonempty x = true ∧ startswith_bang x = false ∧
  none_of is_space x = true ∧ none_of is_comma x = true.
Proof.
  unfold plain. rewrite !andb_true_iff, negb_true_iff. tauto.
Qed.

Lemma all_space_token x :
  nonempty x = true → none_of is_space x = true → all_space x = false.
Proof. destruct x as [|c r]; simpl; [done|]. by destruct (is_space c). Qed.

(** The tokens of a written line are plain or a mark and a plain token. *)
Lemma all_days_combined_tokens (reg exc : gset string) :
  (∀ x, x ∈ reg ∪ exc → plain x = true) →
  Forall (λ x, none_of is_space x = true ∧ none_of is_comma x = true ∧
               nonempty x = true)
         (all_days_combined reg exc).
Proof.
  intros Hp. unfold all_days_combined. apply Forall_app. split.
  - apply Forall_forall. intros x Hx%elem_of_sorted.
    assert (Hpx : plain x = true) by (apply Hp; set_solver).
    apply plain_spec in Hpx. tauto.
  - apply Forall_forall. intros y Hy.
    apply list_elem_of_In, in_map_iff in Hy as (x & <- & Hx).
    apply list_elem_of_In, elem_of_sorted in Hx.
    assert (Hpx : plain x = true) by (apply Hp; set_solver).
    apply plain_spec in Hpx as (_ & _ & H1 & H2). simpl. by rewrite H1, H2.
Qed.

Lemma existing_of_combined (reg exc : gset string) :
  (∀ x, x ∈ reg → startswith_bang x = false) →
  existing_of (all_days_combined reg exc) = reg.
Proof.
  intros Hp. apply set_eq. intros x.
  rewrite elem_of_existing_of. unfold all_days_combined.
  rewrite elem_of_app, elem_of_sorted. split.
  - intros [[Hx|Hx] Hb]; [done|].
    apply list_elem_of_In, in_map_iff in Hx as (y & <- & _).
    by vm_compute in Hb.
  - intros Hx. split; [by left|by apply Hp].
Qed.

Lemma excluded_of_combined (reg exc : gset string) :
  (∀ x, x ∈ reg → startswith_bang x = false) →
  excluded_of (all_days_combined reg exc) = exc.
Proof.
  intros Hp. apply set_eq. intros x.
  rewrite elem_of_excluded_of. unfold all_days_combined. split.
  - intros (y & Hy & Hb & ->). apply elem_of_app in Hy as [Hy|Hy].
    + apply elem_of_sorted, Hp in Hy. congruence.
    + apply list_elem_of_In, in_map_iff in Hy as (z & <- & Hz).
      by apply list_elem_of_In, elem_of_sorted in Hz.
  - intros Hx. exists (String bang x). split; [|done].
    apply elem_of_app. right. apply list_elem_of_In, in_map_iff.
    exists x. split; [done|]. by apply list_elem_of_In, elem_of_sorted.
Qed.

(** The parser undoes the serializer on sets of plain course numbers. *)
Lemma parse_course_line_saved (reg exc : gset string) (l0 l1 third : string)
    (rest : list string) :
  (∀ x, x ∈ reg ∪ exc → plain x = true) →
  parse_course_line (set_course_line (l0 :: l1 :: third :: rest) reg exc)
  = (reg, exc, l0 :: l1 :: course_line reg exc :: rest).
Proof.
  intros Hp.
  assert (Hbare : ∀ x, x ∈ reg → startswith_bang x = false).
  { intros x Hx. assert (Hpx : plain x = true) by (apply Hp; set_solver).
    apply plain_spec in Hpx. tauto. }
  pose proof (all_days_combined_tokens reg exc Hp) as Htok.
  unfold set_course_line, set_third, parse_course_line.
  change (<[2%nat:=course_line reg exc]> (l0 :: l1 :: third :: rest))
    with (l0 :: l1 :: course_line reg exc :: rest).
  cbn [length nth Nat.leb Nat.ltb andb].
  destruct (all_days_combined reg exc) as [|x l] eqn:El.
  - pose proof El as El'. unfold all_days_combined in El'.
    apply app_eq_nil in El' as [Er Ee].
    apply sorted_nil in Er. apply map_eq_nil in Ee. apply sorted_nil in Ee.
    unfold course_line at 1. rewrite El. by subst.
  - assert (Hall : all_days_of (course_line reg exc) = x :: l).
    { unfold course_line. rewrite El.
      apply (all_days_of_join (x :: l) ""); [done|done|].
      eapply Forall_impl; [apply Htok|]. naive_solver. }
    assert (Hne : nonempty (strip (course_line reg exc)) = true).
    { destruct (strip (course_line reg exc)) eqn:Es; [|done].
      apply strip_empty_all_space in Es. unfold course_line in Es.
      rewrite El, all_space_app in Es. apply andb_true_iff in Es as [Es _].
      inversion Htok as [|? ? (H1 & H2 & H3) _]; subst.
      assert (all_space x = true); [|by rewrite all_space_token in *].
      destruct l as [|y l]; [done|].
      rewrite join_cons_cons, all_space_app in Es.
      by apply andb_true_iff in Es as [Es _]. }
    rewrite Hne, Hall, <- El.
    by rewrite existing_of_combined, excluded_of_combined.
Qed.

Lemma writelines_cons x l : writelines (x :: l) = x +:+ writelines l.
Proof.
  unfold writelines. destruct l as [|y l]; simpl; [by rewrite str_app_nil_r|done].
Qed.

Lemma course_line_one_line (reg exc : gset string) :
  (∀ x, x ∈ reg ∪ exc → none_of is_newline x = true) →
  none_of is_newline (join ", " (all_days_combined reg exc)) = true.
Proof.
  intros Hn. apply none_of_join; [done|].
  unfold all_days_combined. apply Forall_app. split.
  - apply Forall_forall. intros x Hx%elem_of_sorted. apply Hn. set_solver.
  - apply Forall_forall. intros y Hy.
    apply list_elem_of_In, in_map_iff in Hy as (x & <- & Hx).
    apply list_elem_of_In, elem_of_sorted in Hx. simpl. apply Hn. set_solver.
Qed.

(** Reading back a file whose first two lines are terminated and whose
    third line was just rebuilt from sets without line breaks. *)
Lemma readlines_saved (b0 b1 third : string) (rest : list string)
    (reg exc : gset string) :
  none_of is_newline b0 = true → none_of is_newline b1 = true →
  (∀ x, x ∈ reg ∪ exc → none_of is_newline x = true) →
  readlines (writelines
    (set_course_line ((b0 +:+ nl) :: (b1 +:+ nl) :: third :: rest) reg exc))
  = (b0 +:+ nl) :: (b1 +:+ nl) :: course_line reg exc
    :: readlines (writelines rest).
Proof.
  intros H0 H1 Hn. unfold set_course_line, set_third.
  change (<[2%nat:=course_line reg exc]>
            ((b0 +:+ nl) :: (b1 +:+ nl) :: third :: rest))
    with ((b0 +:+ nl) :: (b1 +:+ nl) :: course_line reg exc :: rest).
  rewrite !writelines_cons, !str_app_assoc.
  rewrite readlines_line by done. rewrite readlines_line by done.
  unfold course_line. rewrite str_app_assoc.
  by rewrite readlines_line by by apply course_line_one_line.
Qed.

(** The course numbers parsed from a file hold no line break. *)
Lemma parsed_one_line text x :
  x ∈ registered_in text ∪ excluded_in text → none_of is_newline x = true.
Proof.
  unfold registered_in, excluded_in, parse_course_line.
  destruct (_ && _); cbn [fst snd]; [|set_solver].
  assert (Hs : single_line (nth 2 (readlines text) "") = true).
  { pose proof (readlines_single_line text) as Hall.
    destruct Hall as [|l0 ls H0 Hall]; [done|].
    destruct Hall as [|l1 ls H1 Hall]; [done|].
    by destruct Hall as [|l2 ls H2 Hall]. }
  assert (Htok : ∀ y, y ∈ all_days_of (nth 2 (readlines text) "") →
                      none_of is_newline y = true).
  { intros y Hy. unfold all_days_of in Hy.
    apply list_elem_of_In, in_map_iff in Hy as (p & <- & Hp).
    apply strip_single_line.
    pose proof (split_single_line comma _ Hs) as Hall.
    rewrite Forall_forall in Hall. by apply Hall, list_elem_of_In. }
  intros [Hx|Hx]%elem_of_union.
  - apply elem_of_existing_of in Hx as [Hx _]. by apply Htok.
  - apply elem_of_excluded_of in Hx as (y & Hy & _ & ->).
    by apply none_of_tail, Htok.
Qed.

(** A file with a registered course has three lines or more, the first
    two of them terminated. *)
Lemma registered_shape text x :
  x ∈ registered_in text →
  ∃ b0 b1 third rest,
    readlines text = (b0 +:+ nl) :: (b1 +:+ nl) :: third :: rest ∧
    none_of is_newline b0 = true ∧ none_of is_newline b1 = true ∧
    (parse_course_line (readlines text)).2 = readlines text.
Proof.
  unfold registered_in, parse_course_line.
  destruct (3 <=? length (readlines text))%nat eqn:E3; cbn [andb];
    [|cbn [fst snd]; set_solver].
  destruct (nonempty _); cbn [fst snd]; [|set_solver]. intros _.
  apply Nat.leb_le in E3.
  destruct (readlines text) as [|l0 [|l1 [|third rest]]] eqn:Er;
    simpl in E3; try lia.
  destruct (readlines_cons _ _ _ Er) as (s' & _ & Er' & Hb0).
  destruct (Hb0 ltac:(done)) as (b0 & -> & Hn0).
  destruct (readlines_cons _ _ _ Er') as (s'' & _ & _ & Hb1).
  destruct (Hb1 ltac:(done)) as (b1 & -> & Hn1).
  by exists b0, b1, third, rest.
Qed.

(** A plain course number that is in the registered set written to the
    third line is in the registered set of the file that results. *)
Lemma written_keeps (b0 b1 third : string) (rest : list string)
    (reg exc : gset string) (x : string) :
  none_of is_newline b0 = true → none_of is_newline b1 = true →
  (∀ y, y ∈ reg ∪ exc → none_of is_newline y = true) →
  plain x = true → x ∈ reg →
  x ∈ registered_in
        (writelines (set_course_line
           ((b0 +:+ nl) :: (b1 +:+ nl) :: third :: rest) reg exc)).
Proof.
  intros H0 H1 Hn Hp Hx. apply plain_spec in Hp as (Hne & Hb & Hsp & Hco).
  unfold registered_in. rewrite readlines_saved by done.
  unfold parse_course_line. cbn [length nth Nat.leb andb].
  assert (Hin : x ∈ all_days_of (course_line reg exc)).
  { apply (all_days_of_join_elem _ "" x); try done.
    unfold all_days_combined. apply elem_of_app. left. by apply elem_of_sorted. }
  destruct (strip (course_line reg exc)) eqn:Es; cbn [nonempty fst snd].
  - exfalso. pose proof (strip_empty_all_space _ Es) as Hall.
    unfold all_days_of in Hin. rewrite split_none in Hin.
    + cbn [map] in Hin. apply list_elem_of_singleton in Hin.
      rewrite Es in Hin. by subst.
    + by apply all_space_no_comma.
  - by apply elem_of_existing_of.
Qed.

(** C10.  When no course of the file's registered set has just started
    at load time, [read_credentials_file] makes no write: the files and
    the list of writes made are what they were; and the load, if the file
    has its two identity lines, returns the stripped email and password
    and the two parsed sets. *)
Theorem read_credentials_file_frame (path : string) (now : DT.datetime)
    (w : world) (text : string) :
  files w !! path = Some text →
  (∀ c, c ∈ registered_in text → course_has_just_started c now = false) →
  (read_credentials_file path now w).2 = w ∧
  ((2 ≤ length (readlines text))%nat →
   (read_credentials_file path now w).1
   = Return (Credentials (strip (nth 0 (readlines text) ""))
                         (strip (nth 1 (readlines text) ""))
                         (registered_in text) (excluded_in text)
                         (parse_course_line (readlines text)).2)).
Proof.
  intros Hf Hnone. apply courses_to_remove_empty in Hnone.
  unfold read_credentials_file, registered_in, excluded_in in *. rewrite Hf.
  cbv zeta.
  destruct (Nat.ltb_spec (length (readlines text)) 2) as [Hlt|Hge].
  - split; [done|]. lia.
  - destruct (parse_course_line (readlines text)) as [[ex exc] ls].
    cbn [fst snd] in *. by destruct (decide (courses_to_remove ex now = ∅)).
Qed.

(** C9.  When the credentials file is missing, or has fewer than two
    lines, the load leaves through [sys.exit(1)], and so does the
    invocation of the workflow that called it: no course is dealt with and
    no file is written. *)
Theorem read_credentials_file_fatal (path : string) (now : DT.datetime)
    (e : env) (w : world) :
  files w !! path = None ∨
  (∃ text, files w !! path = Some text ∧ (length (readlines text) < 2)%nat) →
  read_credentials_file path now w = (SysExit 1, w) ∧
  check_and_register_courses path e w = Run (Sys_exit 1) [] [] w.
Proof.
  intros Hbad.
  assert (Hexit : ∀ t, read_credentials_file path t w = (SysExit 1, w)).
  { intros t. unfold read_credentials_file.
    destruct Hbad as [->|(text & -> & Hlt)]; [done|].
    by destruct (Nat.ltb_spec (length (readlines text)) 2); [|lia]. }
  split; [done|]. unfold check_and_register_courses. by rewrite Hexit.
Qed.

(** C3, as the code has it.  The course line of registered
    {051001, 051011} and excluded {051003} is [051001, 051011, !051003];
    a course line lists the registered numbers ascending, then the
    excluded ones ascending with their mark; for sets of plain course
    numbers the parser gives back the two sets that were serialized; and
    loading a file saved with them (its email and password lines ended by
    a line break) returns the same two sets and writes nothing, provided
    no registered course has just started at load time. *)
Theorem save_load_roundtrip (path : string) (now : DT.datetime) (w : world)
    (b0 b1 third : string) (rest : list string) (reg exc : gset string) :
  none_of is_newline b0 = true → none_of is_newline b1 = true →
  (∀ x, x ∈ reg ∪ exc → plain x = true) →
  (∀ c, c ∈ reg → course_has_just_started c now = false) →
  let lines := (b0 +:+ nl) :: (b1 +:+ nl) :: third :: rest in
  let saved := write_file path (set_course_line lines reg exc) w in
  course_line {[ "051001"; "051011" ]} {[ "051003" ]}
  = "051001, 051011, !051003" +:+ nl ∧
  (∃ rs es, all_days_combined reg exc = rs ++ map (String bang) es ∧
            StronglySorted String.le rs ∧ StronglySorted String.le es ∧
            NoDup rs ∧ NoDup es ∧
            (∀ x, x ∈ rs ↔ x ∈ reg) ∧ (∀ x, x ∈ es ↔ x ∈ exc)) ∧
  (parse_course_line (set_course_line lines reg exc)).1 = (reg, exc) ∧
  ∃ lines', read_credentials_file path now saved
            = (Return (Credentials (strip (b0 +:+ nl)) (strip (b1 +:+ nl))
                                   reg exc lines'), saved).
Proof.
  intros H0 H1 Hp Hnone lines saved. split; [by vm_compute|]. split.
  { exists (sorted reg), (sorted exc). split; [done|].
    split; [apply sorted_ascending|]. split; [apply sorted_ascending|].
    split; [apply NoDup_sorted|]. split; [apply NoDup_sorted|].
    split; intros x; apply elem_of_sorted. }
  split; [unfold lines; by rewrite parse_course_line_saved|].
  exists ((b0 +:+ nl) :: (b1 +:+ nl) :: course_line reg exc
          :: readlines (writelines rest)).
  assert (Hn : ∀ x, x ∈ reg ∪ exc → none_of is_newline x = true).
  { intros x Hx. apply none_of_space_newline.
    specialize (Hp x Hx). apply plain_spec in Hp. tauto. }
  unfold read_credentials_file.
  assert (Hf : files saved !! path
               = Some (writelines (set_course_line lines reg exc)))
    by apply lookup_insert_eq.
  rewrite Hf. cbv zeta. unfold lines at 1 2 3 4.
  rewrite readlines_saved by done.
  cbn [length Nat.ltb Nat.leb nth].
  change ((b0 +:+ nl) :: (b1 +:+ nl) :: course_line reg exc
          :: readlines (writelines rest))
    with (set_course_line ((b0 +:+ nl) :: (b1 +:+ nl) :: third
                           :: readlines (writelines rest)) reg exc).
  rewrite parse_course_line_saved by done.
  apply courses_to_remove_empty in Hnone.
  by destruct (decide (courses_to_remove reg now = ∅)).
Qed.

Lemma save_load_roundtrip_witness :
  course_line {[ "051001"; "051011" ]} {[ "051003" ]}
  = "051001, 051011, !051003" +:+ nl ∧
  (∃ rs es, all_days_combined {[ "051001"; "051011" ]} {[ "051003" ]}
            = rs ++ map (String bang) es ∧
            StronglySorted String.le rs ∧ StronglySorted String.le es ∧
            NoDup rs ∧ NoDup es ∧
            (∀ x, x ∈ rs ↔ x ∈ ({[ "051001"; "051011" ]} : gset string)) ∧
            (∀ x, x ∈ es ↔ x ∈ ({[ "051003" ]} : gset string))) ∧
  (parse_course_line
     (set_course_line ["a@b.c" +:+ nl; "secret" +:+ nl; "" +:+ nl]
        {[ "051001"; "051011" ]} {[ "051003" ]})).1
  = ({[ "051001"; "051011" ]}, {[ "051003" ]}) ∧
  ∃ lines',
    read_credentials_file "account" (DT.make 2025 6 5 12 0 0 0)
      (write_file "account"
         (set_course_line ["a@b.c" +:+ nl; "secret" +:+ nl; "" +:+ nl]
            {[ "051001"; "051011" ]} {[ "051003" ]}) (World ∅ []))
    = (Return (Credentials (strip ("a@b.c" +:+ nl)) (strip ("secret" +:+ nl))
                 {[ "051001"; "051011" ]} {[ "051003" ]} lines'),
       write_file "account"
         (set_course_line ["a@b.c" +:+ nl; "secret" +:+ nl; "" +:+ nl]
            {[ "051001"; "051011" ]} {[ "051003" ]}) (World ∅ [])).
Proof.
  apply (save_load_roundtrip "account" (DT.make 2025 6 5 12 0 0 0) (World ∅ [])
           "a@b.c" "secret" "" [] {[ "051001"; "051011" ]} {[ "051003" ]}).
  - reflexivity.
  - reflexivity.
  - intros x Hx.
    assert (Hx' : x = "051001" ∨ x = "051011" ∨ x = "051003") by set_solver.
    destruct Hx' as [->|[->| ->]]; reflexivity.
  - intros c Hc.
    assert (Hc' : c = "051001" ∨ c = "051011") by set_solver.
    destruct Hc' as [->| ->]; reflexivity.
Defined.

(** The round trip of C3 does not hold at every load time: a file saved
    with 051001 registered and loaded on a Wednesday at 18:00 comes back
    without it. *)
Lemma save_load_roundtrip_pruned :
  plain "051001" = true ∧
  ∃ cr w',
    read_credentials_file "account" (DT.make 2025 6 4 18 0 0 0)
      (write_file "account"
         (set_course_line ["a@b.c" +:+ nl; "secret" +:+ nl; "" +:+ nl]
            {[ "051001" ]} ∅) (World ∅ []))
    = (Return cr, w') ∧
    existing_days cr = ∅ ∧
    existing_days cr ≠ {[ "051001" ]}.
Proof.
  split; [reflexivity|]. eexists _, _. split; [by vm_compute|].
  cbn [existing_days]. split; [by vm_compute|].
  intros H. assert (Hin : "051001" ∈ ({[ "051001" ]} : gset string)) by set_solver.
  rewrite <- H in Hin. revert Hin. by vm_compute.
Qed.



Lemma read_credentials_file_fatal_witness :
  read_credentials_file "account" thursday_noon
    (World {[ "account" := "a@b.c" +:+ nl ]} [])
  = (SysExit 1, World {[ "account" := "a@b.c" +:+ nl ]} []) ∧
  check_and_register_courses "account" nothing_listed
    (World {[ "account" := "a@b.c" +:+ nl ]} [])
  = Run (Sys_exit 1) [] [] (World {[ "account" := "a@b.c" +:+ nl ]} []).
Proof.
  apply (read_credentials_file_fatal "account" thursday_noon nothing_listed
           (World {[ "account" := "a@b.c" +:+ nl ]} [])).
  right. exists ("a@b.c" +:+ nl). split; [reflexivity|]. simpl. lia.
Defined.

Lemma read_credentials_file_frame_witness :
  (read_credentials_file "account" thursday_noon sample_world).2 = sample_world ∧
  ((2 ≤ length (readlines sample_text))%nat →
   (read_credentials_file "account" thursday_noon sample_world).1
   = Return (Credentials (strip (nth 0 (readlines sample_text) ""))
                         (strip (nth 1 (readlines sample_text) ""))
                         (registered_in sample_text) (excluded_in sample_text)
                         (parse_course_line (readlines sample_text)).2)).
Proof.
  apply (read_credentials_file_frame "account" thursday_noon sample_world
           sample_text).
  - reflexivity.
  - intros c Hc.
    assert (Hreg : registered_in sample_text = {[ "051001"; "051011" ]})
      by (vm_compute; reflexivity).
    rewrite Hreg in Hc.
    assert (Hc' : c = "051001" ∨ c = "051011") by set_solver.
    destruct Hc' as [->| ->]; reflexivity.
Defined.

End Store.

(** ** Registration workflow engine *)

Section Workflow.

Lemma signed_up_in_app d1 d2 :
  signed_up_in (d1 ++ d2) = signed_up_in d1 ∪ signed_up_in d2.
Proof.
  unfold signed_up_in. rewrite filter_app, map_app.
  apply set_eq. intros x. rewrite elem_of_union, !elem_of_list_to_set.
  apply elem_of_app.
Qed.

Lemma signed_up_in_nil : signed_up_in [] = ∅.
Proof. reflexivity. Qed.

Lemma union_empty_r (X : gset string) : X ∪ ∅ = X.
Proof. apply (right_id_L ∅ (∪)). Qed.

Lemma signed_up_in_one x o :
  signed_up_in [(x, o)] = if registered_by o then {[x]} else ∅.
Proof. destruct o; cbn; try done; apply union_empty_r. Qed.

Lemma attempt_course_spec e start idx x st :
  ∃ o, outcomes (attempt_course e start idx x st) = outcomes st ++ [(x, o)] ∧
       o ≠ Skipped_excluded ∧ o ≠ Skipped_in_configuration ∧
       signed_up_days (attempt_course e start idx x st)
       = signed_up_days st ∪ signed_up_in [(x, o)] ∧
       (clicked (attempt_course e start idx x st) = clicked st ∨
        ∃ updated button,
          updated_courses e idx = Some updated ∧ updated !! idx = Some button ∧
          clicked (attempt_course e start idx x st) = clicked st ++ [button]).
Proof.
  unfold attempt_course, check_timeout.
  destruct (updated_courses e idx) as [updated|].
  2: { eexists; split; [reflexivity|split; [done|split; [done|]]].
       split; [by rewrite signed_up_in_one, ?union_empty_r|by left]. }
  destruct (updated !! idx) as [button|] eqn:Eb.
  2: { eexists; split; [reflexivity|split; [done|split; [done|]]].
       split; [by rewrite signed_up_in_one, ?union_empty_r|by left]. }
  assert (Hclick : ∀ st',
    clicked st' = clicked st ++ [button] →
    clicked st' = clicked st ∨
    ∃ updated' button',
      Some updated = Some updated' ∧ updated' !! idx = Some button' ∧
      clicked st' = clicked st ++ [button']).
  { intros st' Hst. right. by exists updated, button. }
  cbv zeta.
  destruct (respond e idx) as [| | |r];
    try (eexists; split; [reflexivity|split; [done|split; [done|]]];
         split; [by rewrite signed_up_in_one, ?union_empty_r|by apply Hclick]).
  destruct (max_runtime <? time_time e _ - start); [|destruct r];
    (eexists; split; [reflexivity|split; [done|split; [done|]]];
     split; [|by apply Hclick];
     rewrite signed_up_in_one; cbn [registered_by signed_up_days sign_up
       record_outcome click]; rewrite ?union_empty_r; set_solver).
Qed.

(** The loop deals with the courses in order.  It stops early when a
    check of line 262 finds the budget exceeded, and then the courses from
    that one on are left without an outcome; or when closing a booking
    window fails.  Every click is made for a course number that passed
    both filters, on the button found at that number's index. *)
Lemma process_courses_spec e c start avail :
  ∀ idx st b st',
    process_courses e c start idx avail st = (b, st') →
    ∃ done rest,
      avail = map fst done ++ rest ∧
      outcomes st' = outcomes st ++ done ∧
      (b = Loop_finished → rest = []) ∧
      (b = Loop_timed_out →
       rest ≠ [] ∧ ∃ k, max_runtime < time_time e k - start) ∧
      signed_up_days st' = signed_up_days st ∪ signed_up_in done ∧
      Forall (filtered c) done ∧
      ∃ new, clicked st' = clicked st ++ new ∧
        ∀ button, button ∈ new →
          ∃ i x updated,
            avail !! i = Some x ∧
            (x ∉ excluded_days c) ∧ (x ∉ existing_days c) ∧
            updated_courses e (idx + i)%nat = Some updated ∧
            updated !! (idx + i)%nat = Some button.
Proof.
  induction avail as [|x avail IH]; intros idx st b st'; simpl.
  - intros [= <- <-]. exists (@nil (string * outcome)), (@nil string).
    rewrite !app_nil_r, signed_up_in_nil, union_empty_r.
    repeat split; try done. exists []. rewrite app_nil_r. split; [done|].
    by intros button Hb%elem_of_nil.
  - destruct (Z.ltb_spec max_runtime (time_time e (clock st) - start))
      as [Hlt|Hge].
    + intros [= <- <-]. exists (@nil (string * outcome)), (x :: avail).
      rewrite !app_nil_r, signed_up_in_nil, union_empty_r. simpl.
      repeat split; try done; [by eexists|].
      exists []. rewrite app_nil_r. split; [done|].
      by intros button Hb%elem_of_nil.
    + set (st1 := LoopState (S (clock st)) (signed_up_days st) (outcomes st)
                    (clicked st)).
      assert (Hstep : ∀ st2 o new0,
        outcomes st2 = outcomes st ++ [(x, o)] →
        signed_up_days st2 = signed_up_days st ∪ signed_up_in [(x, o)] →
        filtered c (x, o) →
        clicked st2 = clicked st ++ new0 →
        (∀ button, button ∈ new0 →
           (x ∉ excluded_days c) ∧ (x ∉ existing_days c) ∧
           ∃ updated, updated_courses e idx = Some updated ∧
                      updated !! idx = Some button) →
        process_courses e c start (S idx) avail st2 = (b, st') →
        ∃ done rest,
          x :: avail = map fst done ++ rest ∧
          outcomes st' = outcomes st ++ done ∧
          (b = Loop_finished → rest = []) ∧
          (b = Loop_timed_out →
           rest ≠ [] ∧ ∃ k, max_runtime < time_time e k - start) ∧
          signed_up_days st' = signed_up_days st ∪ signed_up_in done ∧
          Forall (filtered c) done ∧
          ∃ new, clicked st' = clicked st ++ new ∧
            ∀ button, button ∈ new →
              ∃ i y updated,
                (x :: avail) !! i = Some y ∧
                (y ∉ excluded_days c) ∧ (y ∉ existing_days c) ∧
                updated_courses e (idx + i)%nat = Some updated ∧
                updated !! (idx + i)%nat = Some button).
      { intros st2 o new0 Ho Hs Hf Hc0 Hn0 Hp.
        destruct (IH _ _ _ _ Hp)
          as (done & rest & -> & Hout & Hb0 & Hb1 & Hsu & Hall & new & Hcl & Hnew).
        exists ((x, o) :: done), rest. split; [done|].
        split; [by rewrite Hout, Ho, <- app_assoc|].
        split; [done|]. split; [done|]. split; [|split; [by constructor|]].
        { rewrite Hsu, Hs. change ((x, o) :: done) with ([(x, o)] ++ done).
          rewrite signed_up_in_app. set_solver. }
        exists (new0 ++ new). split; [by rewrite Hcl, Hc0, <- app_assoc|].
        intros button [Hb|Hb]%elem_of_app.
        - destruct (Hn0 _ Hb) as (H1 & H2 & updated & H3 & H4).
          exists 0%nat, x, updated. rewrite Nat.add_0_r. by repeat split.
        - destruct (Hnew _ Hb) as (i & y & updated & H1 & H2 & H3 & H4 & H5).
          exists (S i), y, updated.
          replace (idx + S i)%nat with (S idx + i)%nat by lia.
          by repeat split. }
      destruct (decide (x ∈ excluded_days c)) as [Hex|Hnex].
      { apply (Hstep _ Skipped_excluded []); [done| | | |].
        - by rewrite signed_up_in_one, union_empty_r.
        - by repeat split.
        - by rewrite app_nil_r.
        - by intros button Hb%elem_of_nil. }
      destruct (decide (x ∈ existing_days c)) as [Hin|Hnin].
      { apply (Hstep _ Skipped_in_configuration []); [done| | | |].
        - by rewrite signed_up_in_one, union_empty_r.
        - by repeat split.
        - by rewrite app_nil_r.
        - by intros button Hb%elem_of_nil. }
      destruct (attempt_course_spec e start idx x st1)
        as (o & Ho & Hn1 & Hn2 & Hs & Hc).
      assert (Hc' : ∃ new0, clicked (attempt_course e start idx x st1)
                            = clicked st ++ new0 ∧
                ∀ button, button ∈ new0 →
                  (x ∉ excluded_days c) ∧ (x ∉ existing_days c) ∧
                  ∃ updated, updated_courses e idx = Some updated ∧
                             updated !! idx = Some button).
      { destruct Hc as [Hc|(updated & button & H1 & H2 & Hc)].
        - exists []. rewrite app_nil_r. split; [done|].
          by intros button Hb%elem_of_nil.
        - exists [button]. split; [done|].
          intros ? ->%list_elem_of_singleton. split; [done|]. split; [done|].
          by exists updated. }
      destruct Hc' as (new0 & Hc0 & Hn0).
      destruct (cleanup_raises e idx).
      * intros [= <- <-]. exists [(x, o)], avail.
        repeat split; try done; [by constructor|].
        exists new0. split; [done|]. intros button Hb.
        destruct (Hn0 _ Hb) as (H1 & H2 & updated & H3 & H4).
        exists 0%nat, x, updated. rewrite Nat.add_0_r. by repeat split.
      * apply (Hstep _ o new0); [done|done| |done|done]. by repeat split.
Qed.

(** The loop over a list in two parts. *)
Lemma process_courses_app e c start pre post :
  ∀ idx st,
    process_courses e c start idx (pre ++ post) st
    = match process_courses e c start idx pre st with
      | (Loop_finished, st') =>
          process_courses e c start (idx + length pre)%nat post st'
      | r => r
      end.
Proof.
  induction pre as [|x pre IH]; intros idx st.
  - simpl. by rewrite Nat.add_0_r.
  - cbn [app process_courses length]. unfold check_timeout.
    destruct (max_runtime <? _); [done|].
    replace (idx + S (length pre))%nat with (S idx + length pre)%nat by lia.
    destruct (decide (x ∈ excluded_days c)); [apply IH|].
    destruct (decide (x ∈ existing_days c)); [apply IH|].
    destruct (cleanup_raises e idx); [done|apply IH].
Qed.

(** The ways an invocation can end once the credentials are loaded. *)
Lemma check_and_register_courses_cases path e w cr w1 :
  read_credentials_file path (datetime_now e) w = (Return cr, w1) →
  let r := check_and_register_courses path e w in
  (run_world r = w1 ∧ Forall (filtered cr) (run_outcomes r) ∧
   (run_ending r = Driver_setup_failed ∨ run_ending r = Unexpected_error)) ∨
  (run_world r = w1 ∧ run_ending r = Timed_out ∧
   (∃ k, max_runtime < time_time e k - time_time e 0) ∧
   (run_outcomes r = [] ∨
    ∃ buttons rest, find_buttons e = Some buttons ∧ rest ≠ [] ∧
      available_days_of buttons = map fst (run_outcomes r) ++ rest) ∧
   Forall (filtered cr) (run_outcomes r)) ∨
  (∃ buttons, find_buttons e = Some buttons ∧
     map fst (run_outcomes r) = available_days_of buttons ∧
     Forall (filtered cr) (run_outcomes r) ∧
     run_ending r = File_updated (existing_days cr ∪ signed_up_in (run_outcomes r))
                                 (excluded_days cr) ∧
     run_world r = write_file path
                     (set_course_line (lines cr)
                        (existing_days cr ∪ signed_up_in (run_outcomes r))
                        (excluded_days cr)) w1).
Proof.
  intros Hr r. unfold r, check_and_register_courses. rewrite Hr.
  destruct (setup_ok e); simpl; [|left; auto].
  destruct (page_loads e); simpl; [|left; auto].
  destruct (Z.ltb_spec max_runtime (time_time e 1 - time_time e 0)) as [Hlt|Hge].
  { right; left. simpl. repeat split; eauto. }
  destruct (find_buttons e) as [buttons|]; [|left; auto].
  destruct (process_courses _ _ _ _ _ _) as [b st'] eqn:Ep.
  destruct (process_courses_spec _ _ _ _ _ _ _ _ Ep)
    as (done & rest & Hav & Hout & Hb0 & Hb1 & Hsu & Hall & _).
  simpl in Hout, Hsu.
  assert (Hu : (∅ : gset string) ∪ signed_up_in done = signed_up_in done)
    by set_solver.
  destruct b; simpl; rewrite Hout; try rewrite Hsu.
  - right; right. exists buttons. rewrite (Hb0 eq_refl), app_nil_r in Hav.
    rewrite Hu. by repeat split.
  - right; left. destruct (Hb1 eq_refl) as [Hne Hk].
    repeat split; try done. right. by exists buttons, rest.
  - left. auto.
Qed.

(** Where the clicks of an invocation land. *)
Lemma check_and_register_courses_clicks path e w cr w1 :
  read_credentials_file path (datetime_now e) w = (Return cr, w1) →
  ∀ button, button ∈ run_clicked (check_and_register_courses path e w) →
    ∃ buttons, find_buttons e = Some buttons ∧
               click_at e cr (available_days_of buttons) button.
Proof.
  intros Hr button. unfold check_and_register_courses. rewrite Hr.
  destruct (setup_ok e); simpl; [|by intros H%elem_of_nil].
  destruct (page_loads e); simpl; [|by intros H%elem_of_nil].
  destruct (max_runtime <? _); simpl; [by intros H%elem_of_nil|].
  destruct (find_buttons e) as [buttons|]; simpl; [|by intros H%elem_of_nil].
  destruct (process_courses _ _ _ _ _ _) as [b st'] eqn:Ep.
  destruct (process_courses_spec _ _ _ _ _ _ _ _ Ep)
    as (_ & _ & _ & _ & _ & _ & _ & _ & new & Hcl & Hnew).
  simpl in Hcl. intros Hb. exists buttons. split; [done|].
  apply Hnew. by destruct b; simpl in Hb; rewrite Hcl in Hb.
Qed.

(** C1, as the code has it.  The budget is 900 seconds, compared with
    the clock after the page load, before each course and after each
    login.  While no reading exceeds it the invocation does not time out.
    When the check after the page load finds it exceeded, the invocation
    ends there as timed out, with no course dealt with.  When the check
    before a course finds it exceeded, the loop having run through the
    courses before that one, the invocation ends there as timed out: the
    outcomes are those of the earlier courses, that course and the ones
    after it get none and no button is clicked for them.  When the check
    after a login finds it exceeded, that one course is recorded as an
    error and not signed up, and the loop goes on.  A time-out writes
    nothing: the world is the one the load left, so what was signed up
    earlier in the invocation is not persisted.  Only an invocation that
    runs through all courses writes the file, with the registered set
    extended by the courses signed up; with every other ending the world
    is the one the load left. *)
Theorem check_and_register_courses_budget (path : string) (e : env)
    (w w1 : world) (cr : credentials) :
  read_credentials_file path (datetime_now e) w = (Return cr, w1) →
  let r := check_and_register_courses path e w in
  let elapsed k := time_time e k - time_time e 0 in
  max_runtime = 900 * 1000000 ∧
  ((∀ k, elapsed k ≤ max_runtime) → run_ending r ≠ Timed_out) ∧
  (setup_ok e = true → page_loads e = true → max_runtime < elapsed 1%nat →
   run_ending r = Timed_out ∧ run_outcomes r = [] ∧ run_clicked r = [] ∧
   run_world r = w1) ∧
  (∀ buttons pre x post st,
     setup_ok e = true → page_loads e = true →
     elapsed 1%nat ≤ max_runtime →
     find_buttons e = Some buttons →
     available_days_of buttons = pre ++ x :: post →
     process_courses e cr (time_time e 0) 0 pre (LoopState 2 ∅ [] [])
     = (Loop_finished, st) →
     max_runtime < elapsed (clock st) →
     run_ending r = Timed_out ∧
     run_outcomes r = outcomes st ∧ map fst (run_outcomes r) = pre ∧
     run_clicked r = clicked st ∧ run_world r = w1) ∧
  (∀ idx x st updated button answer,
     updated_courses e idx = Some updated → updated !! idx = Some button →
     respond e idx = Logged_in answer →
     max_runtime < elapsed (clock st) →
     attempt_course e (time_time e 0) idx x st
     = LoopState (S (clock st)) (signed_up_days st)
                 (outcomes st ++ [(x, Error_processing_course)])
                 (clicked st ++ [button])) ∧
  (run_ending r = Timed_out →
   (∃ k, max_runtime < elapsed k) ∧
   run_world r = w1 ∧
   (run_outcomes r = [] ∨
    ∃ buttons rest, find_buttons e = Some buttons ∧ rest ≠ [] ∧
      available_days_of buttons = map fst (run_outcomes r) ++ rest)) ∧
  ((∀ all exc, run_ending r ≠ File_updated all exc) → run_world r = w1) ∧
  (∀ all exc, run_ending r = File_updated all exc →
   ∃ buttons, find_buttons e = Some buttons ∧
     map fst (run_outcomes r) = available_days_of buttons ∧
     all = existing_days cr ∪ signed_up_in (run_outcomes r) ∧
     exc = excluded_days cr ∧
     run_world r = write_file path (set_course_line (lines cr) all exc) w1).
Proof.
  intros Hr r elapsed. split; [done|].
  assert (Hload : setup_ok e = true → page_loads e = true →
                  max_runtime < elapsed 1%nat →
                  r = Run Timed_out [] [] w1).
  { intros Hs Hp Hlt. unfold r, check_and_register_courses.
    rewrite Hr, Hs, Hp. simpl.
    by destruct (Z.ltb_spec max_runtime (time_time e 1 - time_time e 0));
      [|unfold elapsed in Hlt; lia]. }
  assert (Hloop : ∀ buttons pre x post st,
     setup_ok e = true → page_loads e = true →
     elapsed 1%nat ≤ max_runtime →
     find_buttons e = Some buttons →
     available_days_of buttons = pre ++ x :: post →
     process_courses e cr (time_time e 0) 0 pre (LoopState 2 ∅ [] [])
     = (Loop_finished, st) →
     max_runtime < elapsed (clock st) →
     r = Run Timed_out (outcomes st) (clicked st) w1 ∧
     map fst (outcomes st) = pre).
  { intros buttons pre x post st Hs Hp Hle Hb Hav Hpre Hlt.
    unfold r, check_and_register_courses. rewrite Hr, Hs, Hp, Hb. simpl.
    destruct (Z.ltb_spec max_runtime (time_time e 1 - time_time e 0));
      [unfold elapsed in Hle; lia|].
    rewrite Hav, process_courses_app, Hpre. simpl.
    destruct (Z.ltb_spec max_runtime (time_time e (clock st) - time_time e 0));
      [|unfold elapsed in Hlt; lia].
    split; [done|].
    destruct (process_courses_spec _ _ _ _ _ _ _ _ Hpre)
      as (done & rest & Hd & Hout & Hb0 & _).
    rewrite (Hb0 eq_refl), app_nil_r in Hd. simpl in Hout. by rewrite Hout, Hd. }
  assert (Hlogin : ∀ idx x st updated button answer,
     updated_courses e idx = Some updated → updated !! idx = Some button →
     respond e idx = Logged_in answer →
     max_runtime < elapsed (clock st) →
     attempt_course e (time_time e 0) idx x st
     = LoopState (S (clock st)) (signed_up_days st)
                 (outcomes st ++ [(x, Error_processing_course)])
                 (clicked st ++ [button])).
  { intros idx x st updated button answer Hu Hb Ha Hlt.
    unfold attempt_course. rewrite Hu, Hb, Ha. simpl.
    by destruct (Z.ltb_spec max_runtime (time_time e (clock st) - time_time e 0));
      [|unfold elapsed in Hlt; lia]. }
  destruct (check_and_register_courses_cases path e w cr w1 Hr)
    as [(Hw & _ & He)|[(Hw & He & Hk & Ho & _)|(buttons & Hb & Hm & _ & He & Hw)]];
    fold r in Hw, He |- *; try fold r in Ho; try fold r in Hm.
  - split; [intros _; destruct He as [-> | ->]; done|].
    split; [intros Hs Hp Hlt; by rewrite (Hload Hs Hp Hlt)|].
    split.
    { intros buttons pre x post st Hs Hp Hle Hb Hav Hpre Hlt.
      destruct (Hloop buttons pre x post st Hs Hp Hle Hb Hav Hpre Hlt)
        as [-> Hm]. done. }
    split; [done|].
    split; [destruct He as [He|He]; rewrite He; done|].
    split; [done|].
    intros all exc. destruct He as [He|He]; rewrite He; done.
  - split.
    { intros Hall. destruct Hk as [k Hk]. specialize (Hall k).
      unfold elapsed in Hall. lia. }
    split; [intros Hs Hp Hlt; by rewrite (Hload Hs Hp Hlt)|].
    split.
    { intros buttons pre x post st Hs Hp Hle Hb Hav Hpre Hlt.
      destruct (Hloop buttons pre x post st Hs Hp Hle Hb Hav Hpre Hlt)
        as [-> Hm]. done. }
    split; [done|].
    split; [done|]. split; [done|]. intros all exc. by rewrite He.
  - split; [by rewrite He|].
    split.
    { intros Hs Hp Hlt. rewrite (Hload Hs Hp Hlt) in He. done. }
    split.
    { intros buttons' pre x post st Hs Hp Hle Hb' Hav Hpre Hlt.
      destruct (Hloop buttons' pre x post st Hs Hp Hle Hb' Hav Hpre Hlt)
        as [Hrun _]. rewrite Hrun in He. done. }
    split; [done|].
    split; [by rewrite He|].
    split; [intros Hno; by destruct (Hno _ _ He)|].
    intros all exc. rewrite He. intros [= <- <-]. by exists buttons.
Qed.

Lemma check_and_register_courses_budget_witness :
  let r := check_and_register_courses "account" late_second_course sample_world in
  let st := (process_courses late_second_course sample_loaded
               (time_time late_second_course 0) 0 ["051002"]
               (LoopState 2 ∅ [] [])).2 in
  run_ending r = Timed_out ∧
  run_outcomes r = outcomes st ∧ map fst (run_outcomes r) = ["051002"] ∧
  run_clicked r = clicked st ∧ run_world r = sample_world.
Proof.
  assert (Hload : read_credentials_file "account"
                    (datetime_now late_second_course) sample_world
                  = (Return sample_loaded, sample_world))
    by (vm_compute; reflexivity).
  apply (proj1 (proj2 (proj2 (proj2
    (check_and_register_courses_budget "account" late_second_course
       sample_world sample_world sample_loaded Hload))))
    [Some "051002"; Some "051012"] ["051002"] "051012" []).
  - reflexivity.
  - reflexivity.
  - by vm_compute.
  - reflexivity.
  - reflexivity.
  - vm_compute. reflexivity.
  - by vm_compute.
Defined.

(** The claim C1 makes about what is kept does not hold: 051002 is
    signed up, the clock then passes the budget before the second course,
    and the invocation ends with the file as it was, 051002 not in it. *)
Lemma timeout_discards_signed_up :
  let r := check_and_register_courses "account" late_second_course sample_world in
  run_ending r = Timed_out ∧
  run_outcomes r = [("051002", Successfully_registered)] ∧
  run_world r = sample_world ∧
  write_log (run_world r) = [] ∧
  files (run_world r) !! "account" = Some sample_text ∧
  "051002" ∉ registered_in sample_text.
Proof.
  cbv zeta. split; [by vm_compute|]. split; [by vm_compute|].
  split; [by vm_compute|]. split; [by vm_compute|]. split; [by vm_compute|].
  intros Hin. revert Hin. by vm_compute.
Qed.

(** C5, as the code has it.  Nothing makes the two sets disjoint, but
    nothing breaks it either: a course that is in both sets a load returns
    was in both sets of the file; the loop signs up no excluded course, so
    the two sets an invocation writes back overlap exactly where the
    loaded ones did.  If the file's sets are disjoint, so are the loaded
    and the written ones. *)
Theorem disjoint_preserved (path : string) (e : env) (w w1 : world)
    (cr : credentials) :
  read_credentials_file path (datetime_now e) w = (Return cr, w1) →
  ∃ text, files w !! path = Some text ∧
    existing_days cr ∩ excluded_days cr ⊆ registered_in text ∩ excluded_in text ∧
    (registered_in text ## excluded_in text →
     existing_days cr ## excluded_days cr) ∧
    (∀ all exc,
       run_ending (check_and_register_courses path e w) = File_updated all exc →
       all ∩ exc = existing_days cr ∩ excluded_days cr ∧
       (registered_in text ## excluded_in text → all ## exc)).
Proof.
  intros Hr.
  destruct (read_credentials_file_Return _ _ _ _ _ Hr)
    as (text & Hf & _ & _ & _ & Hexc & Hex & _).
  exists text. split; [done|].
  assert (Hsub : existing_days cr ∩ excluded_days cr
                 ⊆ registered_in text ∩ excluded_in text).
  { rewrite Hex, Hexc. set_solver. }
  split; [done|]. split; [set_solver|].
  intros all exc He.
  destruct (check_and_register_courses_cases path e w cr w1 Hr)
    as [(_ & _ & [He'|He'])|[(_ & He' & _)|(buttons & _ & _ & Hall & He' & _)]];
    rewrite He' in He; try done.
  injection He as <- <-.
  assert (Hsu : signed_up_in
                  (run_outcomes (check_and_register_courses path e w))
                ## excluded_days cr).
  { intros x Hx Hxe. unfold signed_up_in in Hx.
    apply elem_of_list_to_set, list_elem_of_In, in_map_iff in Hx
      as ([y o] & <- & Hy).
    apply list_elem_of_In, list_elem_of_filter in Hy as [Ho Hy]. simpl in *.
    rewrite Forall_forall in Hall. destruct (Hall _ Hy) as (H1 & _).
    simpl in H1. rewrite (H1 Hxe) in Ho. done. }
  split; set_solver.
Qed.

Lemma disjoint_preserved_witness :
  ∃ text, files sample_world !! "account" = Some text ∧
    existing_days sample_loaded ∩ excluded_days sample_loaded
    ⊆ registered_in text ∩ excluded_in text ∧
    (registered_in text ## excluded_in text →
     existing_days sample_loaded ## excluded_days sample_loaded) ∧
    (∀ all exc,
       run_ending (check_and_register_courses "account" nothing_listed
                     sample_world) = File_updated all exc →
       all ∩ exc = existing_days sample_loaded ∩ excluded_days sample_loaded ∧
       (registered_in text ## excluded_in text → all ## exc)).
Proof.
  apply (disjoint_preserved "account" nothing_listed sample_world sample_world
           sample_loaded).
  vm_compute. reflexivity.
Defined.

(** The invariant of C5 is not enforced: a record that lists 051001
    both bare and with the exclusion mark loads with 051001 in both sets,
    and an invocation writes both sets back with 051001 in each. *)
Lemma overlap_survives :
  ∃ cr w1 all exc,
    read_credentials_file "account" thursday_noon overlapping_world
    = (Return cr, w1) ∧
    "051001" ∈ existing_days cr ∩ excluded_days cr ∧
    ¬ (existing_days cr ## excluded_days cr) ∧
    run_ending (check_and_register_courses "account" nothing_listed
                  overlapping_world) = File_updated all exc ∧
    "051001" ∈ all ∩ exc ∧
    ¬ (all ## exc).
Proof.
  eexists _, _, _, _. split; [by vm_compute|].
  assert (H1 : "051001" ∈ ({[ "051001" ]} : gset string)) by set_solver.
  cbn [existing_days excluded_days].
  split; [by vm_compute|]. split.
  { intros Hd. apply (Hd "051001"); by vm_compute. }
  split; [by vm_compute|]. split; [by vm_compute|].
  intros Hd. apply (Hd "051001"); by vm_compute.
Qed.

Lemma read_credentials_file_total path now w text :
  files w !! path = Some text → (2 ≤ length (readlines text))%nat →
  ∃ cr w1, read_credentials_file path now w = (Return cr, w1).
Proof.
  intros Hf Hlen. unfold read_credentials_file. rewrite Hf. cbv zeta.
  destruct (Nat.ltb_spec (length (readlines text)) 2); [lia|].
  destruct (parse_course_line (readlines text)) as [[ex exc] ls].
  destruct (decide _); by eexists _, _.
Qed.

Lemma filter_eq_once (l : list string) (x : string) :
  NoDup l → x ∈ l → length (filter (λ y, y = x) l) = 1%nat.
Proof.
  induction 1 as [|y l Hy Hnd IH]; intros Hx; [by apply elem_of_nil in Hx|].
  rewrite filter_cons. destruct (decide (y = x)) as [->|Hne].
  - simpl. f_equal.
    assert (Hnil : filter (λ y, y = x) l = []); [|by rewrite Hnil].
    destruct (filter (λ y, y = x) l) as [|z l'] eqn:E; [done|].
    assert (Hz : z ∈ filter (λ y, y = x) l) by (rewrite E; by left).
    apply list_elem_of_filter in Hz as [-> Hz]. done.
  - apply IH. by apply elem_of_cons in Hx as [->|Hx].
Qed.

(** One invocation on an account in which [x] is registered and has not
    just started. *)
Lemma run_keeps_registered (path : string) (e : env) (w : world)
    (text x : string) :
  files w !! path = Some text → x ∈ registered_in text → plain x = true →
  course_has_just_started x (datetime_now e) = false →
  scraped_one_line e →
  let r := check_and_register_courses path e w in
  (∀ code, run_ending r ≠ Sys_exit code) ∧
  (∀ o, (x, o) ∈ run_outcomes r →
        o = Skipped_in_configuration ∨
        (o = Skipped_excluded ∧ x ∈ excluded_in text)) ∧
  (∃ text', files (run_world r) !! path = Some text' ∧ x ∈ registered_in text') ∧
  (∀ all exc, run_ending r = File_updated all exc →
     x ∈ all ∧ length (filter (λ y, y = x) (sorted all)) = 1%nat) ∧
  (clicks_as_read e → Some x ∉ run_clicked r).
Proof.
  intros Hf Hx Hp Hjs Hscr r.
  destruct (registered_shape text x Hx)
    as (b0 & b1 & third & rest & Hrl & Hn0 & Hn1 & Hls).
  destruct (read_credentials_file_total path (datetime_now e) w text Hf)
    as (cr & w1 & Hr); [rewrite Hrl; simpl; lia|].
  destruct (read_credentials_file_Return _ _ _ _ _ Hr)
    as (text_ & Hf_ & _ & _ & _ & Hexc & Hex & Hw).
  rewrite Hf in Hf_. injection Hf_ as <-.
  assert (Hxe : x ∈ existing_days cr).
  { rewrite Hex. apply elem_of_difference. split; [done|].
    unfold courses_to_remove. rewrite elem_of_filter. intros [Hc _]. congruence. }
  assert (Hparsed : ∀ y, y ∈ existing_days cr ∪ excluded_days cr →
                         none_of is_newline y = true).
  { intros y Hy. apply (parsed_one_line text). rewrite Hex, Hexc in Hy.
    set_solver. }
  assert (Hshape : ∃ third', lines cr = (b0 +:+ nl) :: (b1 +:+ nl) :: third' :: rest).
  { destruct Hw as [(_ & -> & _)|(_ & -> & _)]; rewrite Hls, Hrl.
    - by eexists.
    - unfold set_course_line, set_third. by eexists. }
  destruct Hshape as [third' Hshape].
  assert (Hw1 : ∃ text1, files w1 !! path = Some text1 ∧ x ∈ registered_in text1).
  { destruct Hw as [(_ & _ & ->)|(_ & Hl & ->)]; [by exists text|].
    exists (writelines (lines cr)). split; [apply lookup_insert_eq|].
    rewrite Hl, Hls, Hrl. by apply written_keeps. }
  assert (Hskip : ∀ done o, Forall (filtered cr) done → (x, o) ∈ done →
                   o = Skipped_in_configuration ∨
                   (o = Skipped_excluded ∧ x ∈ excluded_in text)).
  { intros done o Hall Hin. rewrite Forall_forall in Hall.
    destruct (Hall _ Hin) as (H1 & H2 & _). simpl in *.
    destruct (decide (x ∈ excluded_days cr)) as [Hin'|Hnin].
    - right. split; [by apply H1|]. by rewrite <- Hexc.
    - left. by apply H2. }
  assert (Hclicks : clicks_as_read e → Some x ∉ run_clicked r).
  { intros Hcar Hin.
    destruct (check_and_register_courses_clicks path e w cr w1 Hr _ Hin)
      as (buttons & Hb & i & y & updated & H1 & _ & H2 & H3 & H4).
    pose proof (Hcar buttons i y updated (Some x) Hb H1 H3 H4) as Heq.
    injection Heq as ->. done. }
  cut ((∀ code, run_ending r ≠ Sys_exit code) ∧
       (∀ o, (x, o) ∈ run_outcomes r →
             o = Skipped_in_configuration ∨
             (o = Skipped_excluded ∧ x ∈ excluded_in text)) ∧
       (∃ text', files (run_world r) !! path = Some text' ∧
                 x ∈ registered_in text') ∧
       (∀ all exc, run_ending r = File_updated all exc →
          x ∈ all ∧ length (filter (λ y, y = x) (sorted all)) = 1%nat)).
  { intros (H1 & H2 & H3 & H4). done. }
  clear Hclicks.
  destruct (check_and_register_courses_cases path e w cr w1 Hr)
    as [(Hw' & Hall & He)|[(Hw' & He & _ & _ & Hall)
                          |(buttons & Hb & Hm & Hall & He & Hw')]];
    fold r in Hw', He, Hall |- *; try fold r in Hm.
  - split; [intros code; destruct He as [-> | ->]; done|].
    split; [intros o; by apply Hskip|].
    split; [by rewrite Hw'|].
    intros all exc. destruct He as [-> | ->]; done.
  - split; [by rewrite He|].
    split; [intros o; by apply Hskip|].
    split; [by rewrite Hw'|by rewrite He].
  - split; [by rewrite He|]. split; [intros o; by apply Hskip|]. split.
    + rewrite Hw'. eexists. split; [apply lookup_insert_eq|].
      rewrite Hshape. apply written_keeps; try done; [|set_solver].
      intros y [[Hy|Hy]%elem_of_union|Hy]%elem_of_union;
        [apply Hparsed; set_solver| |apply Hparsed; set_solver].
      apply (Hscr buttons); [done|]. rewrite <- Hm.
      unfold signed_up_in in Hy.
      apply elem_of_list_to_set, list_elem_of_In, in_map_iff in Hy
        as (yo & <- & Hyo).
      apply list_elem_of_In, list_elem_of_filter in Hyo as [_ Hyo].
      apply list_elem_of_In, in_map, list_elem_of_In. done.
    + intros all exc. rewrite He. intros [= <- <-].
      split; [set_solver|]. apply filter_eq_once; [apply NoDup_sorted|].
      apply elem_of_sorted. set_solver.
Qed.

(** C6, as the code has it.  Take an account whose registered set holds
    a plain course number [x], and two invocations in succession at times
    when [x] has not just started, the course numbers scraped holding no
    line break, and the button found at each position when the loop comes
    to it carrying the number read at that position at the start.
    Neither invocation leaves through [sys.exit]; whenever one of them
    comes to [x] it skips it, as already in the configuration (or as
    excluded, should [x] be excluded as well): no error is recorded for
    it, and no button of [x] is clicked by either invocation; after each
    of them the registered set of the file holds [x]; and when an
    invocation writes the file, [x] occurs exactly once in the sorted list
    of registered numbers it writes. *)
Theorem already_registered_idempotent (path : string) (e1 e2 : env)
    (w : world) (text x : string) :
  files w !! path = Some text → x ∈ registered_in text → plain x = true →
  course_has_just_started x (datetime_now e1) = false →
  course_has_just_started x (datetime_now e2) = false →
  scraped_one_line e1 → scraped_one_line e2 →
  clicks_as_read e1 → clicks_as_read e2 →
  let r1 := check_and_register_courses path e1 w in
  let r2 := check_and_register_courses path e2 (run_world r1) in
  ∃ text1 text2,
    files (run_world r1) !! path = Some text1 ∧ x ∈ registered_in text1 ∧
    files (run_world r2) !! path = Some text2 ∧ x ∈ registered_in text2 ∧
    (∀ o, (x, o) ∈ run_outcomes r1 →
          booking_attempted o = false ∧
          (o = Skipped_in_configuration ∨
           (o = Skipped_excluded ∧ x ∈ excluded_in text))) ∧
    (∀ o, (x, o) ∈ run_outcomes r2 →
          booking_attempted o = false ∧
          (o = Skipped_in_configuration ∨
           (o = Skipped_excluded ∧ x ∈ excluded_in text1))) ∧
    (∀ r, r = r1 ∨ r = r2 →
          (∀ code, run_ending r ≠ Sys_exit code) ∧
          (Some x ∉ run_clicked r) ∧
          (∀ all exc, run_ending r = File_updated all exc →
             x ∈ all ∧ length (filter (λ y, y = x) (sorted all)) = 1%nat)).
Proof.
  intros Hf Hx Hp Hjs1 Hjs2 Hs1 Hs2 Hc1 Hc2 r1 r2.
  destruct (run_keeps_registered path e1 w text x Hf Hx Hp Hjs1 Hs1)
    as (Hexit1 & Hout1 & (text1 & Hf1 & Hx1) & Hupd1 & Hcl1).
  fold r1 in Hexit1, Hout1, Hf1, Hupd1, Hcl1.
  destruct (run_keeps_registered path e2 (run_world r1) text1 x Hf1 Hx1 Hp Hjs2 Hs2)
    as (Hexit2 & Hout2 & (text2 & Hf2 & Hx2) & Hupd2 & Hcl2).
  fold r2 in Hexit2, Hout2, Hf2, Hupd2, Hcl2.
  exists text1, text2. repeat (split; [done|]). split; [|split].
  - intros o Ho. destruct (Hout1 o Ho) as [->|[-> He]]; split; auto.
  - intros o Ho. destruct (Hout2 o Ho) as [->|[-> He]]; split; auto.
  - intros r [-> | ->]; (split; [done|split; [auto|done]]).
Qed.

Lemma already_registered_idempotent_witness :
  ∃ text1 text2,
    files (run_world (check_and_register_courses "account" lists_051011
                        sample_world)) !! "account" = Some text1 ∧
    "051011" ∈ registered_in text1 ∧
    files (run_world
             (check_and_register_courses "account" lists_051011
                (run_world (check_and_register_courses "account" lists_051011
                              sample_world)))) !! "account" = Some text2 ∧
    "051011" ∈ registered_in text2 ∧
    (∀ o, ("051011", o)
          ∈ run_outcomes (check_and_register_courses "account" lists_051011
                            sample_world) →
          booking_attempted o = false ∧
          (o = Skipped_in_configuration ∨
           (o = Skipped_excluded ∧ "051011" ∈ excluded_in sample_text))) ∧
    (∀ o, ("051011", o)
          ∈ run_outcomes
              (check_and_register_courses "account" lists_051011
                 (run_world (check_and_register_courses "account" lists_051011
                               sample_world))) →
          booking_attempted o = false ∧
          (o = Skipped_in_configuration ∨
           (o = Skipped_excluded ∧ "051011" ∈ excluded_in text1))) ∧
    (∀ r, r = check_and_register_courses "account" lists_051011 sample_world ∨
          r = check_and_register_courses "account" lists_051011
                (run_world (check_and_register_courses "account" lists_051011
                              sample_world)) →
          (∀ code, run_ending r ≠ Sys_exit code) ∧
          (Some "051011" ∉ run_clicked r) ∧
          (∀ all exc, run_ending r = File_updated all exc →
             "051011" ∈ all ∧
             length (filter (λ y, y = "051011") (sorted all)) = 1%nat)).
Proof.
  assert (Hscr : scraped_one_line lists_051011).
  { intros buttons c [= <-] Hc. apply list_elem_of_singleton in Hc as ->.
    reflexivity. }
  assert (Hcar : clicks_as_read lists_051011).
  { intros buttons idx coursenr updated button [= <-] Hc [= <-] Hb.
    destruct idx as [|idx]; [|done]. simpl in Hc, Hb. congruence. }
  apply (already_registered_idempotent "account" lists_051011 lists_051011
           sample_world sample_text "051011").
  - reflexivity.
  - by vm_compute.
  - reflexivity.
  - reflexivity.
  - reflexivity.
  - exact Hscr.
  - exact Hscr.
  - exact Hcar.
  - exact Hcar.
Defined.

(** The claim C6 makes does not hold at every time: invoked at the
    registration time of 051001, seven minutes before its start, the load
    drops 051001 from the registered set, the loop books it again, the
    site answers with a page the code does not know, and the file written
    has lost 051001. *)
Lemma registered_course_rebooked :
  "051001" ∈ registered_in sample_text ∧
  ∃ written exc text',
    run_outcomes (check_and_register_courses "account" at_registration_time
                    sample_world) = [("051001", Unknown_status)] ∧
    booking_attempted Unknown_status = true ∧
    run_ending (check_and_register_courses "account" at_registration_time
                  sample_world) = File_updated written exc ∧
    ("051001" ∉ written) ∧
    files (run_world (check_and_register_courses "account" at_registration_time
                        sample_world)) !! "account" = Some text' ∧
    "051001" ∉ registered_in text'.
Proof.
  split; [by vm_compute|]. eexists _, _, _.
  split; [by vm_compute|]. split; [done|]. split; [by vm_compute|].
  split; [intros Hin; revert Hin; by vm_compute|].
  split; [by vm_compute|]. intros Hin; revert Hin; by vm_compute.
Qed.

End Workflow.

(** ** More about the course calendar *)

Section CalendarMore.

Lemma toordinal_add_days (d n : Z) :
  DT.toordinal (d + DT.days n) = DT.toordinal d + n.
Proof.
  unfold DT.toordinal, DT.days. rewrite Z.div_add by done. lia.
Qed.

Lemma time_add_days (d n : Z) : DT.time (d + DT.days n) = DT.time d.
Proof. unfold DT.time, DT.days. by rewrite Z.mod_add. Qed.

Lemma weekday_add_weeks (d k : Z) :
  DT.weekday (d + DT.days (7 * k)) = DT.weekday d.
Proof.
  unfold DT.weekday. rewrite toordinal_add_days.
  replace (DT.toordinal d + 7 * k + 6) with (DT.toordinal d + 6 + k * 7) by lia.
  by rewrite Z.mod_add.
Qed.

Lemma replace_hm_add_days (d n h m : Z) :
  DT.replace_hm (d + DT.days n) h m = DT.replace_hm d h m + DT.days n.
Proof.
  unfold DT.replace_hm. rewrite toordinal_add_days. unfold DT.days. lia.
Qed.

(** The next occurrence moves with [now] by whole weeks. *)
Theorem calculate_next_course_time_weekly (c : string) (now k : Z) :
  calculate_next_course_time c (now + DT.days (7 * k))
  = (λ t, t + DT.days (7 * k)) <$> calculate_next_course_time c now.
Proof.
  unfold calculate_next_course_time.
  destruct (dict_get course_day_time_mapping c) as [ci|]; [|done].
  cbv zeta. rewrite weekday_add_weeks, time_add_days, replace_hm_add_days.
  simpl. f_equal. lia.
Qed.

(** Asked again at the time it returned, the function returns that time. *)
Theorem calculate_next_course_time_fixed (c : string) (now t : Z) :
  calculate_next_course_time c now = Some t →
  calculate_next_course_time c t = Some t.
Proof.
  intros Ht. unfold calculate_next_course_time in Ht.
  destruct (dict_get course_day_time_mapping c) as [ci|] eqn:Hc; [|done].
  destruct (calendar_entry c ci Hc) as [Hv _].
  change (Some (next_start ci now) = Some t) in Ht. injection Ht as <-.
  destruct (next_start_fields ci now Hv) as (_ & Hw & Htime & _).
  rewrite (calculate_next_course_time_entry c ci _ Hc). f_equal.
  unfold next_start at 1. rewrite Hw, Htime, Z.sub_diag, Z.ltb_irrefl.
  simpl. unfold DT.days. rewrite Z.add_0_r.
  rewrite (datetime_split (next_start ci now)) at 2. rewrite Htime.
  reflexivity.
Qed.

Lemma calculate_next_course_time_fixed_witness :
  calculate_next_course_time "051011" (DT.make 2025 6 10 21 0 0 0)
  = Some (DT.make 2025 6 10 21 0 0 0).
Proof.
  apply (calculate_next_course_time_fixed "051011" thursday_noon).
  reflexivity.
Defined.

Lemma next_start_bounds ci now :
  valid_slot ci → now ≤ next_start ci now < now + DT.days 7.
Proof.
  intros Hv.
  destruct (next_start_fields ci now Hv) as (Ho & _ & Ht & _).
  cbv zeta in Ho.
  pose proof (time_range now) as Hr.
  assert (Hs : 0 ≤ start_time ci < DT.us_per_day)
    by (rewrite <- Ht; apply time_range).
  pose proof (Z.mod_pos_bound (day_index ci - DT.weekday now) 7 eq_refl) as Hdd.
  pose proof (datetime_split (next_start ci now)) as Hns.
  rewrite Ht, Ho in Hns.
  pose proof (datetime_split now) as Hn.
  revert Hns Hn Hr Hs Hdd.
  generalize (next_start ci now) (start_time ci) (DT.time now)
    (DT.toordinal now) ((day_index ci - DT.weekday now) mod 7).
  intros t st tm o dd -> Hn Hr Hs Hdd. rewrite Hn. clear Hn.
  unfold DT.days, DT.us_per_day, DT.us_per_second in *.
  destruct (Z.eqb_spec dd 0); destruct (Z.ltb_spec st tm); simpl; lia.
Qed.

(** A later [now] never gives an earlier occurrence, and the occurrence
    returned lies less than seven days after [now]. *)
Theorem calculate_next_course_time_monotone (c : string) (now1 now2 t1 t2 : Z) :
  calculate_next_course_time c now1 = Some t1 →
  calculate_next_course_time c now2 = Some t2 →
  now1 ≤ now2 →
  t1 ≤ t2 ∧ t1 < now1 + DT.days 7.
Proof.
  intros H1 H2 Hle. unfold calculate_next_course_time in H1, H2.
  destruct (dict_get course_day_time_mapping c) as [ci|] eqn:Hc; [|done].
  destruct (calendar_entry c ci Hc) as [Hv _].
  change (Some (next_start ci now1) = Some t1) in H1. injection H1 as <-.
  change (Some (next_start ci now2) = Some t2) in H2. injection H2 as <-.
  split; [|by apply next_start_bounds].
  apply next_start_earliest; [done| |].
  - destruct (next_start_fields ci now2 Hv) as (_ & Hw & Ht & _).
    by apply occurrence_time.
  - pose proof (next_start_bounds ci now2 Hv). lia.
Qed.

Lemma calculate_next_course_time_monotone_witness :
  DT.make 2025 6 6 16 30 0 0 ≤ DT.make 2025 6 13 16 30 0 0 ∧
  DT.make 2025 6 6 16 30 0 0 < thursday_noon + DT.days 7.
Proof.
  apply (calculate_next_course_time_monotone "051002" thursday_noon
           (DT.make 2025 6 6 16 30 0 1)); reflexivity || done.
Defined.

(** [course_has_just_started] in terms of the fields of [now]: today is
    the course's weekday and the time of day is within 2500 seconds of the
    start, before it or after it. *)
Theorem course_has_just_started_same_day (c : string) (ci : course_info)
    (now : Z) :
  dict_get course_day_time_mapping c = Some ci →
  course_has_just_started c now = true ↔
  DT.weekday now = day_index ci ∧
  Z.abs (DT.time now - start_time ci) ≤ DT.seconds 2500.
Proof.
  intros Hc. destruct (calendar_entry c ci Hc) as [Hv Hs].
  unfold course_has_just_started, DT.abs_total_seconds_le. rewrite Hc.
  rewrite bool_decide_eq_true.
  destruct Hv as (Hd & Hh & Hm).
  set (dd := (day_index ci - DT.weekday now) mod 7).
  destruct (shifted_slot now (start_hour ci) (start_minute ci) dd Hh Hm)
    as [Ho Ht].
  change (DT.replace_hm now (start_hour ci) (start_minute ci) + DT.days dd)
    with (this_week_start ci now) in Ho, Ht.
  change (DT.time_of (start_hour ci) (start_minute ci)) with (start_time ci) in Ht.
  assert (Hdd : 0 ≤ dd < 7) by (apply Z.mod_pos_bound; lia).
  assert (Hdd0 : dd = 0 ↔ DT.weekday now = day_index ci).
  { pose proof (weekday_range now). unfold dd. Z.div_mod_to_equations. lia. }
  pose proof (time_range now) as Hr.
  pose proof (datetime_split (this_week_start ci now)) as Hts.
  rewrite Ht, Ho in Hts.
  pose proof (datetime_split now) as Hn.
  clearbody dd. revert Hts Hn Hr Hs Hdd Hdd0.
  generalize (this_week_start ci now) (start_time ci) (DT.time now)
    (DT.toordinal now) (DT.weekday now).
  intros t st tm o wd -> Hn Hr Hs Hdd Hdd0. rewrite Hn. clear Hn.
  unfold DT.seconds, DT.time_of, DT.us_per_day, DT.us_per_hour,
    DT.us_per_minute, DT.us_per_second in *.
  split.
  - intros Habs. assert (dd = 0) by lia. split; [by apply Hdd0|]. lia.
  - intros [Hw Habs]. apply Hdd0 in Hw. lia.
Qed.

Lemma course_has_just_started_same_day_witness :
  course_has_just_started "051001" (DT.make 2025 6 4 17 18 20 0) = true ↔
  DT.weekday (DT.make 2025 6 4 17 18 20 0) = day_index (CourseInfo 2 18 0) ∧
  Z.abs (DT.time (DT.make 2025 6 4 17 18 20 0) - start_time (CourseInfo 2 18 0))
  ≤ DT.seconds 2500.
Proof.
  apply (course_has_just_started_same_day "051001" (CourseInfo 2 18 0)).
  reflexivity.
Defined.

(** Which jobs the schedule holds. *)
Lemma schedule_fold_jobs now (l : list string) (acc : list job) (j : job) :
  j ∈ fold_left (schedule_one now) l acc ↔
  j ∈ acc ∨
  (job_course j ∈ l ∧
   ∃ t, calculate_next_course_time (job_course j) now = Some t ∧
        now < get_registration_time t ∧
        j = Job (job_course j)
                (DT.hour (get_registration_time t),
                 DT.minute (get_registration_time t))).
Proof.
  revert acc. induction l as [|x l IH]; intros acc; simpl.
  - split; [by left|]. intros [H|[H _]]; [done|]. by apply elem_of_nil in H.
  - rewrite IH. unfold schedule_one.
    destruct (calculate_next_course_time x now) as [t|] eqn:Et.
    + destruct (Z.leb_spec (get_registration_time t) now) as [Hle|Hlt].
      * split.
        -- intros [H|[H Ht]]; [by left|]. right. split; [by right|done].
        -- intros [H|[H Ht]]; [by left|].
           apply elem_of_cons in H as [Hx|H]; [|by right].
           destruct Ht as (t' & Ht' & Hlt & _). rewrite Hx, Et in Ht'.
           injection Ht' as <-. lia.
      * rewrite elem_of_app. split.
        -- intros [[H|H]|[H Ht]]; [by left| |].
           ++ apply list_elem_of_singleton in H as ->. right. simpl.
              split; [by left|]. by exists t.
           ++ right. split; [by right|done].
        -- intros [H|[H Ht]]; [by left; left|].
           apply elem_of_cons in H as [Hx|H]; [|by right].
           left; right. apply list_elem_of_singleton.
           destruct Ht as (t' & Ht' & _ & Hj). rewrite Hx, Et in Ht'.
           injection Ht' as <-. by rewrite Hj, Hx.
    + split.
      * intros [H|[H Ht]]; [by left|]. right. split; [by right|done].
      * intros [H|[H Ht]]; [by left|].
        apply elem_of_cons in H as [Hx|H]; [|by right].
        destruct Ht as (t' & Ht' & _). rewrite Hx in Ht'. congruence.
Qed.

(** [course_has_just_started] by the weekday and the time of day. *)
Lemma just_started_iff (c : string) (ci : course_info) (t : Z) :
  dict_get course_day_time_mapping c = Some ci →
  course_has_just_started c t = true ↔
  DT.weekday t = day_index ci ∧
  - DT.seconds 2500 ≤ DT.time t - start_time ci ≤ DT.seconds 2500.
Proof.
  intros Hc. destruct (calendar_entry c ci Hc) as [Hv Hs].
  unfold course_has_just_started, DT.abs_total_seconds_le. rewrite Hc.
  rewrite bool_decide_eq_true.
  destruct Hv as (Hd & Hh & Hm).
  set (dd := (day_index ci - DT.weekday t) mod 7).
  destruct (shifted_slot t (start_hour ci) (start_minute ci) dd Hh Hm)
    as [Ho Ht].
  change (DT.replace_hm t (start_hour ci) (start_minute ci) + DT.days dd)
    with (this_week_start ci t) in Ho, Ht.
  change (DT.time_of (start_hour ci) (start_minute ci)) with (start_time ci) in Ht.
  assert (Hdd : 0 ≤ dd < 7) by (apply Z.mod_pos_bound; lia).
  assert (Hdd0 : dd = 0 ↔ DT.weekday t = day_index ci).
  { pose proof (weekday_range t). unfold dd. Z.div_mod_to_equations. lia. }
  pose proof (time_range t) as Hr.
  pose proof (datetime_split (this_week_start ci t)) as Hts.
  rewrite Ht, Ho in Hts.
  pose proof (datetime_split t) as Hn.
  clearbody dd. revert Hts Hn Hr Hs Hdd Hdd0.
  generalize (this_week_start ci t) (start_time ci) (DT.time t)
    (DT.toordinal t) (DT.weekday t).
  intros t' st tm o wd -> Hn Hr Hs Hdd Hdd0. rewrite Hn. clear Hn.
  unfold DT.seconds, DT.time_of, DT.us_per_day, DT.us_per_hour,
    DT.us_per_minute, DT.us_per_second in *.
  split.
  - intros Habs. assert (dd = 0) by lia. split; [by apply Hdd0|]. lia.
  - intros [Hw Habs]. apply Hdd0 in Hw. lia.
Qed.

Lemma second_range (t : Z) :
  0 ≤ DT.second t * DT.us_per_second + DT.microsecond t < DT.us_per_minute.
Proof.
  unfold DT.second, DT.microsecond, DT.us_per_minute, DT.us_per_second.
  generalize (DT.time t). intros x. Z.div_mod_to_equations. lia.
Qed.

(** The time of day of every job is the start time of its course minus
    seven minutes.  The job is a daily one, whatever the date of the
    registration time that was logged for it; an invocation whose
    [datetime.now()] falls in the job's minute finds the job's own course
    just started on the course's weekday, and on that weekday only. *)
Theorem job_at_just_started (now : Z) (j : job) :
  j ∈ schedule_course_registrations now →
  ∃ ci, dict_get course_day_time_mapping (job_course j) = Some ci ∧
        60 * (job_at j).1 + (job_at j).2
        = 60 * start_hour ci + start_minute ci - 7 ∧
        0 ≤ (job_at j).2 < 60 ∧
        ∀ t, DT.hour t = (job_at j).1 → DT.minute t = (job_at j).2 →
             (course_has_just_started (job_course j) t = true ↔
              DT.weekday t = day_index ci).
Proof.
  unfold schedule_course_registrations. rewrite schedule_fold_jobs.
  intros [H|(_ & t & Ht & Hlt & Hj)]; [by apply elem_of_nil in H|].
  unfold calculate_next_course_time in Ht.
  destruct (dict_get course_day_time_mapping (job_course j)) as [ci|] eqn:Hc;
    [|done].
  destruct (calendar_entry _ ci Hc) as [Hv Hs].
  change (Some (next_start ci now) = Some t) in Ht. injection Ht as <-.
  destruct (next_start_fields ci now Hv) as (_ & Hw & Htime & _).
  exists ci. split; [done|].
  destruct Hv as (_ & Hh & Hm).
  assert (Htr : DT.time (get_registration_time (next_start ci now))
                = start_time ci - DT.minutes 7).
  { unfold get_registration_time, DT.time.
    rewrite (datetime_split (next_start ci now)), Htime.
    replace ((DT.toordinal (next_start ci now) - 1) * DT.us_per_day
             + start_time ci - DT.minutes 7)
      with (start_time ci - DT.minutes 7
            + (DT.toordinal (next_start ci now) - 1) * DT.us_per_day) by lia.
    rewrite Z.mod_add by done. apply Z.mod_small.
    revert Hs. unfold start_time, DT.time_of, DT.minutes, DT.us_per_day,
      DT.us_per_hour, DT.us_per_minute, DT.us_per_second. lia. }
  assert (Hat : 60 * (job_at j).1 + (job_at j).2
                = 60 * start_hour ci + start_minute ci - 7 ∧
                0 ≤ (job_at j).2 < 60).
  { rewrite Hj. cbn [job_at fst snd]. unfold DT.hour, DT.minute. rewrite Htr.
    revert Hs. unfold start_time, DT.time_of, DT.minutes,
      DT.us_per_hour, DT.us_per_minute, DT.us_per_second.
    intros Hs. Z.div_mod_to_equations. lia. }
  destruct Hat as [Hat Hmin]. split; [done|]. split; [done|].
  intros t Hth Htm. rewrite (just_started_iff _ ci t Hc).
  pose proof (time_fields t) as Hf. pose proof (second_range t) as Hsec.
  rewrite Hth, Htm in Hf.
  assert (Hnear : - DT.seconds 2500 ≤ DT.time t - start_time ci ≤ DT.seconds 2500).
  { rewrite Hf. revert Hsec Hat. generalize (DT.second t) (DT.microsecond t)
      (job_at j).1 (job_at j).2.
    unfold start_time, DT.time_of, DT.seconds, DT.us_per_hour,
      DT.us_per_minute, DT.us_per_second. lia. }
  tauto.
Qed.

Lemma job_at_just_started_witness :
  ∃ ci, dict_get course_day_time_mapping "051011" = Some ci ∧
        60 * 20 + 53 = 60 * start_hour ci + start_minute ci - 7 ∧
        0 ≤ 53 < 60 ∧
        ∀ t, DT.hour t = 20 → DT.minute t = 53 →
             (course_has_just_started "051011" t = true ↔
              DT.weekday t = day_index ci).
Proof.
  apply (job_at_just_started thursday_noon (Job "051011" (20, 53))).
  vm_compute. do 3 right. left.
Defined.

(** The schedule made on Wednesday 2025-06-04 at 19:00 holds the job of
    051001, at 17:53; the next time the clock shows 17:53, on Thursday,
    051001 has not just started. *)
Example job_fires_next_day :
  Job "051001" (17, 53)
  ∈ schedule_course_registrations (DT.make 2025 6 4 19 0 0 0) ∧
  course_has_just_started "051001" (DT.make 2025 6 5 17 53 0 0) = false.
Proof. split; [|reflexivity]. vm_compute. left. Qed.

(** A course of the calendar is left out of the schedule exactly when
    today is its weekday and the time of day lies between seven minutes
    before its start and its start, both included. *)
Theorem schedule_skips_last_minutes (c : string) (ci : course_info) (now : Z) :
  dict_get course_day_time_mapping c = Some ci →
  c ∉ map job_course (schedule_course_registrations now) ↔
  DT.weekday now = day_index ci ∧
  start_time ci - DT.minutes 7 ≤ DT.time now ≤ start_time ci.
Proof.
  intros Hc. destruct (calendar_entry c ci Hc) as [Hv Hs].
  unfold schedule_course_registrations. rewrite schedule_fold.
  rewrite (calculate_next_course_time_entry c ci now Hc).
  assert (Hin : c ∈ map fst course_day_time_mapping)
    by by eapply dict_get_Some_key.
  assert (Hiff : now < get_registration_time (next_start ci now) ↔
                 ¬ (DT.weekday now = day_index ci ∧
                    start_time ci - DT.minutes 7 ≤ DT.time now ≤ start_time ci)).
  { destruct (next_start_fields ci now Hv) as (Ho & _ & Ht & _).
    cbv zeta in Ho.
    destruct Hv as (Hd & _).
    assert (Hdd0 : (day_index ci - DT.weekday now) mod 7 = 0 ↔
                   DT.weekday now = day_index ci).
    { pose proof (weekday_range now). Z.div_mod_to_equations. lia. }
    pose proof (Z.mod_pos_bound (day_index ci - DT.weekday now) 7 eq_refl) as Hdd.
    pose proof (time_range now) as Hr.
    pose proof (datetime_split (next_start ci now)) as Hns.
    rewrite Ht, Ho in Hns.
    pose proof (datetime_split now) as Hn.
    unfold get_registration_time.
    clear Ho. set (dd := (day_index ci - DT.weekday now) mod 7) in *.
    clearbody dd. revert Hns Hn Hr Hs Hdd Hdd0.
    generalize (next_start ci now) (start_time ci) (DT.time now)
      (DT.toordinal now) (DT.weekday now).
    intros t st tm o wd -> Hn Hr Hs Hdd Hdd0. rewrite Hn. clear Hn.
    unfold DT.minutes, DT.time_of, DT.us_per_day, DT.us_per_hour,
      DT.us_per_minute, DT.us_per_second in *.
    destruct (Z.eqb_spec dd 0); destruct (Z.ltb_spec st tm); simpl; lia. }
  split.
  - intros Hnot. apply dec_stable. intros Hn. apply Hnot. right.
    split; [done|]. exists (next_start ci now). split; [done|]. by apply Hiff.
  - intros Hwin [H|(_ & t & [= <-] & Hlt)]; [by apply elem_of_nil in H|].
    by apply Hiff in Hlt.
Qed.

Lemma schedule_skips_last_minutes_witness :
  "051001" ∉ map job_course
               (schedule_course_registrations (DT.make 2025 6 4 18 0 0 0)) ↔
  DT.weekday (DT.make 2025 6 4 18 0 0 0) = day_index (CourseInfo 2 18 0) ∧
  start_time (CourseInfo 2 18 0) - DT.minutes 7
  ≤ DT.time (DT.make 2025 6 4 18 0 0 0) ≤ start_time (CourseInfo 2 18 0).
Proof.
  apply (schedule_skips_last_minutes "051001" (CourseInfo 2 18 0)).
  reflexivity.
Defined.

End CalendarMore.

(** ** Web interface helpers *)

Section Dashboard.

Lemma divmod_unique (b q r : Z) :
  0 ≤ r < b → (q * b + r) / b = q ∧ (q * b + r) mod b = r.
Proof.
  intros Hr. assert (Hb : b ≠ 0) by lia.
  rewrite Z.add_comm, Z.div_add, Z.mod_add by done.
  rewrite Z.div_small, Z.mod_small by done. lia.
Qed.

Lemma total_seconds_fields (d h m s us : Z) :
  0 ≤ d → 0 ≤ h → 0 ≤ m → 0 ≤ s → 0 ≤ us < 1000000 →
  Z.quot (DT.days d + h * DT.us_per_hour + DT.minutes m + DT.seconds s + us)
         DT.us_per_second
  = d * 86400 + h * 3600 + m * 60 + s.
Proof.
  intros Hd Hh Hm Hs Hus.
  unfold DT.days, DT.minutes, DT.seconds, DT.us_per_day, DT.us_per_hour,
    DT.us_per_minute, DT.us_per_second.
  rewrite Z.quot_div_nonneg by lia.
  replace (d * (86400 * 1000000) + h * (3600 * 1000000) + m * (60 * 1000000)
           + s * 1000000 + us)
    with ((d * 86400 + h * 3600 + m * 60 + s) * 1000000 + us) by lia.
  by apply divmod_unique.
Qed.

(** [format_time_until] of a delta of [d] days, [h] hours, [m] minutes,
    [s] seconds and a fraction of a second: days, hours and minutes when
    there is a day at least, hours and minutes when there is an hour at
    least, minutes and seconds otherwise; the fraction is dropped. *)
Theorem format_time_until_fields (d h m s us : Z) :
  0 ≤ d < 100000 → 0 ≤ h < 24 → 0 ≤ m < 60 → 0 ≤ s < 60 → 0 ≤ us < 1000000 →
  format_time_until
    (DT.days d + h * DT.us_per_hour + DT.minutes m + DT.seconds s + us)
  = if 0 <? d then
      pretty d +:+ "d " +:+ pretty h +:+ "h " +:+ pretty m +:+ "m"
    else if 0 <? h then pretty h +:+ "h " +:+ pretty m +:+ "m"
    else pretty m +:+ "m " +:+ pretty s +:+ "s".
Proof.
  intros Hd Hh Hm Hs Hus. unfold format_time_until. cbv zeta.
  rewrite total_seconds_fields by lia.
  replace (d * 86400 + h * 3600 + m * 60 + s)
    with (d * 86400 + (h * 3600 + m * 60 + s)) by lia.
  destruct (divmod_unique 86400 d (h * 3600 + m * 60 + s)) as [-> ->]; [lia|].
  replace (h * 3600 + m * 60 + s) with (h * 3600 + (m * 60 + s)) by lia.
  destruct (divmod_unique 3600 h (m * 60 + s)) as [-> ->]; [lia|].
  destruct (divmod_unique 60 m s) as [-> ->]; [lia|].
  reflexivity.
Qed.

Lemma format_time_until_fields_witness :
  format_time_until
    (DT.days 2 + 3 * DT.us_per_hour + DT.minutes 4 + DT.seconds 5 + 999999)
  = if 0 <? 2 then
      pretty 2 +:+ "d " +:+ pretty 3 +:+ "h " +:+ pretty 4 +:+ "m"
    else if 0 <? 3 then pretty 3 +:+ "h " +:+ pretty 4 +:+ "m"
    else pretty 4 +:+ "m " +:+ pretty 5 +:+ "s".
Proof. apply (format_time_until_fields 2 3 4 5 999999); lia. Defined.

(** A negative delta is shown without its sign and without its days: as
    what is left of it after whole days are taken off, rounding down. *)
Theorem format_time_until_negative (s : Z) :
  s < 0 →
  format_time_until (DT.seconds s) = format_time_until (DT.seconds (s mod 86400)).
Proof.
  intros Hs. unfold format_time_until, DT.seconds. cbv zeta.
  rewrite !Z.quot_mul by done.
  pose proof (Z.mod_pos_bound s 86400 eq_refl) as Hr.
  rewrite (Z.mod_small (s mod 86400) 86400) by done.
  rewrite (Z.div_small (s mod 86400) 86400) by done.
  assert (Hdays : s / 86400 < 0) by (apply Z.div_lt_upper_bound; lia).
  destruct (Z.ltb_spec 0 (s / 86400)); [lia|]. reflexivity.
Qed.

Lemma format_time_until_negative_witness :
  format_time_until (DT.seconds (-1)) = format_time_until (DT.seconds (-1 mod 86400)).
Proof. apply (format_time_until_negative (-1)). lia. Defined.

Example format_time_until_minus_one_second :
  format_time_until (DT.seconds (-1)) = "23h 59m".
Proof. reflexivity. Qed.

Lemma insert_by_key_Permutation {A} (key : A → string) x (l : list A) :
  insert_by_key key x l ≡ₚ x :: l.
Proof.
  induction l as [|y l IH]; simpl; [done|].
  destruct (String.leb (key x) (key y)); [done|].
  rewrite IH. apply Permutation_swap.
Qed.

Lemma sort_by_key_Permutation {A} (key : A → string) (l : list A) :
  sort_by_key key l ≡ₚ l.
Proof.
  induction l as [|x l IH]; simpl; [done|].
  by rewrite insert_by_key_Permutation, IH.
Qed.

Lemma insert_by_key_Sorted {A} (key : A → string) x (l : list A) :
  Sorted (λ a b, String.le (key a) (key b)) l →
  Sorted (λ a b, String.le (key a) (key b)) (insert_by_key key x l).
Proof.
  induction 1 as [|y l Hl IH Hy]; simpl; [by repeat constructor|].
  destruct (String.leb (key x) (key y)) eqn:E.
  - constructor; [by constructor|]. constructor. unfold String.le.
    by rewrite E.
  - assert (Hyx : String.le (key y) (key x)).
    { destruct (total String.le (key x) (key y)) as [H|H]; [|done].
      unfold String.le in H. by rewrite E in H. }
    constructor; [done|].
    destruct Hy as [|z l' Hz]; simpl; [by constructor|].
    destruct (String.leb (key x) (key z)); by constructor.
Qed.

Lemma sort_by_key_Sorted {A} (key : A → string) (l : list A) :
  Sorted (λ a b, String.le (key a) (key b)) (sort_by_key key l).
Proof.
  induction l as [|x l IH]; simpl; [constructor|].
  by apply insert_by_key_Sorted.
Qed.

Lemma upcoming_fold strftime now (l : list string)
    (acc1 : list registration) (acc2 : list job) :
  map course_id acc1 = map job_course acc2 →
  map course_id (fold_left (upcoming_one strftime now) l acc1)
  = map job_course (fold_left (schedule_one now) l acc2).
Proof.
  revert acc1 acc2. induction l as [|c l IH]; intros acc1 acc2 Hacc; simpl;
    [done|].
  apply IH. unfold upcoming_one, schedule_one.
  destruct (calculate_next_course_time c now) as [t|]; [|done].
  destruct (Z.ltb_spec now (get_registration_time t));
    destruct (Z.leb_spec (get_registration_time t) now); try lia; [|done].
  rewrite !map_app, Hacc. done.
Qed.

Lemma upcoming_entries strftime now (l : list string) (acc : list registration)
    (P : registration → Prop) :
  (∀ c t, calculate_next_course_time c now = Some t →
          now < get_registration_time t →
          P (Registration c
               (default "Unknown course" (dict_get course_day_mapping c))
               (strftime (get_registration_time t))
               (format_time_until (get_registration_time t - now)))) →
  Forall P acc → Forall P (fold_left (upcoming_one strftime now) l acc).
Proof.
  intros HP. revert acc. induction l as [|c l IH]; intros acc Hacc; simpl;
    [done|].
  apply IH. unfold upcoming_one.
  destruct (calculate_next_course_time c now) as [t|] eqn:Et; [|done].
  destruct (Z.ltb_spec now (get_registration_time t)); [|done].
  apply Forall_app. split; [done|]. constructor; [|done]. by apply HP.
Qed.

(** The list of upcoming registrations of the dashboard names the same
    courses as the jobs of the scheduler computed at the same moment; it
    is ordered by the formatted registration time; and every entry gives
    the name of its course and, as time left, the formatted distance from
    [now] to a registration time that lies after [now], less than seven
    days ahead. *)
Theorem get_next_registrations_agrees (strftime : DT.datetime → string) (now : Z) :
  map course_id (get_next_registrations strftime now)
  ≡ₚ map job_course (schedule_course_registrations now) ∧
  Sorted (λ a b, String.le (registration_time a) (registration_time b))
         (get_next_registrations strftime now) ∧
  ∀ r, r ∈ get_next_registrations strftime now →
       ∃ t, calculate_next_course_time (course_id r) now = Some t ∧
            now < get_registration_time t < now + DT.days 7 ∧
            dict_get course_day_mapping (course_id r) = Some (course_name r) ∧
            registration_time r = strftime (get_registration_time t) ∧
            time_until r = format_time_until (get_registration_time t - now).
Proof.
  unfold get_next_registrations. split; [|split].
  - rewrite sort_by_key_Permutation.
    unfold schedule_course_registrations. by rewrite (upcoming_fold strftime now _ [] []).
  - apply sort_by_key_Sorted.
  - intros r Hr. rewrite sort_by_key_Permutation in Hr. revert r Hr.
    apply Forall_forall, upcoming_entries; [|done].
    intros c t Ht Hlt. exists t. cbn [course_id course_name registration_time
      time_until]. split; [done|].
    unfold calculate_next_course_time in Ht.
    destruct (dict_get course_day_time_mapping c) as [ci|] eqn:Hc; [|done].
    destruct (calendar_entry c ci Hc) as [Hv _].
    change (Some (next_start ci now) = Some t) in Ht. injection Ht as <-.
    pose proof (next_start_bounds ci now Hv) as Hb.
    split.
    { unfold get_registration_time, DT.minutes, DT.us_per_minute,
        DT.us_per_second in *. lia. }
    split; [|done].
    revert Hc. unfold course_day_time_mapping, course_day_mapping, dict_get.
    repeat (destruct (String.eqb c _); [done|]). done.
Qed.

(** [get_recent_logs] gives nothing for a missing file; for a positive
    [max_lines] the last [max_lines] lines of the file, or all of them if
    there are fewer; for [max_lines = 0] all lines of the file, not none;
    for a negative [max_lines] all lines but the first [-max_lines]. *)
Theorem get_recent_logs_tail (path : string) (n : Z) (w : world) :
  (files w !! path = None → get_recent_logs path n w = []) ∧
  (∀ text, files w !! path = Some text →
     (0 < n →
      ∃ older, readlines text = older ++ get_recent_logs path n w ∧
               length (get_recent_logs path n w)
               = Nat.min (Z.to_nat n) (length (readlines text))) ∧
     (n = 0 → get_recent_logs path n w = readlines text) ∧
     (n < 0 → get_recent_logs path n w = drop (Z.to_nat (- n)) (readlines text))).
Proof.
  unfold get_recent_logs. split; [by intros ->|].
  intros text ->. unfold slice_from. cbv zeta.
  set (l := readlines text). split; [|split].
  - intros Hn. destruct (Z.ltb_spec (- n) 0); [|lia].
    exists (take (Z.to_nat (Z.max (Z.of_nat (length l) + - n) 0)) l).
    split; [by rewrite take_drop|]. rewrite length_drop. lia.
  - intros ->. simpl. rewrite Z.min_l by lia. done.
  - intros Hn. destruct (Z.ltb_spec (- n) 0); [lia|].
    destruct (Z.min_spec (- n) (Z.of_nat (length l))) as [[_ ->]|[Hle ->]];
      [done|].
    rewrite Nat2Z.id, !drop_ge; [done|lia|lia].
Qed.

Lemma get_recent_logs_tail_witness :
  (0 < 2 →
   ∃ older, readlines sample_text = older ++ get_recent_logs "account" 2 sample_world ∧
            length (get_recent_logs "account" 2 sample_world)
            = Nat.min (Z.to_nat 2) (length (readlines sample_text))) ∧
  (2 = 0 → get_recent_logs "account" 2 sample_world = readlines sample_text) ∧
  (2 < 0 → get_recent_logs "account" 2 sample_world
           = drop (Z.to_nat (- 2)) (readlines sample_text)).
Proof.
  apply (proj2 (get_recent_logs_tail "account" 2 sample_world) sample_text).
  reflexivity.
Defined.

(** [setup_webdriver] tries Firefox three times at most and returns on
    the first attempt that starts; it sleeps 2 seconds after a first
    failure and 4 after a second one, and not after the third, which makes
    it give up. *)
Theorem setup_webdriver_retries (firefox_starts : nat → bool) :
  (∀ k, (setup_webdriver firefox_starts).1 = Some k ↔
        (k < 3)%nat ∧ firefox_starts k = true ∧
        ∀ j, (j < k)%nat → firefox_starts j = false) ∧
  ((setup_webdriver firefox_starts).1 = None ↔
   ∀ j, (j < 3)%nat → firefox_starts j = false) ∧
  (setup_webdriver firefox_starts).2
  = match (setup_webdriver firefox_starts).1 with
    | Some k => take k [2; 4]
    | None => [2; 4]
    end.
Proof.
  unfold setup_webdriver. simpl.
  destruct (firefox_starts 0%nat) eqn:E0; [|destruct (firefox_starts 1%nat) eqn:E1;
    [|destruct (firefox_starts 2%nat) eqn:E2]]; simpl.
  - split; [|split; [|done]].
    + intros k. split.
      * intros [= <-]. split; [lia|]. split; [done|]. intros j Hj. lia.
      * intros (Hk & Hs & Hf). destruct k as [|k]; [done|].
        rewrite (Hf 0%nat) in E0 by lia. done.
    + split; [done|]. intros Hf. rewrite (Hf 0%nat) in E0 by lia. done.
  - split; [|split; [|done]].
    + intros k. split.
      * intros [= <-]. split; [lia|]. split; [done|]. intros j Hj.
        by assert (j = 0%nat) as -> by lia.
      * intros (Hk & Hs & Hf). destruct k as [|[|k]]; [congruence|done|].
        rewrite (Hf 1%nat) in E1 by lia. done.
    + split; [done|]. intros Hf. rewrite (Hf 1%nat) in E1 by lia. done.
  - split; [|split; [|done]].
    + intros k. split.
      * intros [= <-]. split; [lia|]. split; [done|]. intros j Hj.
        destruct j as [|[|j]]; [done|done|lia].
      * intros (Hk & Hs & Hf). destruct k as [|[|[|k]]]; [congruence|congruence|done|lia].
    + split; [done|]. intros Hf. rewrite (Hf 2%nat) in E2 by lia. done.
  - split; [|split; [|done]].
    + intros k. split; [done|].
      intros (Hk & Hs & Hf). destruct k as [|[|[|k]]]; [congruence..|lia].
    + split; [|done]. intros _ j Hj. destruct j as [|[|[|j]]]; [done..|lia].
Qed.

Lemma strip_app_space (s q : string) :
  all_space q = true → strip (s +:+ q) = strip s.
Proof.
  intros Hq. unfold strip. induction s as [|c r IH].
  - change ("" +:+ q) with q.
    assert (lstrip q = "") as ->; [|done].
    induction q as [|x q IHq]; simpl in *; [done|].
    destruct (is_space x); [by apply IHq|done].
  - rewrite str_app_cons. simpl. destruct (is_space c); [done|].
    rewrite <- str_app_cons. by apply rstrip_app_space.
Qed.

Lemma strip_none (x : string) : none_of is_space x = true → strip x = x.
Proof. intros Hx. unfold strip. by rewrite lstrip_none, rstrip_none. Qed.

(** The tokens of a line joined with bare commas. *)
Lemma all_days_of_join_comma (l : list string) :
  l ≠ [] →
  Forall (λ x, none_of is_space x = true ∧ none_of is_comma x = true) l →
  all_days_of (join "," l +:+ nl) = l.
Proof.
  intros Hne Hl. induction Hl as [|x l [Hx1 Hx2] Hl IH]; [done|].
  destruct l as [|y l].
  - unfold all_days_of, join. simpl String.concat.
    rewrite split_none.
    + cbn [map]. by rewrite strip_app_space, strip_none.
    + change (λ c, Ascii.eqb c comma) with is_comma.
      by rewrite none_of_app, Hx2.
  - rewrite join_cons_cons.
    change ("," +:+ join "," (y :: l)) with (String comma (join "," (y :: l))).
    rewrite str_app_assoc, str_app_cons.
    unfold all_days_of. rewrite split_app_sep, map_app.
    rewrite split_none by done.
    cbn [map app]. rewrite strip_none by done. f_equal. by apply IH.
Qed.

Lemma existing_of_marked (l : list string) :
  existing_of (map (String bang) l) = ∅.
Proof.
  apply set_eq. intros x. rewrite elem_of_existing_of. split; [|set_solver].
  intros [Hx Hb]. apply list_elem_of_In, in_map_iff in Hx as (y & <- & _).
  by vm_compute in Hb.
Qed.

Lemma excluded_of_marked (l : list string) :
  excluded_of (map (String bang) l) = list_to_set l.
Proof.
  apply set_eq. intros x.
  rewrite elem_of_excluded_of, elem_of_list_to_set. split.
  - intros (y & Hy & _ & ->).
    apply list_elem_of_In, in_map_iff in Hy as (z & <- & Hz).
    by apply list_elem_of_In.
  - intros Hx. exists (String bang x). split; [|done].
    apply list_elem_of_In, in_map_iff. exists x. split; [done|].
    by apply list_elem_of_In.
Qed.

Lemma universal_newlines_id (s : string) :
  none_of is_carriage_return s = true → universal_newlines s = s.
Proof.
  induction s as [|c r IH]; [done|]. cbn [none_of universal_newlines].
  unfold is_carriage_return at 1.
  destruct (Ascii.eqb c carriage_return); [done|]. simpl.
  intros Hr. by rewrite IH.
Qed.

Lemma none_of_line_break (s : string) :
  none_of is_line_break s = true →
  none_of is_newline s = true ∧ none_of is_carriage_return s = true.
Proof.
  intros H. split; revert H; apply none_of_weaken; intros c Hc;
    unfold is_line_break; rewrite Hc; by rewrite ?orb_true_r.
Qed.

Lemma none_of_space_carriage_return s :
  none_of is_space s = true → none_of is_carriage_return s = true.
Proof.
  apply none_of_weaken. intros c Hc. unfold is_carriage_return in Hc.
  by apply Ascii.eqb_eq in Hc as ->.
Qed.

(** The credentials file [run_schedulers] writes for an account whose
    email and password hold no line break (neither a line feed nor a
    carriage return) and whose 'courses' value the account form built
    from a list of plain excluded course numbers loads, whatever the file
    held before, with the email and the password stripped, no registered
    course, and exactly the excluded courses of the list; the load writes
    nothing. *)
Theorem credential_file_roundtrip (i : nat) (a : account)
    (excluded_courses : list string) (now : Z) (w : world) :
  none_of is_line_break (acc_email a) = true →
  none_of is_line_break (acc_password a) = true →
  default "" (acc_courses a) = courses_of_excluded excluded_courses →
  Forall (λ x, plain x = true) excluded_courses →
  read_credentials_file (credential_path i) now (write_credential_file i a w)
  = (Return (Credentials (strip (acc_email a)) (strip (acc_password a))
               ∅ (list_to_set excluded_courses)
               [acc_email a +:+ nl; acc_password a +:+ nl;
                courses_of_excluded excluded_courses +:+ nl]),
     write_credential_file i a w).
Proof.
  intros [He Hecr]%none_of_line_break [Hp Hpcr]%none_of_line_break Hc Hplain.
  assert (Htok : Forall (λ x, none_of is_space x = true ∧
                              none_of is_comma x = true)
                   (map (String bang) excluded_courses)).
  { apply Forall_forall. intros y Hy.
    apply list_elem_of_In, in_map_iff in Hy as (x & <- & Hx).
    rewrite Forall_forall in Hplain.
    apply list_elem_of_In, Hplain, plain_spec in Hx as (_ & _ & H1 & H2).
    simpl. by rewrite H1, H2. }
  assert (Hnl : none_of is_newline (courses_of_excluded excluded_courses) = true).
  { unfold courses_of_excluded. apply none_of_join; [done|].
    eapply Forall_impl; [apply Htok|]. intros x [Hx _].
    by apply none_of_space_newline. }
  assert (Hcr : none_of is_carriage_return
                  (courses_of_excluded excluded_courses) = true).
  { unfold courses_of_excluded. apply none_of_join; [done|].
    eapply Forall_impl; [apply Htok|]. intros x [Hx _].
    by apply none_of_space_carriage_return. }
  unfold read_credentials_file.
  assert (Hf : files (write_credential_file i a w) !! credential_path i
               = Some (writelines [acc_email a +:+ nl; acc_password a +:+ nl;
                                   default "" (acc_courses a) +:+ nl])).
  { unfold write_credential_file. cbn [files]. rewrite lookup_insert_eq.
    f_equal. apply universal_newlines_id.
    rewrite Hc, !writelines_cons, !none_of_app, Hecr, Hpcr, Hcr. done. }
  rewrite Hf, Hc. cbv zeta.
  rewrite !writelines_cons, !str_app_assoc.
  rewrite readlines_line by done. rewrite readlines_line by done.
  rewrite readlines_line by done.
  change (readlines (writelines [])) with (@nil string).
  cbn [length Nat.ltb Nat.leb nth].
  rewrite !strip_app_space by done.
  unfold parse_course_line. cbn [length Nat.ltb Nat.leb nth andb].
  destruct excluded_courses as [|x l] eqn:El.
  - simpl. by destruct (decide _).
  - rewrite <- El in *.
    assert (Hall : all_days_of (courses_of_excluded excluded_courses +:+ nl)
                   = map (String bang) excluded_courses).
    { apply all_days_of_join_comma; [by rewrite El|done]. }
    assert (Hne : nonempty (strip (courses_of_excluded excluded_courses +:+ nl))
                  = true).
    { destruct (strip (courses_of_excluded excluded_courses +:+ nl)) eqn:Es;
        [|done].
      apply strip_empty_all_space in Es.
      rewrite all_space_app in Es. apply andb_true_iff in Es as [Es _].
      unfold courses_of_excluded in Es. rewrite El in Es.
      destruct l as [|y l]; cbn [map] in Es;
        [|rewrite join_cons_cons, str_app_cons in Es]; by simpl in Es. }
    rewrite Hne, Hall, existing_of_marked, excluded_of_marked.
    assert (Hnone : courses_to_remove ∅ now = ∅).
    { apply courses_to_remove_empty. set_solver. }
    by destruct (decide (courses_to_remove ∅ now = ∅)).
Qed.

Lemma credential_file_roundtrip_witness :
  read_credentials_file (credential_path 0) thursday_noon
    (write_credential_file 0
       (Account "a@b.c" "secret" (Some (courses_of_excluded ["051003"; "051001"])))
       sample_world)
  = (Return (Credentials (strip "a@b.c") (strip "secret")
               ∅ (list_to_set ["051003"; "051001"])
               ["a@b.c" +:+ nl; "secret" +:+ nl;
                courses_of_excluded ["051003"; "051001"] +:+ nl]),
     write_credential_file 0
       (Account "a@b.c" "secret" (Some (courses_of_excluded ["051003"; "051001"])))
       sample_world).
Proof.
  apply (credential_file_roundtrip 0
           (Account "a@b.c" "secret"
              (Some (courses_of_excluded ["051003"; "051001"])))
           ["051003"; "051001"] thursday_noon sample_world).
  - reflexivity.
  - reflexivity.
  - reflexivity.
  - repeat constructor.
Defined.

(** A carriage return in the email written is a line break when the file
    is read: the password moves to the course line and loads as a
    registered course. *)
Example credential_file_carriage_return :
  ∃ cr w1,
    read_credentials_file (credential_path 0) thursday_noon
      (write_credential_file 0
         (Account ("a" +:+ String carriage_return "b") "secret" None)
         sample_world)
    = (Return cr, w1) ∧
    email cr = "a" ∧ password cr = "b" ∧ existing_days cr = {[ "secret" ]}.
Proof.
  eexists _, _. split; [by vm_compute|]. cbn [email password existing_days].
  split; [done|]. split; [done|]. apply set_eq. intros x. by vm_compute.
Qed.


(** *** The status of the courses *)

Lemma fold_left_map {A B} (f : A → B → A) (xs : list B) (d : list A) :
  fold_left (λ d x, map (λ a, f a x) d) xs d
  = map (λ a, fold_left f xs a) d.
Proof.
  revert d. induction xs as [|x xs IH]; intros d; simpl.
  - by rewrite map_id.
  - by rewrite IH, map_map.
Qed.

Lemma entry_registered_fold k c st (rs : list string) :
  fold_left entry_registered rs (k, CourseState c st)
  = (k, CourseState c (if bool_decide (k ∈ rs) then "registered" else st)).
Proof.
  revert st. induction rs as [|r rs IH]; intros st; simpl; [done|].
  unfold entry_registered at 2. simpl.
  destruct (String.eqb_spec k r) as [->|Hne]; rewrite IH.
  - rewrite (bool_decide_eq_true_2 (r ∈ r :: rs)) by by left.
    by destruct (bool_decide (r ∈ rs)).
  - destruct (bool_decide (k ∈ rs)) eqn:E.
    + apply bool_decide_eq_true in E.
      by rewrite (bool_decide_eq_true_2 (k ∈ r :: rs)) by by right.
    + apply bool_decide_eq_false in E.
      rewrite (bool_decide_eq_false_2 (k ∈ r :: rs)); [done|].
      by intros [->|?]%elem_of_cons.
Qed.

Lemma entry_excluded_fold k c st (es : list string) :
  st = "unknown" ∨ st = "registered" ∨ st = "excluded" →
  fold_left entry_excluded es (k, CourseState c st)
  = (k, CourseState c (if bool_decide (k ∈ es)
                          && negb (String.eqb st "registered")
                       then "excluded" else st)).
Proof.
  revert st. induction es as [|e es IH]; intros st Hst; simpl.
  - done.
  - unfold entry_excluded at 2. simpl.
    destruct (String.eqb_spec k e) as [->|Hne].
    + rewrite (bool_decide_eq_true_2 (e ∈ e :: es)) by by left.
      destruct Hst as [->|[->| ->]]; simpl; rewrite IH by auto; simpl;
        by destruct (bool_decide (e ∈ es)).
    + simpl. rewrite IH by done.
      destruct (bool_decide (k ∈ es)) eqn:E.
      * apply bool_decide_eq_true in E.
        by rewrite (bool_decide_eq_true_2 (k ∈ e :: es)) by by right.
      * apply bool_decide_eq_false in E.
        rewrite (bool_decide_eq_false_2 (k ∈ e :: es)); [done|].
        by intros [->|?]%elem_of_cons.
Qed.

Lemma status_of_account_entry (w : world) (i : nat)
    (d : list (string * course_state)) :
  status_of_account w d i
  = map (λ kv,
      match listed_courses w i with
      | None => kv
      | Some (rs, es) => fold_left entry_excluded es (fold_left entry_registered rs kv)
      end) d.
Proof.
  unfold status_of_account. destruct (listed_courses w i) as [[rs es]|].
  - unfold mark_excluded, mark_registered.
    rewrite (fold_left_map entry_registered), (fold_left_map entry_excluded).
    by rewrite map_map.
  - by rewrite map_id.
Qed.

Lemma status_dict_fold (w : world) (accs : list nat) (R E : string → bool)
    (d : list (string * course_state)) :
  Forall (λ kv, cs_status kv.2 = status_after (R kv.1) (E kv.1)) d →
  fold_left (status_of_account w) accs d
  = map (λ kv, (kv.1, CourseState (cs_course kv.2)
                  (status_after
                     (R kv.1 || existsb (λ i, account_registers w i kv.1) accs)
                     (E kv.1 || existsb (λ i, account_excludes w i kv.1) accs)))) d.
Proof.
  revert R E d. induction accs as [|i accs IH]; intros R E d Hd; simpl.
  - rewrite <- (map_id d) at 1. apply map_ext_Forall.
    eapply Forall_impl; [apply Hd|]. intros [k [c st]] Hst. simpl in *.
    by rewrite !orb_false_r, Hst.
  - rewrite (IH (λ k, R k || account_registers w i k)
                (λ k, E k || account_excludes w i k)).
    + rewrite status_of_account_entry, map_map. apply map_ext_Forall.
      eapply Forall_impl; [apply Hd|]. intros [k [c st]] Hst. simpl in *.
      unfold account_registers, account_excludes.
      destruct (listed_courses w i) as [[rs es]|]; simpl.
      2: { by rewrite !orb_false_r. }
      rewrite entry_registered_fold, entry_excluded_fold.
      * simpl. by rewrite !orb_assoc.
      * destruct (bool_decide (k ∈ rs)); [auto|]. subst st.
        unfold status_after. destruct (R k); [auto|]. destruct (E k); auto.
    + rewrite status_of_account_entry. apply Forall_forall.
      intros kv' Hin. apply list_elem_of_In, in_map_iff in Hin
        as ([k [c st]] & <- & Hin).
      rewrite Forall_forall in Hd. apply list_elem_of_In, Hd in Hin.
      simpl in Hin. unfold account_registers, account_excludes.
      destruct (listed_courses w i) as [[rs es]|]; simpl;
        [|by rewrite !orb_false_r].
      rewrite entry_registered_fold, entry_excluded_fold.
      * simpl. subst st. unfold status_after.
        destruct (R k), (E k), (bool_decide (k ∈ rs)), (bool_decide (k ∈ es));
          done.
      * destruct (bool_decide (k ∈ rs)); [auto|]. subst st.
        unfold status_after. destruct (R k); [auto|]. destruct (E k); auto.
Qed.

Lemma existsb_seq (f : nat → bool) (n : nat) :
  existsb f (seq 0 n) = true ↔ ∃ i, (i < n)%nat ∧ f i = true.
Proof.
  rewrite existsb_exists. split.
  - intros (i & Hi & Hf). apply in_seq in Hi. exists i. split; [lia|done].
  - intros (i & Hi & Hf). exists i. split; [|done]. apply in_seq. lia.
Qed.

(** [get_course_status] lists the courses of [get_all_courses] in their
    order, each with a status that does not depend on the order of the
    accounts: registered when the file of some account lists it as
    registered; otherwise excluded when the file of some account lists it
    as excluded; otherwise available. *)
Theorem get_course_status_priority (n : nat) (w : world) :
  map cs_course (get_course_status n w) = get_all_courses ∧
  ∀ cs, cs ∈ get_course_status n w →
    (cs_status cs = "registered" ↔
     ∃ i, (i < n)%nat ∧ account_registers w i (c_id (cs_course cs)) = true) ∧
    (cs_status cs = "excluded" ↔
     (¬ ∃ i, (i < n)%nat ∧ account_registers w i (c_id (cs_course cs)) = true) ∧
     ∃ i, (i < n)%nat ∧ account_excludes w i (c_id (cs_course cs)) = true) ∧
    (cs_status cs = "available" ↔
     (¬ ∃ i, (i < n)%nat ∧ account_registers w i (c_id (cs_course cs)) = true) ∧
     ¬ ∃ i, (i < n)%nat ∧ account_excludes w i (c_id (cs_course cs)) = true).
Proof.
  unfold get_course_status. cbv zeta.
  rewrite (status_dict_fold w (seq 0 n) (λ _, false) (λ _, false));
    [|unfold initial_status_dict; by repeat constructor].
  rewrite map_map. unfold initial_status_dict. rewrite !map_map.
  cbn [fst snd cs_course cs_status orb]. split.
  { rewrite <- (map_id get_all_courses) at 2. apply map_ext. intros c.
    unfold mark_available. cbn [cs_course cs_status].
    by destruct (String.eqb _ _). }
  intros cs Hcs. apply list_elem_of_In, in_map_iff in Hcs as (c & <- & _).
  pose proof (existsb_seq (λ i, account_registers w i (c_id c)) n) as Hr.
  pose proof (existsb_seq (λ i, account_excludes w i (c_id c)) n) as He.
  cbv beta in Hr, He. unfold mark_available, status_after.
  cbn [cs_course cs_status fst snd].
  destruct (existsb (λ i, account_registers w i (c_id c)) (seq 0 n));
    destruct (existsb (λ i, account_excludes w i (c_id c)) (seq 0 n));
    simpl; intuition (try done).
Qed.

End Dashboard.

(** ** More about the store and the workflow engine *)

Section EngineMore.

(** Where the clicks of an invocation land.  A course that the loaded
    record excludes or holds as registered is skipped under its own name,
    as excluded first and as already in the configuration otherwise, and
    a course the loop signs up was in neither set.  Every click is made
    for a course number that passed both filters, on the button that is
    found again at the position that number has among the numbers read:
    whether that button is the one of that course is up to the page.
    When it is (every number could be read and the page lists the same
    buttons), no button of an excluded or registered course is clicked. *)
Theorem check_and_register_courses_filters (path : string) (e : env)
    (w w1 : world) (cr : credentials) :
  read_credentials_file path (datetime_now e) w = (Return cr, w1) →
  let r := check_and_register_courses path e w in
  (∀ x o, (x, o) ∈ run_outcomes r →
     (x ∈ excluded_days cr → o = Skipped_excluded) ∧
     (x ∉ excluded_days cr → x ∈ existing_days cr →
      o = Skipped_in_configuration) ∧
     (registered_by o = true →
      (x ∉ excluded_days cr) ∧ (x ∉ existing_days cr))) ∧
  (∀ button, button ∈ run_clicked r →
     ∃ buttons, find_buttons e = Some buttons ∧
                click_at e cr (available_days_of buttons) button) ∧
  (clicks_as_read e →
   ∀ x, x ∈ excluded_days cr ∪ existing_days cr → Some x ∉ run_clicked r).
Proof.
  intros Hr r.
  assert (Hall : Forall (filtered cr) (run_outcomes r)).
  { destruct (check_and_register_courses_cases path e w cr w1 Hr)
      as [(_ & H & _)|[(_ & _ & _ & _ & H)|(? & _ & _ & H & _)]]; done. }
  rewrite Forall_forall in Hall. split; [|split].
  - intros x o Hin. destruct (Hall _ Hin) as (H1 & H2 & H3).
    simpl in *. split; [done|]. split; [done|].
    intros Ho. split; intros Hx.
    + rewrite (H1 Hx) in Ho. done.
    + destruct (decide (x ∈ excluded_days cr)) as [Hx'|Hx'];
        [rewrite (H1 Hx') in Ho|rewrite (H2 Hx' Hx) in Ho]; done.
  - apply (check_and_register_courses_clicks path e w cr w1 Hr).
  - intros Hcar x Hx Hin.
    destruct (check_and_register_courses_clicks path e w cr w1 Hr _ Hin)
      as (buttons & Hb & i & y & updated & H1 & H2 & H3 & H4 & H5).
    pose proof (Hcar buttons i y updated (Some x) Hb H1 H4 H5) as Heq.
    injection Heq as ->. set_solver.
Qed.

Lemma check_and_register_courses_filters_witness :
  let r := check_and_register_courses "account" lists_051011 sample_world in
  (∀ x o, (x, o) ∈ run_outcomes r →
     (x ∈ excluded_days sample_loaded → o = Skipped_excluded) ∧
     (x ∉ excluded_days sample_loaded → x ∈ existing_days sample_loaded →
      o = Skipped_in_configuration) ∧
     (registered_by o = true →
      (x ∉ excluded_days sample_loaded) ∧ (x ∉ existing_days sample_loaded))) ∧
  (∀ button, button ∈ run_clicked r →
     ∃ buttons, find_buttons lists_051011 = Some buttons ∧
                click_at lists_051011 sample_loaded
                  (available_days_of buttons) button) ∧
  (clicks_as_read lists_051011 →
   ∀ x, x ∈ excluded_days sample_loaded ∪ existing_days sample_loaded →
        Some x ∉ run_clicked r).
Proof.
  apply (check_and_register_courses_filters "account" lists_051011
           sample_world sample_world sample_loaded).
  vm_compute. reflexivity.
Defined.

(** A button whose row shows no course number shifts the clicks: the
    loop counts the numbers it could read, and clicks by that count among
    all buttons.  Here 051003 is excluded and skipped under its own name,
    and the click made for 051002 lands on the button of 051003; the site
    confirms, and 051002 is written to the file as registered. *)
Example unreadable_button_shifts_click :
  let r := check_and_register_courses "account" unreadable_first sample_world in
  "051003" ∈ excluded_in sample_text ∧
  run_outcomes r = [("051003", Skipped_excluded);
                    ("051002", Successfully_registered)] ∧
  run_clicked r = [Some "051003"] ∧
  ∃ all exc, run_ending r = File_updated all exc ∧ "051002" ∈ all.
Proof.
  cbv zeta. split; [by vm_compute|]. split; [by vm_compute|].
  split; [by vm_compute|]. eexists _, _. split; [by vm_compute|]. by vm_compute.
Qed.

(** An invocation opens no file for writing but the credentials file it
    was given: twice at most, once in the load and once after the loop.
    The credentials file of another account holds after it what it held
    before, and a missing credentials file is not created. *)
Theorem check_and_register_courses_writes (path : string) (e : env) (w : world) :
  let r := check_and_register_courses path e w in
  (∃ ws, write_log (run_world r) = write_log w ++ ws ∧
         (length ws ≤ 2)%nat ∧ ∀ pc, pc ∈ ws → pc.1 = path) ∧
  (∀ i, credential_path i ≠ path →
        files (run_world r) !! credential_path i = files w !! credential_path i) ∧
  (files w !! path = None →
   files (run_world r) !! path = None ∧
   write_log (run_world r) = write_log w).
Proof.
  intros r. unfold r. clear r.
  destruct (read_credentials_file path (datetime_now e) w) as [[cr|code] w1] eqn:Hr.
  - destruct (read_credentials_file_Return _ _ _ _ _ Hr)
      as (text & Hf & _ & _ & _ & _ & _ & Hw).
    assert (Hw1 : (∀ p, p ≠ path → files w1 !! p = files w !! p) ∧
                  ∃ ws, write_log w1 = write_log w ++ ws ∧
                        (length ws ≤ 1)%nat ∧ ∀ pc, pc ∈ ws → pc.1 = path).
    { destruct Hw as [(_ & _ & ->)|(_ & _ & ->)].
      - split; [done|]. exists []. rewrite app_nil_r.
        split; [done|]. split; [simpl; lia|]. by intros pc Hpc%elem_of_nil.
      - split; [intros p Hp; simpl; by rewrite lookup_insert_ne|].
        eexists [_]. split; [done|]. split; [simpl; lia|].
        by intros pc ->%list_elem_of_singleton. }
    destruct Hw1 as (Hfr & ws & Hlog & Hlen & Hws).
    split; [|split; [|by rewrite Hf]].
    + destruct (check_and_register_courses_cases path e w cr w1 Hr)
        as [(-> & _)|[(-> & _)|(? & _ & _ & _ & _ & ->)]].
      * exists ws. split; [done|]. split; [lia|done].
      * exists ws. split; [done|]. split; [lia|done].
      * eexists (ws ++ [_]). simpl. rewrite Hlog, <- app_assoc.
        split; [done|]. split; [rewrite length_app; simpl; lia|].
        intros pc [Hpc| ->%list_elem_of_singleton]%elem_of_app; [by apply Hws|done].
    + intros i Hp.
      destruct (check_and_register_courses_cases path e w cr w1 Hr)
        as [(-> & _)|[(-> & _)|(? & _ & _ & _ & _ & ->)]]; try by apply Hfr.
      simpl. rewrite lookup_insert_ne by done. by apply Hfr.
  - assert (Hrun : check_and_register_courses path e w
                   = Run (Sys_exit code) [] [] w1).
    { unfold check_and_register_courses. by rewrite Hr. }
    assert (w1 = w) as ->.
    { unfold read_credentials_file in Hr.
      destruct (files w !! path) as [text|]; [|by injection Hr].
      cbv zeta in Hr.
      destruct (length (readlines text) <? 2)%nat; [by injection Hr|].
      destruct (parse_course_line (readlines text)) as [[ex exc] ls].
      by destruct (decide _). }
    rewrite Hrun. simpl. split; [|done].
    exists []. rewrite app_nil_r. split; [done|]. split; [simpl; lia|].
    by intros pc Hpc%elem_of_nil.
Qed.

Lemma readlines_last (s : string) :
  none_of is_newline s = true → nonempty s = true → readlines s = [s].
Proof.
  induction s as [|c r IH]; simpl; [done|].
  intros [Hc Hr]%andb_true_iff _. unfold is_newline in Hc.
  destruct (Ascii.eqb c newline); [done|].
  destruct r as [|c' r']; [done|]. by rewrite IH.
Qed.

(** A credentials file of two lines whose password line is not ended by
    a line break: an invocation that runs through writes the course line
    directly behind the password, so that the file still has two lines,
    holds no registered course for the next load, and reads back with the
    course line as part of the password. *)
Theorem password_line_glued (path : string) (e : env) (w : world)
    (b0 b1 : string) (all exc : gset string) :
  files w !! path = Some (b0 +:+ nl +:+ b1) →
  none_of is_newline b0 = true → none_of is_newline b1 = true →
  nonempty b1 = true → scraped_one_line e →
  run_ending (check_and_register_courses path e w) = File_updated all exc →
  files (run_world (check_and_register_courses path e w)) !! path
  = Some (b0 +:+ nl +:+ b1 +:+ course_line all exc) ∧
  readlines (b0 +:+ nl +:+ b1 +:+ course_line all exc)
  = [b0 +:+ nl; b1 +:+ course_line all exc] ∧
  registered_in (b0 +:+ nl +:+ b1 +:+ course_line all exc) = ∅.
Proof.
  intros Hf H0 H1 Hne Hscr Hend.
  assert (Hrl : readlines (b0 +:+ nl +:+ b1) = [b0 +:+ nl; b1]).
  { rewrite readlines_line by done. by rewrite readlines_last. }
  destruct (read_credentials_file_total path (datetime_now e) w _ Hf)
    as (cr & w1 & Hr); [rewrite Hrl; simpl; lia|].
  destruct (read_credentials_file_Return _ _ _ _ _ Hr)
    as (text & Hf' & _ & _ & _ & Hexc & Hex & Hw).
  rewrite Hf in Hf'. injection Hf' as <-.
  assert (Hreg : registered_in (b0 +:+ nl +:+ b1) = ∅).
  { unfold registered_in. by rewrite Hrl. }
  assert (Hexc0 : excluded_in (b0 +:+ nl +:+ b1) = ∅).
  { unfold excluded_in. by rewrite Hrl. }
  assert (Hls : (parse_course_line (readlines (b0 +:+ nl +:+ b1))).2
                = [b0 +:+ nl; b1; nl]) by by rewrite Hrl.
  rewrite Hreg in Hex, Hw. rewrite Hexc0 in Hexc.
  assert (Hnone : courses_to_remove ∅ (datetime_now e) = ∅).
  { apply courses_to_remove_empty. set_solver. }
  destruct Hw as [(_ & Hl & ->)|(Hn & _)]; [|done].
  rewrite Hls in Hl.
  destruct (check_and_register_courses_cases path e w cr w Hr)
    as [(_ & _ & [He|He])|[(_ & He & _)|(buttons & Hb & Hm & _ & He & Hw)]];
    rewrite He in Hend; try done.
  injection Hend as <- <-.
  assert (Hbody : none_of is_newline
                    (join ", " (all_days_combined
                       (existing_days cr
                        ∪ signed_up_in (run_outcomes
                            (check_and_register_courses path e w)))
                       (excluded_days cr))) = true).
  { apply course_line_one_line. rewrite Hex, Hexc.
    intros y Hy. assert (Hy' : y ∈ signed_up_in (run_outcomes
                     (check_and_register_courses path e w))) by set_solver.
    apply (Hscr buttons); [done|]. rewrite <- Hm.
    unfold signed_up_in in Hy'.
    apply elem_of_list_to_set, list_elem_of_In, in_map_iff in Hy'
      as (yo & <- & Hyo).
    apply list_elem_of_In, list_elem_of_filter in Hyo as [_ Hyo].
    by apply list_elem_of_In, in_map, list_elem_of_In. }
  set (all := existing_days cr ∪ signed_up_in _) in *.
  assert (Htext : writelines (set_course_line (lines cr) all (excluded_days cr))
                  = b0 +:+ nl +:+ b1 +:+ course_line all (excluded_days cr)).
  { rewrite Hl. unfold set_course_line, set_third.
    change (<[2%nat:=course_line all (excluded_days cr)]> [b0 +:+ nl; b1; nl])
      with [b0 +:+ nl; b1; course_line all (excluded_days cr)].
    rewrite !writelines_cons, !str_app_assoc.
    change (writelines []) with "". by rewrite str_app_nil_r. }
  assert (Hrl2 : readlines (b0 +:+ nl +:+ b1 +:+ course_line all (excluded_days cr))
                 = [b0 +:+ nl; b1 +:+ course_line all (excluded_days cr)]).
  { rewrite readlines_line by done. unfold course_line.
    rewrite <- str_app_assoc.
    rewrite <- (str_app_nil_r ((b1 +:+ _) +:+ nl)), str_app_assoc.
    rewrite readlines_line; [done|].
    by rewrite none_of_app, H1, Hbody. }
  split; [|split; [done|]].
  - rewrite Hw. simpl. rewrite lookup_insert_eq. by rewrite Htext.
  - unfold registered_in. by rewrite Hrl2.
Qed.

Lemma password_line_glued_witness :
  files (run_world (check_and_register_courses "account" lists_051011
                      (World {[ "account" := "a@b.c" +:+ nl +:+ "secret" ]} [])))
    !! "account"
  = Some ("a@b.c" +:+ nl +:+ "secret" +:+ course_line {[ "051011" ]} ∅) ∧
  readlines ("a@b.c" +:+ nl +:+ "secret" +:+ course_line {[ "051011" ]} ∅)
  = ["a@b.c" +:+ nl; "secret" +:+ course_line {[ "051011" ]} ∅] ∧
  registered_in ("a@b.c" +:+ nl +:+ "secret" +:+ course_line {[ "051011" ]} ∅) = ∅.
Proof.
  apply (password_line_glued "account" lists_051011
           (World {[ "account" := "a@b.c" +:+ nl +:+ "secret" ]} [])
           "a@b.c" "secret" {[ "051011" ]} ∅).
  - reflexivity.
  - reflexivity.
  - reflexivity.
  - reflexivity.
  - intros buttons c [= <-] Hc. apply list_elem_of_singleton in Hc as ->.
    reflexivity.
  - vm_compute. reflexivity.
Defined.

(** *** Loading twice *)

Lemma lstrip_head (s : string) :
  lstrip s = "" ∨ ∃ c r, lstrip s = String c r ∧ is_space c = false.
Proof.
  induction s as [|c r IH]; simpl; [by left|].
  destruct (is_space c) eqn:Ec; [done|]. right. by exists c, r.
Qed.

Lemma rstrip_head (c : ascii) (r : string) :
  is_space c = false → ∃ r', rstrip (String c r) = String c r'.
Proof.
  intros Hc. simpl. destruct (rstrip r); rewrite ?Hc; by eexists.
Qed.

Lemma rstrip_cons (c : ascii) (r : string) :
  rstrip (String c r)
  = match rstrip r with
    | EmptyString => if is_space c then EmptyString else String c EmptyString
    | r' => String c r'
    end.
Proof. reflexivity. Qed.

Lemma rstrip_idem (s : string) : rstrip (rstrip s) = rstrip s.
Proof.
  induction s as [|c r IH]; [done|]. rewrite rstrip_cons.
  destruct (rstrip r) as [|c' r'] eqn:Er.
  - destruct (is_space c) eqn:Ec; [done|]. rewrite rstrip_cons. simpl.
    by rewrite Ec.
  - rewrite rstrip_cons, IH. done.
Qed.

Lemma strip_idem (s : string) : strip (strip s) = strip s.
Proof.
  unfold strip. destruct (lstrip_head s) as [->|(c & r & -> & Hc)]; [done|].
  destruct (rstrip_head c r Hc) as [r' Er]. rewrite Er. simpl lstrip.
  rewrite Hc, <- Er. apply rstrip_idem.
Qed.

Lemma stripped_pad (p x q : string) :
  all_space p = true → all_space q = true → strip x = x →
  strip (p +:+ x +:+ q) = x.
Proof.
  intros Hp Hq Hx. rewrite <- Hx at 2. rewrite <- (strip_app_space x q Hq).
  unfold strip. by rewrite lstrip_app_space.
Qed.

Lemma none_of_lstrip p s : none_of p s = true → none_of p (lstrip s) = true.
Proof.
  induction s as [|c r IH]; simpl; [done|].
  intros [Hc Hr]%andb_true_iff. destruct (is_space c); [by apply IH|].
  simpl. by rewrite Hc, Hr.
Qed.

Lemma none_of_rstrip p s : none_of p s = true → none_of p (rstrip s) = true.
Proof.
  induction s as [|c r IH]; simpl; [done|].
  intros [Hc Hr]%andb_true_iff. specialize (IH Hr).
  destruct (rstrip r); [destruct (is_space c)|]; simpl in *; by rewrite ?Hc.
Qed.

Lemma split_pieces (sep : ascii) (s : string) :
  Forall (λ p, none_of (λ c, Ascii.eqb c sep) p = true) (split sep s).
Proof.
  induction s as [|c r IH]; simpl; [by repeat constructor|].
  destruct (Ascii.eqb c sep) eqn:Ec; [by constructor|].
  destruct (split sep r) as [|p ps]; [repeat constructor; simpl; by rewrite Ec|].
  inversion IH; subst. constructor; [|done]. simpl. by rewrite Ec.
Qed.

(** The tokens of a line are stripped and hold no comma. *)
Lemma all_days_of_tokens (line x : string) :
  x ∈ all_days_of line → strip x = x ∧ none_of is_comma x = true.
Proof.
  unfold all_days_of. intros Hx.
  apply list_elem_of_In, in_map_iff in Hx as (p & <- & Hp).
  split; [apply strip_idem|].
  pose proof (split_pieces comma line) as Hall. rewrite Forall_forall in Hall.
  apply list_elem_of_In, Hall in Hp. unfold strip.
  by apply none_of_rstrip, none_of_lstrip.
Qed.

Lemma bang_tail (t : string) : startswith_bang t = true → String bang (tail t) = t.
Proof.
  destruct t as [|c r]; simpl; [done|]. by intros ->%Ascii.eqb_eq.
Qed.

Lemma all_days_of_join_stripped (l : list string) (p : string) :
  l ≠ [] → all_space p = true →
  Forall (λ x, strip x = x ∧ none_of is_comma x = true) l →
  all_days_of (p +:+ join ", " l +:+ nl) = l.
Proof.
  intros Hne Hp Hl. revert p Hp. induction Hl as [|x l [Hx1 Hx2] Hl IH]; [done|].
  intros p Hp. destruct l as [|y l].
  - unfold all_days_of, join. simpl String.concat.
    rewrite split_none.
    + cbn [map]. by rewrite stripped_pad.
    + change (λ c, Ascii.eqb c comma) with is_comma.
      by rewrite !none_of_app, all_space_no_comma, Hx2.
  - rewrite join_cons_cons.
    change (", " +:+ join ", " (y :: l))
      with (String comma (" " +:+ join ", " (y :: l))).
    rewrite <- !str_app_assoc, str_app_assoc. rewrite str_app_cons.
    unfold all_days_of. rewrite split_app_sep, map_app.
    rewrite split_none.
    + cbn [map app]. rewrite <- (str_app_nil_r (p +:+ x)), str_app_assoc.
      rewrite stripped_pad by done. f_equal.
      rewrite str_app_assoc. by apply IH.
    + change (λ c, Ascii.eqb c comma) with is_comma.
      by rewrite none_of_app, all_space_no_comma, Hx2.
Qed.

(** The sets parsed from a file are written as the tokens of the line
    they came from. *)
Lemma all_days_combined_parsed (text : string) (reg : gset string) :
  reg ⊆ registered_in text →
  Forall (λ x, strip x = x ∧ none_of is_comma x = true)
         (all_days_combined reg (excluded_in text)) ∧
  ∀ x, x ∈ reg → startswith_bang x = false.
Proof.
  intros Hsub. unfold registered_in, excluded_in, parse_course_line in *.
  destruct (_ && _); cbn [fst snd] in *.
  - split.
    + unfold all_days_combined. apply Forall_app. split.
      * apply Forall_forall. intros x Hx%elem_of_sorted.
        apply Hsub, elem_of_existing_of in Hx as [Hx _].
        by eapply all_days_of_tokens.
      * apply Forall_forall. intros y Hy.
        apply list_elem_of_In, in_map_iff in Hy as (d & <- & Hd).
        apply list_elem_of_In, elem_of_sorted, elem_of_excluded_of in Hd
          as (t & Ht & Hb & ->).
        rewrite bang_tail by done. by eapply all_days_of_tokens.
    + intros x Hx. by apply Hsub, elem_of_existing_of in Hx as [_ Hx].
  - split; [|set_solver].
    assert (reg = ∅) as -> by set_solver. by vm_compute.
Qed.

(** A second load at the same time as a load that returned writes
    nothing; it returns the same email and password, and the same two
    sets, unless the third line the first load wrote is blank, in which
    case it returns two empty sets. *)
Theorem read_credentials_file_again (path : string) (now : Z)
    (w w1 : world) (cr : credentials) :
  read_credentials_file path now w = (Return cr, w1) →
  ∃ cr', read_credentials_file path now w1 = (Return cr', w1) ∧
    email cr' = email cr ∧ password cr' = password cr ∧
    ((existing_days cr' = existing_days cr ∧
      excluded_days cr' = excluded_days cr) ∨
     (strip (course_line (existing_days cr) (excluded_days cr)) = "" ∧
      existing_days cr' = ∅ ∧ excluded_days cr' = ∅)).
Proof.
  intros Hr.
  destruct (read_credentials_file_Return _ _ _ _ _ Hr)
    as (text & Hf & Hlen & Hem & Hpw & Hexc & Hex & Hw).
  destruct Hw as [(_ & _ & ->)|(Hne & Hl & ->)].
  { exists cr. split; [done|]. split; [done|]. split; [done|]. by left. }
  assert (Hx : ∃ x, x ∈ registered_in text).
  { apply set_choose_L. intros He. apply Hne. rewrite He.
    apply courses_to_remove_empty. set_solver. }
  destruct Hx as [x Hx].
  destruct (registered_shape text x Hx)
    as (b0 & b1 & third & rest & Hrl & Hn0 & Hn1 & Hls).
  rewrite Hls, Hrl in Hl. rewrite Hrl in Hem, Hpw. simpl in Hem, Hpw.
  assert (Hsub : existing_days cr ⊆ registered_in text) by (rewrite Hex; set_solver).
  destruct (all_days_combined_parsed text (existing_days cr) Hsub) as [Htok Hbare].
  rewrite <- Hexc in Htok.
  assert (Hnl : ∀ y, y ∈ existing_days cr ∪ excluded_days cr →
                     none_of is_newline y = true).
  { intros y Hy. apply (parsed_one_line text). rewrite Hexc in Hy. set_solver. }
  assert (Hnone : courses_to_remove (existing_days cr) now = ∅).
  { apply courses_to_remove_empty. intros c Hc. rewrite Hex in Hc.
    apply elem_of_difference in Hc as [Hc Hnc].
    destruct (course_has_just_started c now) eqn:E; [|done].
    exfalso. apply Hnc. unfold courses_to_remove. by apply elem_of_filter. }
  assert (Hnone0 : courses_to_remove ∅ now = ∅).
  { apply courses_to_remove_empty. set_solver. }
  unfold read_credentials_file.
  assert (Hf1 : files (write_file path (lines cr) w) !! path
                = Some (writelines (lines cr))) by apply lookup_insert_eq.
  rewrite Hf1, Hl. cbv zeta. rewrite readlines_saved by done.
  cbn [length Nat.ltb Nat.leb nth]. rewrite <- Hem, <- Hpw.
  unfold parse_course_line. cbn [length Nat.ltb Nat.leb nth andb].
  destruct (strip (course_line (existing_days cr) (excluded_days cr))) eqn:Es;
    cbn [nonempty].
  - destruct (decide (courses_to_remove ∅ now = ∅)); [|done].
    eexists. split; [done|]. split; [done|]. split; [done|]. by right.
  - assert (Hall : all_days_of (course_line (existing_days cr) (excluded_days cr))
                   = all_days_combined (existing_days cr) (excluded_days cr)).
    { apply (all_days_of_join_stripped _ ""); [|done|done].
      intros Hnil. unfold course_line in Es. rewrite Hnil in Es. done. }
    rewrite Hall, existing_of_combined, excluded_of_combined by done.
    destruct (decide (courses_to_remove (existing_days cr) now = ∅)); [|done].
    eexists. split; [done|]. split; [done|]. split; [done|]. by left.
Qed.

Lemma read_credentials_file_again_witness :
  ∃ cr', read_credentials_file "account" wednesday_1841 sample_pruned_world
         = (Return cr', sample_pruned_world) ∧
    email cr' = email sample_pruned ∧ password cr' = password sample_pruned ∧
    ((existing_days cr' = existing_days sample_pruned ∧
      excluded_days cr' = excluded_days sample_pruned) ∨
     (strip (course_line (existing_days sample_pruned)
               (excluded_days sample_pruned)) = "" ∧
      existing_days cr' = ∅ ∧ excluded_days cr' = ∅)).
Proof.
  apply (read_credentials_file_again "account" wednesday_1841 sample_world).
  vm_compute. reflexivity.
Defined.

End EngineMore.

(** ** The dashboard and the engine read a file alike *)

Section SameReading.

Lemma lstrip_decomp (s : string) :
  ∃ p, all_space p = true ∧ s = p +:+ lstrip s.
Proof.
  induction s as [|c r (p & Hp & IH)]; [by exists ""|]. simpl.
  destruct (is_space c) eqn:Ec; [|by exists ""].
  exists (String c p). split; [simpl; by rewrite Ec|].
  by rewrite str_app_cons, <- IH.
Qed.

Lemma rstrip_decomp (s : string) :
  ∃ q, all_space q = true ∧ s = rstrip s +:+ q.
Proof.
  induction s as [|c r (q & Hq & IH)]; [by exists ""|]. rewrite rstrip_cons.
  destruct (rstrip r) as [|c' r'] eqn:Er.
  - change ("" +:+ q) with q in IH. subst q.
    destruct (is_space c) eqn:Ec.
    + exists (String c r). split; [simpl; by rewrite Ec|done].
    + by exists r.
  - exists q. split; [done|]. by rewrite str_app_cons, <- IH.
Qed.

Lemma split_app_left (sep : ascii) (p m : string) :
  none_of (λ c, Ascii.eqb c sep) p = true →
  ∃ h t, split sep m = h :: t ∧ split sep (p +:+ m) = (p +:+ h) :: t.
Proof.
  intros Hp. induction p as [|c p IH].
  - destruct (split sep m) as [|h t] eqn:E; [by apply split_not_nil in E|].
    by exists h, t.
  - simpl in Hp. apply andb_true_iff in Hp as [Hc Hp].
    destruct (IH Hp) as (h & t & E1 & E2). exists h, t. split; [done|].
    rewrite str_app_cons. simpl. apply negb_true_iff in Hc.
    by rewrite Hc, E2.
Qed.

Lemma split_app_right (sep : ascii) (m q : string) :
  none_of (λ c, Ascii.eqb c sep) q = true →
  ∃ l x, split sep m = l ++ [x] ∧ split sep (m +:+ q) = l ++ [x +:+ q].
Proof.
  intros Hq. induction m as [|c m (l & x & E1 & E2)].
  - exists [], "". split; [done|]. by apply split_none.
  - rewrite str_app_cons. simpl. rewrite E1, E2.
    destruct (Ascii.eqb c sep).
    + by exists ("" :: l), x.
    + destruct l as [|y l]; simpl.
      * by exists [], (String c x).
      * by exists (String c y :: l), x.
Qed.

Lemma all_space_no_sep (p : string) :
  all_space p = true → none_of (λ c, Ascii.eqb c comma) p = true.
Proof. apply all_space_no_comma. Qed.

(** Stripping a line before it is split at the commas changes no
    stripped token. *)
Lemma all_days_of_strip (s : string) : all_days_of (strip s) = all_days_of s.
Proof.
  destruct (lstrip_decomp s) as (p & Hp & Es).
  destruct (rstrip_decomp (lstrip s)) as (q & Hq & El).
  fold (strip s) in El. unfold all_days_of.
  rewrite Es at 2. rewrite El.
  destruct (split_app_right comma (strip s) q (all_space_no_sep q Hq))
    as (l & x & E1 & E2).
  destruct (split_app_left comma p (strip s +:+ q) (all_space_no_sep p Hp))
    as (h & t & E3 & E4).
  rewrite E4, E1. rewrite E2 in E3. cbn [map].
  assert (strip (p +:+ h) = strip h) as ->
    by (unfold strip; by rewrite lstrip_app_space).
  change (strip h :: map strip t) with (map strip (h :: t)).
  rewrite <- E3, !map_app. cbn [map]. by rewrite strip_app_space.
Qed.

(** The status page and the registration workflow take the same
    registered and the same excluded course numbers from the credentials
    file of an account. *)
Theorem listed_courses_agrees (w : world) (i : nat) (text c : string) :
  files w !! credential_path i = Some text →
  (account_registers w i c = true ↔ c ∈ registered_in text) ∧
  (account_excludes w i c = true ↔ c ∈ excluded_in text).
Proof.
  intros Hf. unfold account_registers, account_excludes, listed_courses,
    registered_in, excluded_in, parse_course_line.
  rewrite Hf. cbv zeta.
  destruct (3 <=? length (readlines text))%nat; cbn [andb fst snd];
    [|split; set_solver].
  destruct (nonempty (strip (nth 2 (readlines text) ""))); cbn [fst snd];
    [|split; set_solver].
  fold (all_days_of (strip (nth 2 (readlines text) ""))).
  rewrite all_days_of_strip. unfold existing_of, excluded_of.
  rewrite !bool_decide_eq_true, !elem_of_list_to_set. done.
Qed.

Lemma listed_courses_agrees_witness :
  (account_registers
     {| files := {[ credential_path 0 := sample_text ]}; write_log := [] |}
     0 "051011" = true ↔ "051011" ∈ registered_in sample_text) ∧
  (account_excludes
     {| files := {[ credential_path 0 := sample_text ]}; write_log := [] |}
     0 "051011" = true ↔ "051011" ∈ excluded_in sample_text).
Proof.
  apply (listed_courses_agrees
           {| files := {[ credential_path 0 := sample_text ]}; write_log := [] |}
           0 sample_text "051011").
  vm_compute. reflexivity.
Defined.

End SameReading.
